(** * PhysTwin2: Chamfer evaluation and Gaussian pruning

    A shallow embedding of [evaluate_chamfer.py], of [gs_render.py] (pruning,
    ray directions, [render_set] and [render_sets]) and of the object search
    of [export_render_eval_data.py], with the properties the specification
    states about them and further properties read off the code.

    Conventions of the embedding.
    - Tensor entries (float32 / float64 in the program) are exact rationals
      [Q]; numeric equalities are stated with [==].  The rounding of tensor
      arithmetic is not modelled, a division by zero is (it gives nan);
      where the program truncates a Python float to an int, the rounding of
      that float is modelled ([Module Float]).
    - Python [int]s are [Z]; tensors are lists (a tensor of shape (n, ...) is a
      list of length n); 3D points are triples.
    - A Python exception is the [Raise] outcome of the [result] monad.
    - External library calls (pytorch3d, kornia, torch) are modelled by the
      functions of [Module Lib], following the libraries' documented
      contracts. *)

From Stdlib Require Strings.String.
From Stdlib Require Import Strings.Ascii.
From Stdlib Require Import DecimalString DecimalNat.
From Stdlib Require Qcanon.
From Stdlib Require Import ZArith QArith Qpower Qround Qabs Qminmax Lia.
From stdpp Require Import base option list strings.

Set Default Proof Using "Type".

(** ** Python values, exceptions and indexing *)

Inductive exn := IndexError | ValueError | AssertionError.

Inductive result (A : Type) :=
| Ok (a : A)
| Raise (e : exn).
Arguments Ok {A} a.
Arguments Raise {A} e.

#[global] Instance result_ret : MRet result := fun A a => Ok a.
#[global] Instance result_bind : MBind result :=
  fun A B f m => match m with Ok a => f a | Raise e => Raise e end.

Module Py.

(** [len(l)] as a Python int. *)
Definition len {A} (l : list A) : Z := Z.of_nat (length l).

(** [l[i]] for an integer [i]: negative indices count from the end, an index
    outside [-len, len) raises IndexError. *)
Definition index {A} (l : list A) (i : Z) : result A :=
  let j := if (i <? 0)%Z then (len l + i)%Z else i in
  if ((0 <=? j) && (j <? len l))%Z
  then match l !! Z.to_nat j with Some a => Ok a | None => Raise IndexError end
  else Raise IndexError.

(** [l[:n]]: the first [n] entries, or all but the last [-n] when [n < 0]. *)
Definition slice_to {A} (l : list A) (n : Z) : list A :=
  if (n <? 0)%Z then take (Z.to_nat (len l + n)) l else take (Z.to_nat n) l.

(** The entries of [l] at the positions where [mask] is true. *)
Fixpoint select {A} (l : list A) (mask : list bool) : list A :=
  match l, mask with
  | a :: l', b :: mask' => if b then a :: select l' mask' else select l' mask'
  | _, _ => []
  end.

(** [l[mask]] for a boolean tensor [mask]: the shapes must agree. *)
Definition mask_index {A} (l : list A) (mask : list bool) : result (list A) :=
  if (length l =? length mask)%nat then Ok (select l mask) else Raise IndexError.

(** [range(start, stop)]. *)
Definition range (start stop : Z) : list Z :=
  (fun k => (start + Z.of_nat k)%Z) <$> seq 0 (Z.to_nat (stop - start)).

(** [for x in xs: s = body(x, s)], stopping at the first exception. *)
Fixpoint for_each {X S} (xs : list X) (body : X -> S -> result S) (s : S)
  : result S :=
  match xs with
  | [] => Ok s
  | x :: xs' => s' ← body x s; for_each xs' body s'
  end.

(** [enumerate(l)]. *)
Definition enumerate {A} (l : list A) : list (nat * A) :=
  zip (seq 0 (length l)) l.

(** [int(q)] for a float [q]: truncation toward zero. *)
Definition int_of (q : Q) : Z := Z.quot (Qnum q) (Z.pos (Qden q)).

End Py.

(** ** Numbers and points *)

Definition point : Type := Q * Q * Q.

Definition Qsum (l : list Q) : Q := foldr Qplus 0%Q l.

(** [a > b] and [a >= b] on tensor entries. *)
Definition Qgtb (a b : Q) : bool := negb (Qle_bool a b).
Definition Qgeb (a b : Q) : bool := Qle_bool b a.
Definition Qltb (a b : Q) : bool := negb (Qle_bool b a).

(** A NumPy float: a number or nan. *)
Inductive npfloat :=
| Finite (q : Q)
| NaN.

Module Lib.

(** The L1 distance and the squared L2 distance of two points. *)
Definition dist_L1 (p q : point) : Q :=
  let '(px, py, pz) := p in
  let '(qx, qy, qz) := q in
  (Qabs (px - qx) + Qabs (py - qy) + Qabs (pz - qz))%Q.

Definition dist2_L2 (p q : point) : Q :=
  let '(px, py, pz) := p in
  let '(qx, qy, qz) := q in
  ((px - qx) * (px - qx) + (py - qy) * (py - qy) + (pz - qz) * (pz - qz))%Q.

Definition dist (norm : Z) (p q : point) : Q :=
  if (norm =? 1)%Z then dist_L1 p q else dist2_L2 p q.

(** One scan of [pytorch3d.ops.knn_points] with K = 1: the running nearest
    point of [p2] (distance and index), the earlier point winning ties. *)
Fixpoint knn_scan (d : point -> Q) (p2 : list point) (j : Z)
         (best : option (Q * Z)) : option (Q * Z) :=
  match p2 with
  | [] => best
  | q :: p2' =>
      let best' :=
        match best with
        | None => Some (d q, j)
        | Some (bd, bj) => if Qltb (d q) bd then Some (d q, j) else best
        end in
      knn_scan d p2' (j + 1)%Z best'
  end.

(** [knn_points(p1, p2, norm=norm, K=1)] on one cloud pair: for each point of
    [p1] the distance to and the index of its nearest neighbour in [p2];
    padded with distance 0 and index -1 when [p2] is empty. *)
Definition knn_points (norm : Z) (p1 p2 : list point) : list (Q * Z) :=
  (fun p => default (0%Q, (-1)%Z) (knn_scan (dist norm p) p2 0%Z None)) <$> p1.

(** The per-cloud term of [chamfer_distance] with point_reduction="mean":
    the distances of the points of [x] to their nearest neighbours in [y],
    summed and divided by the number of points of [x] (clamped to 1). *)
Definition chamfer_single_direction (norm : Z) (x y : list point) : Q :=
  (Qsum (fst <$> knn_points norm x y) / inject_Z (Z.max (Py.len x) 1))%Q.

(** [pytorch3d.loss.chamfer_distance(x, y, single_directional=..., norm=...)]
    on batches [x], [y] of point clouds, with the default reductions
    (batch_reduction="mean", point_reduction="mean") and no normals.
    With [single_directional] the loss is measured from each point of [x] to
    its nearest neighbour in [y]; otherwise the term from [y] to [x] is
    added.  The result is the pair (loss, loss_normals). *)
Definition chamfer_distance (x y : list (list point))
           (single_directional : bool) (norm : Z) : result (Q * option Q) :=
  if negb ((norm =? 1) || (norm =? 2))%Z then Raise ValueError
  else if negb (length y =? length x)%nat then Raise ValueError
  else
    let cham_x := zip_with (chamfer_single_direction norm) x y in
    let cham_y := zip_with (chamfer_single_direction norm) y x in
    let loss := if single_directional then cham_x
                else zip_with Qplus cham_x cham_y in
    Ok ((Qsum loss / inject_Z (Z.max (Py.len x) 1))%Q, None).

(** The radius test of [pytorch3d.ops.ball_query]: the squared distance is
    compared with the squared radius. *)
Definition within_radius (radius : Q) (p q : point) : bool :=
  Qltb (dist2_L2 p q) (radius * radius).

(** One scan of [ball_query]: the first [K] points of [p2] that pass the
    radius test for the query point [p], in the order of [p2], each with its
    squared distance and its index. *)
Fixpoint ball_scan (radius : Q) (p : point) (p2 : list point) (j : Z)
         (K : nat) : list (Q * Z) :=
  match K, p2 with
  | O, _ | _, [] => []
  | S K', q :: p2' =>
      if within_radius radius p q
      then (dist2_L2 p q, j) :: ball_scan radius p p2' (j + 1)%Z K'
      else ball_scan radius p p2' (j + 1)%Z K
  end.

(** [ball_query(p1, p2, K=K, radius=radius)] on batches of clouds: the pair
    (dists, idx), each of shape (N, P1, K), padded with 0 and -1 where fewer
    than [K] points of [p2] lie within the radius. *)
Definition ball_query (p1 p2 : list (list point)) (K : nat) (radius : Q)
  : list (list (list Q)) * list (list (list Z)) :=
  let hits :=
    zip_with (fun c1 c2 : list point =>
      (fun p : point =>
         let found := ball_scan radius p c2 0%Z K in
         found ++ replicate (K - length found) (0%Q, (-1)%Z)) <$> c1) p1 p2 in
  (fmap (M := list) (fmap (M := list) (fmap (M := list) fst)) hits,
   fmap (M := list) (fmap (M := list) (fmap (M := list) snd)) hits).

(** [kornia.create_meshgrid(H, W, False)[0]]: pixel (x, y) coordinates, the
    entry of row [v] and column [u] being (u, v). *)
Definition create_meshgrid (H W : Z) : list (list (Q * Q)) :=
  (fun v => (fun u => (inject_Z (Z.of_nat u), inject_Z (Z.of_nat v)))
              <$> seq 0 (Z.to_nat W)) <$> seq 0 (Z.to_nat H).

(** [torch.round]: to the nearest integer, halves to the even one. *)
Definition round (q : Q) : Z :=
  let f := Qfloor q in
  let r := (q - inject_Z f)%Q in
  if Qltb r (1 # 2) then f
  else if Qltb (1 # 2) r then (f + 1)%Z
  else if Z.even f then f else (f + 1)%Z.

(** int32 arithmetic wraps around. *)
Definition wrap32 (z : Z) : Z :=
  ((z + 2 ^ 31) mod 2 ^ 32 - 2 ^ 31)%Z.

(** [t.long()] on a nan entry: the conversion to int64 gives the least
    int64. *)
Definition long_of_nan : Z := (- 2 ^ 63)%Z.

(** [np.mean] of a one-dimensional array: nan on the empty array. *)
Definition np_mean (a : list Q) : npfloat :=
  match a with
  | [] => NaN
  | _ => Finite (Qsum a / inject_Z (Py.len a))%Q
  end.

End Lib.

(** ** Python floats

    A Python float is a double.  Its value is an exact rational; an
    arithmetic operation returns the double nearest to the exact result.
    Only the operations whose rounding a later truncation can expose are
    modelled here. *)

Module Float.

(** [floor(log2 a)] for a positive rational [a]. *)
Definition exponent (a : Q) : Z :=
  let k := (Z.log2 (Qnum a) - Z.log2 (Z.pos (Qden a)))%Z in
  if Qltb a (2 ^ k) then (k - 1)%Z else k.

(** The double nearest to [q], ties going to the even significand: [q] is
    scaled to a significand of 53 bits (fewer below the normal range), which
    is rounded to an integer.  Overflow to infinity is not modelled. *)
Definition nearest (q : Q) : Q :=
  let q := Qred q in
  if Qeq_bool q 0 then 0%Q
  else
    let e := (Z.max (exponent (Qabs q)) (-1022) - 52)%Z in
    (inject_Z (Lib.round (q / 2 ^ e)) * 2 ^ e)%Q.

(** [float(n)] for an int [n]. *)
Definition of_int (n : Z) : Q := nearest (inject_Z n).

(** [x * y] on floats. *)
Definition mul (x y : Q) : Q := nearest (x * y).

End Float.

(** ** evaluate_chamfer.py *)

Module EvaluateChamfer.

(** The dictionary returned by [evaluate_prediction]. *)
Record results := {
  frame_len : Z;
  chamfer_error : npfloat;
}.

(** The body of the loop of [evaluate_prediction] up to the call of
    [chamfer_distance]: the Chamfer error of frame [frame_idx]. *)
Definition frame_chamfer_error
           (vertices object_points : list (list point))
           (object_visibilities object_motions_valid : list (list bool))
           (num_surface_points : Z) (frame_idx : Z) : result Q :=
  x ← Py.index vertices frame_idx;
  current_object_points ← Py.index object_points frame_idx;
  current_object_visibilities ← Py.index object_visibilities frame_idx;
  current_object_motions_valid ← Py.index object_motions_valid (frame_idx - 1);
  chamfer_object_points ←
    Py.mask_index current_object_points current_object_visibilities;
  let chamfer_x := Py.slice_to x num_surface_points in
  r ← Lib.chamfer_distance [chamfer_object_points] [chamfer_x] true 1;
  mret (fst r).

(** The loop of [evaluate_prediction]: the list [chamfer_errors] after it. *)
Definition chamfer_errors_loop
           (start_frame end_frame : Z)
           (vertices object_points : list (list point))
           (object_visibilities object_motions_valid : list (list bool))
           (num_surface_points : Z) : result (list Q) :=
  Py.for_each (Py.range start_frame end_frame)
    (fun frame_idx chamfer_errors =>
       chamfer_error ←
         frame_chamfer_error vertices object_points object_visibilities
           object_motions_valid num_surface_points frame_idx;
       mret (chamfer_errors ++ [chamfer_error]))
    [].

(** [evaluate_prediction] on tensors.  Lines 37-44 convert an argument that
    is not a tensor with [torch.tensor]; the conversion keeps the entries of
    an array or of a nested list whose rows have the same length, and the
    arguments here are the tensors after it.  (On a nested list with rows of
    different lengths the conversion raises ValueError before the loop; such
    an argument is no tensor and is not an input of this definition.) *)
Definition evaluate_prediction
           (start_frame end_frame : Z)
           (vertices object_points : list (list point))
           (object_visibilities object_motions_valid : list (list bool))
           (num_original_points num_surface_points : Z) : result results :=
  chamfer_errors ←
    chamfer_errors_loop start_frame end_frame vertices object_points
      object_visibilities object_motions_valid num_surface_points;
  mret {| frame_len := Py.len chamfer_errors;
          chamfer_error := Lib.np_mean chamfer_errors |}.

(** What the main script loads for one case: [inference.pkl], the entries of
    [final_data.pkl] it reads, and the two lists of [split.json]. *)
Record case_data := {
  case_name : String.string;
  vertices : list (list point);
  object_points : list (list point);
  object_visibilities : list (list bool);
  object_motions_valid : list (list bool);
  surface_points : list point;
  split_train : list Z;
  split_test : list Z;
}.

(** A row of the output CSV. *)
Record csv_row := {
  row_case : String.string;
  train_frame_num : Z;
  train_chamfer_error : npfloat;
  test_frame_num : Z;
  test_chamfer_error : npfloat;
}.

(** [t.shape[1]] of a rectangular tensor given by its rows. *)
Definition shape1 {A} (t : list (list A)) : Z :=
  match t with
  | [] => 0
  | r :: _ => Py.len r
  end.

(** The body of the loop over the cases of the main script, from the loaded
    data to the row it writes. *)
Definition process_case (c : case_data) : result csv_row :=
  let num_original_points := shape1 (object_points c) in
  let num_surface_points :=
    (num_original_points + Py.len (surface_points c))%Z in
  train_frame ← Py.index (split_train c) 1;
  test_frame ← Py.index (split_test c) 1;
  _ ← (if (test_frame =? Py.len (vertices c))%Z then Ok tt
       else Raise AssertionError);
  results_train ←
    evaluate_prediction 1 train_frame (vertices c) (object_points c)
      (object_visibilities c) (object_motions_valid c)
      num_original_points num_surface_points;
  results_test ←
    evaluate_prediction train_frame test_frame (vertices c) (object_points c)
      (object_visibilities c) (object_motions_valid c)
      num_original_points num_surface_points;
  mret {| row_case := case_name c;
          train_frame_num := frame_len results_train;
          train_chamfer_error := chamfer_error results_train;
          test_frame_num := frame_len results_test;
          test_chamfer_error := chamfer_error results_test |}.

(** The main loop: the rows written (after the header) and the exception
    that ended the run, if any. *)
Fixpoint main_loop (cases : list case_data) (written : list csv_row)
  : list csv_row * option exn :=
  match cases with
  | [] => (written, None)
  | c :: cases' =>
      match process_case c with
      | Ok row => main_loop cases' (written ++ [row])
      | Raise e => (written, Some e)
      end
  end.

Definition main (cases : list case_data) : list csv_row * option exn :=
  main_loop cases [].

End EvaluateChamfer.

(** ** gs_render.py *)

Module GsRender.

(** A row of a per-point attribute tensor. *)
Definition row : Type := list Q.

(** Modelled from the spec: the Gaussian set, "a collection of per-point
    attributes (position, color coefficients, scale, rotation, opacity)".
    The class [GaussianModel] is declared outside the given sources; the
    fields are the attribute tensors [gs_render.py] reads and writes, and
    [active_sh_degree] stands for the state that [copy.deepcopy] carries
    over unchanged. *)
Record GaussianModel := {
  active_sh_degree : Z;
  _xyz : list point;
  _features_dc : list row;
  _features_rest : list row;
  _scaling : list row;
  _rotation : list row;
  _opacity : list Q;
}.

Definition mat3 : Type := point * point * point.

(** Modelled from the spec: the camera view, "intrinsics matrix,
    rotation/translation extrinsics, image dimensions, and an alpha mask".
    [alpha_mask] is the mask after [squeeze(0)], of shape [H, W]. *)
Record View := {
  image_height : Z;
  image_width : Z;
  K : mat3;
  R : mat3;
  T : point;
  alpha_mask : list (list Q);
}.

(** The six assignments that end each pruning function: a deep copy of
    [gaussians] whose attribute tensors are indexed by [mask3d]. *)
Definition index_attributes (gaussians : GaussianModel) (mask3d : list bool)
  : result GaussianModel :=
  xyz ← Py.mask_index (_xyz gaussians) mask3d;
  features_dc ← Py.mask_index (_features_dc gaussians) mask3d;
  features_rest ← Py.mask_index (_features_rest gaussians) mask3d;
  scaling ← Py.mask_index (_scaling gaussians) mask3d;
  rotation ← Py.mask_index (_rotation gaussians) mask3d;
  opacity ← Py.mask_index (_opacity gaussians) mask3d;
  mret {| active_sh_degree := active_sh_degree gaussians;
          _xyz := xyz;
          _features_dc := features_dc;
          _features_rest := features_rest;
          _scaling := scaling;
          _rotation := rotation;
          _opacity := opacity |}.

(** *** remove_gaussians_with_mask *)

Definition transpose (m : mat3) : mat3 :=
  let '((a00, a01, a02), (a10, a11, a12), (a20, a21, a22)) := m in
  ((a00, a10, a20), (a01, a11, a21), (a02, a12, a22)).

Definition dot3 (a b : point) : Q :=
  let '(a0, a1, a2) := a in
  let '(b0, b1, b2) := b in
  (a0 * b0 + a1 * b1 + a2 * b2)%Q.

(** The first three entries of the row [p, 1] times [W2C.T], where [W2C] has
    [R.transpose()] in its upper left block and [T] in its last column. *)
Definition to_camera (R : mat3) (T : point) (p : point) : point :=
  let '(r0, r1, r2) := transpose R in
  let '(t0, t1, t2) := T in
  ((dot3 p r0 + 1 * t0)%Q, (dot3 p r1 + 1 * t1)%Q, (dot3 p r2 + 1 * t2)%Q).

(** [xyz / xyz[:, 2].unsqueeze(1)].  At depth 0 the third entry of the row
    is 0 / 0, which is nan: [None] stands for such a row. *)
Definition normalize_z (p : point) : option point :=
  let '(x, y, z) := p in
  if Qeq_bool z 0 then None else Some ((x / z)%Q, (y / z)%Q, (z / z)%Q).

(** The integer pixel coordinates (u, v) of a point in a view:
    [matmul(xyz, K.T)[:, :2].round().long()].  A row with a nan entry gives
    nan in both coordinates of the product. *)
Definition project (view : View) (p : point) : Z * Z :=
  match normalize_z (to_camera (R view) (T view) p) with
  | Some xyz =>
      let '(k0, k1, k2) := K view in
      (Lib.round (dot3 xyz k0), Lib.round (dot3 xyz k1))
  | None => (Lib.long_of_nan, Lib.long_of_nan)
  end.

(** An entry of [valid_uv]. *)
Definition valid (W H : Z) (uv : Z * Z) : bool :=
  ((0 <=? fst uv) && (fst uv <? W) && (0 <=? snd uv) && (snd uv <? H))%Z.

(** [alpha_mask[v, u]]. *)
Definition mask_at (alpha_mask : list (list Q)) (v u : Z) : result Q :=
  r ← Py.index alpha_mask v; Py.index r u.

(** One pass of the inner loop [for i, (u, v) in enumerate(uv)]. *)
Definition count_point (alpha_mask : list (list Q)) (valid_uv : list bool)
           (iuv : nat * (Z * Z)) (gaussians_view_counter : list Z)
  : result (list Z) :=
  let '(i, (u, v)) := iuv in
  is_valid ← Py.index valid_uv (Z.of_nat i);
  if is_valid : bool then
    a ← mask_at alpha_mask v u;
    if Qgtb a 0 then
      c ← Py.index gaussians_view_counter (Z.of_nat i);
      mret (<[i := Lib.wrap32 (c + 1)]> gaussians_view_counter)
    else mret gaussians_view_counter
  else mret gaussians_view_counter.

(** One pass of the loop over the views. *)
Definition count_view (gaussians_xyz : list point) (view : View)
           (gaussians_view_counter : list Z) : result (list Z) :=
  let H := image_height view in
  let W := image_width view in
  let uv := project view <$> gaussians_xyz in
  let valid_uv := valid W H <$> uv in
  Py.for_each (Py.enumerate uv) (count_point (alpha_mask view) valid_uv)
    gaussians_view_counter.

Definition VIEW_THRESHOLD : Q := 1.

(** The counters after the loop over the views. *)
Definition view_counter (gaussians : GaussianModel) (views : list View)
  : result (list Z) :=
  let gaussians_xyz := _xyz gaussians in
  Py.for_each views (count_view gaussians_xyz)
    (replicate (length gaussians_xyz) 0%Z).

(** [gaussians_view_counter >= len(views) * VIEW_THRESHOLD]. *)
Definition mask3d_of_counter (views : list View)
           (gaussians_view_counter : list Z) : list bool :=
  (fun c => Qgeb (inject_Z c) (inject_Z (Py.len views) * VIEW_THRESHOLD))
    <$> gaussians_view_counter.

Definition remove_gaussians_with_mask (gaussians : GaussianModel)
           (views : list View) : result GaussianModel :=
  gaussians_view_counter ← view_counter gaussians views;
  let mask3d := mask3d_of_counter views gaussians_view_counter in
  index_attributes gaussians mask3d.

(** *** remove_gaussians_with_low_opacity *)

Section Opacity.

(** The activation that [GaussianModel.get_opacity] applies to the stored
    opacities; it is declared outside the given sources. *)
Variable opacity_activation : Q -> Q.

(** [gaussians.get_opacity.squeeze(-1)]. *)
Definition get_opacity (gaussians : GaussianModel) : list Q :=
  opacity_activation <$> _opacity gaussians.

Definition low_opacity_mask3d (gaussians : GaussianModel)
           (opacity_threshold : Q) : list bool :=
  (fun o => Qgtb o opacity_threshold) <$> get_opacity gaussians.

Definition remove_gaussians_with_low_opacity (gaussians : GaussianModel)
           (opacity_threshold : Q) : result GaussianModel :=
  index_attributes gaussians (low_opacity_mask3d gaussians opacity_threshold).

End Opacity.

(** The default of [opacity_threshold]. *)
Definition default_opacity_threshold : Q := 1 # 10.

(** *** remove_gaussians_with_point_mesh_distance *)

(** [t.squeeze(0)] of a tensor whose first dimension is 1. *)
Definition squeeze0 {A} (t : list (list A)) : list A :=
  match t with
  | [a] => a
  | _ => []
  end.

(** [(idx != -1).squeeze(-1)] on a tensor of shape (P1, 1). *)
Definition hit_mask (idx : list (list Z)) : list bool :=
  (fun ks => match ks with
             | [k] => negb (k =? -1)%Z
             | _ => false
             end) <$> idx.

Definition mesh_distance_mask3d (gaussians : GaussianModel)
           (mesh_sampled_points : list point) (dist_threshold : Q)
  : list bool :=
  let gaussians_xyz := _xyz gaussians in
  let dists_bq :=
    Lib.ball_query [gaussians_xyz] [mesh_sampled_points] 1 dist_threshold in
  hit_mask (squeeze0 (snd dists_bq)).

Definition remove_gaussians_with_point_mesh_distance
           (gaussians : GaussianModel) (mesh_sampled_points : list point)
           (dist_threshold : Q) : result GaussianModel :=
  index_attributes gaussians
    (mesh_distance_mask3d gaussians mesh_sampled_points dist_threshold).

(** *** get_ray_directions *)

(** A tensor of per-pixel values, of shape (H, W, _) or flattened to
    (H*W, _). *)
Inductive pixels (A : Type) :=
| Grid (rows : list (list A))
| Flat (entries : list A).
Arguments Grid {A} rows.
Arguments Flat {A} entries.

(** What [get_ray_directions] returns: the directions, and the uv grid when
    [return_uv] is set. *)
Record rays := {
  directions : pixels point;
  uv_grid : option (pixels (Q * Q));
}.

(** [K *= s]. *)
Definition scale (s : Q) (m : mat3) : mat3 :=
  let '((a00, a01, a02), (a10, a11, a12), (a20, a21, a22)) := m in
  (((a00 * s)%Q, (a01 * s)%Q, (a02 * s)%Q),
   ((a10 * s)%Q, (a11 * s)%Q, (a12 * s)%Q),
   ((a20 * s)%Q, (a21 * s)%Q, (a22 * s)%Q)).

(** [K[2, 2] = x]. *)
Definition set22 (x : Q) (m : mat3) : mat3 :=
  let '(r0, r1, (a20, a21, _)) := m in (r0, r1, (a20, a21, x)).

(** The direction of the ray through the pixel [(u, v)], shifted by
    [(du, dv)] inside the pixel. *)
Definition direction (K : mat3) (du dv : Q) (uv : Q * Q) : point :=
  let '((fx, _, cx), (_, fy, cy), _) := K in
  let '(u, v) := uv in
  (((u - cx + du) / fx)%Q, ((v - cy + dv) / fy)%Q, 1%Q).

(** [get_ray_directions(H, W, K, random=..., return_uv=..., flatten=...,
    anti_aliasing_factor=...)].  The tensor [K] is passed by reference: the
    result is the returned value together with the contents of the caller's
    [K] after the call.  [anti_aliasing_factor] is the value of the Python
    float passed; [int(H * anti_aliasing_factor)] truncates the float
    product.  [rand_u v u] and [rand_v v u] are the samples that the two
    calls of [torch.rand_like] draw for the pixel of row [v] and column
    [u]. *)
Definition get_ray_directions (H W : Z) (K : mat3)
           (random return_uv flatten : bool) (anti_aliasing_factor : Q)
           (rand_u rand_v : nat -> nat -> Q) : rays * mat3 :=
  let '(H, W, K) :=
    if Qgtb anti_aliasing_factor 1
    then (Py.int_of (Float.mul (Float.of_int H) anti_aliasing_factor),
          Py.int_of (Float.mul (Float.of_int W) anti_aliasing_factor),
          set22 1 (scale anti_aliasing_factor K))
    else (H, W, K) in
  let grid := Lib.create_meshgrid H W in
  let directions :=
    if random
    then imap (fun v r => imap (fun u uv =>
                 direction K (rand_u v u) (rand_v v u) uv) r) grid
    else fmap (M := list) (fmap (M := list) (direction K (1 # 2) (1 # 2))) grid in
  let '(directions, grid) :=
    if flatten then (Flat (concat directions), Flat (concat grid))
    else (Grid directions, Grid grid) in
  ({| directions := directions;
      uv_grid := if return_uv then Some grid else None |}, K).

End GsRender.


(** ** The notions of the specification *)

Module Spec.

(** The distance from [p] to its nearest point of [target], in the L1 norm;
    undefined when [target] is empty. *)
Definition nearest_L1 (target : list point) (p : point) : option Q :=
  match target with
  | [] => None
  | q :: target' =>
      Some (foldr (fun q' m => Qmin (Lib.dist_L1 p q') m) (Lib.dist_L1 p q) target')
  end.

(** The one-directional L1 Chamfer distance measured from [source] to
    [target]: the mean, over the points of [source], of the L1 distance to the
    nearest point of [target]; undefined when either set is empty. *)
Definition one_way_chamfer_L1 (source target : list point) : option Q :=
  match source with
  | [] => None
  | _ =>
      ds ← mapM (nearest_L1 target) source;
      Some (Qsum ds / inject_Z (Py.len source))%Q
  end.

(** The arithmetic mean of a non-empty list of numbers. *)
Definition arithmetic_mean (l : list Q) : Q :=
  (foldl Qplus 0 l * / inject_Z (Py.len l))%Q.

(** The case [c] with the data of frame 0 replaced: its predicted vertices by
    [v0], its object points by [p0] and their visibility flags by [b0]. *)
Definition replace_frame0 (c : EvaluateChamfer.case_data)
           (v0 p0 : list point) (b0 : list bool) : EvaluateChamfer.case_data :=
  {| EvaluateChamfer.case_name := EvaluateChamfer.case_name c;
     EvaluateChamfer.vertices := <[0%nat := v0]> (EvaluateChamfer.vertices c);
     EvaluateChamfer.object_points :=
       <[0%nat := p0]> (EvaluateChamfer.object_points c);
     EvaluateChamfer.object_visibilities :=
       <[0%nat := b0]> (EvaluateChamfer.object_visibilities c);
     EvaluateChamfer.object_motions_valid :=
       EvaluateChamfer.object_motions_valid c;
     EvaluateChamfer.surface_points := EvaluateChamfer.surface_points c;
     EvaluateChamfer.split_train := EvaluateChamfer.split_train c;
     EvaluateChamfer.split_test := EvaluateChamfer.split_test c |}.

(** The six attribute arrays of a Gaussian set have the same length. *)
Definition aligned (g : GsRender.GaussianModel) : Prop :=
  let n := length (GsRender._xyz g) in
  length (GsRender._features_dc g) = n /\
  length (GsRender._features_rest g) = n /\
  length (GsRender._scaling g) = n /\
  length (GsRender._rotation g) = n /\
  length (GsRender._opacity g) = n.

(** The attribute tuples of a Gaussian set, one per point. *)
Definition attribute_tuples (g : GsRender.GaussianModel)
  : list (point * GsRender.row * GsRender.row * GsRender.row * GsRender.row * Q) :=
  zip (zip (zip (zip (zip (GsRender._xyz g) (GsRender._features_dc g))
                     (GsRender._features_rest g))
                (GsRender._scaling g))
           (GsRender._rotation g))
      (GsRender._opacity g).

(** [g'] is [g] with the points at the false positions of [mask3d] removed
    from every attribute array: its arrays are aligned again, and its
    attribute tuples are those of [g] at the true positions, in order. *)
Definition pruned_by (mask3d : list bool) (g g' : GsRender.GaussianModel) : Prop :=
  length mask3d = length (GsRender._xyz g) /\
  aligned g' /\
  attribute_tuples g' = Py.select (attribute_tuples g) mask3d.

(** Modelled from the spec: "project each Gaussian's position into image
    space via the view's extrinsics and intrinsics".  The position of [p] in
    camera space is R^T p + T, written out entry by entry. *)
Definition camera_space (view : GsRender.View) (p : point) : point :=
  let '((r00, r01, r02), (r10, r11, r12), (r20, r21, r22)) := GsRender.R view in
  let '(t0, t1, t2) := GsRender.T view in
  let '(x, y, z) := p in
  ((r00 * x + r10 * y + r20 * z + t0)%Q,
   (r01 * x + r11 * y + r21 * z + t1)%Q,
   (r02 * x + r12 * y + r22 * z + t2)%Q).

(** The position in image space: the first two rows of K applied to the
    camera-space position, divided by its depth.  It is undefined at
    depth 0. *)
Definition image_space (view : GsRender.View) (p : point) : option (Q * Q) :=
  let '(xc, yc, zc) := camera_space view p in
  let '((k00, k01, k02), (k10, k11, k12), _) := GsRender.K view in
  if Qeq_bool zc 0 then None
  else Some (((k00 * xc + k01 * yc + k02 * zc) / zc)%Q,
             ((k10 * xc + k11 * yc + k12 * zc) / zc)%Q).

(** The projected 2D pixel coordinate (u, v): the integers nearest to the
    position in image space. *)
Definition pixel (view : GsRender.View) (p : point) : option (Z * Z) :=
  match image_space view p with
  | Some (a, b) => Some (Lib.round a, Lib.round b)
  | None => None
  end.

(** The entry of row [v] and column [u] of an alpha mask, for a pixel with
    non-negative coordinates. *)
Definition mask_entry (alpha_mask : list (list Q)) (uv : Z * Z) : option Q :=
  r ← alpha_mask !! Z.to_nat (snd uv); r !! Z.to_nat (fst uv).

(** The projection of [p] in [view] lies inside the image bounds and the
    alpha mask is positive at that pixel. *)
Definition covered (view : GsRender.View) (p : point) : Prop :=
  exists u v a,
    pixel view p = Some (u, v) /\
    (0 <= u < GsRender.image_width view)%Z /\
    (0 <= v < GsRender.image_height view)%Z /\
    mask_entry (GsRender.alpha_mask view) (u, v) = Some a /\ (0 < a)%Q.

(** The squared Euclidean distance of two points. *)
Definition squared_distance (p q : point) : Q :=
  let '(px, py, pz) := p in
  let '(qx, qy, qz) := q in
  ((px - qx) ^ 2 + (py - qy) ^ 2 + (pz - qz) ^ 2)%Q.

(** The test of the code as a boolean, on a pixel and on a point. *)
Definition on_mask (view : GsRender.View) (uv : Z * Z) : bool :=
  GsRender.valid (GsRender.image_width view) (GsRender.image_height view) uv &&
  match GsRender.mask_at (GsRender.alpha_mask view) (snd uv) (fst uv) with
  | Ok a => Qgtb a 0
  | Raise _ => false
  end.

Definition visible_in (view : GsRender.View) (p : point) : bool :=
  on_mask view (GsRender.project view p).

(** The number of views in which [p] is visible. *)
Definition count_visible (views : list GsRender.View) (p : point) : Z :=
  Z.of_nat (length (List.filter (fun view => visible_in view p) views)).

(** The alpha mask of [view] has an entry for every pixel of the image. *)
Definition mask_covers_image (view : GsRender.View) : Prop :=
  forall u v : Z,
    (0 <= u < GsRender.image_width view)%Z ->
    (0 <= v < GsRender.image_height view)%Z ->
    exists a, GsRender.mask_at (GsRender.alpha_mask view) v u = Ok a.

(** The size of the pixel grid for an image dimension [n]: scaled and
    truncated when the anti-aliasing factor exceeds 1. *)
Definition render_size (n : Z) (anti_aliasing_factor : Q) : Z :=
  if Qgtb anti_aliasing_factor 1
  then Py.int_of (Float.mul (Float.of_int n) anti_aliasing_factor)
  else n.

(** The entry of row [v] and column [u] of a per-pixel tensor of width [W]. *)
Definition pixel_at {A} (W : Z) (t : GsRender.pixels A) (v u : nat) : option A :=
  match t with
  | GsRender.Grid rows => r ← rows !! v; r !! u
  | GsRender.Flat entries => entries !! (v * Z.to_nat W + u)%nat
  end.

(** The closed form of the direction through the centre of pixel (u, v) for
    the intrinsics [K]. *)
Definition centre_direction (K : GsRender.mat3) (v u : nat) : point :=
  let '((fx, _, cx), (_, fy, cy), _) := K in
  (((inject_Z (Z.of_nat u) - cx + (1 # 2)) / fx)%Q,
   ((inject_Z (Z.of_nat v) - cy + (1 # 2)) / fy)%Q,
   1%Q).

(** Two 3x3 matrices have equal entries. *)
Definition mat3_eq (m m' : GsRender.mat3) : Prop :=
  let '((a00, a01, a02), (a10, a11, a12), (a20, a21, a22)) := m in
  let '((b00, b01, b02), (b10, b11, b12), (b20, b21, b22)) := m' in
  (a00 == b00 /\ a01 == b01 /\ a02 == b02 /\
   a10 == b10 /\ a11 == b11 /\ a12 == b12 /\
   a20 == b20 /\ a21 == b21 /\ a22 == b22)%Q.

End Spec.

(** ** Concrete inputs *)

Module Examples.

Definition origin : point := (0, 0, 0)%Q.
Definition far : point := (10, 0, 0)%Q.
Definition unit_x : point := (1, 0, 0)%Q.

(** Two predicted vertices, one of them far from the only ground-truth
    point. *)
Definition two_frames_vertices : list (list point) :=
  [[origin; far]; [origin; far]].
Definition two_frames_points : list (list point) := [[origin]; [origin]].
Definition two_frames_visibilities : list (list bool) := [[true]; [true]].
Definition one_motion : list (list bool) := [[true]].
Definition other_motion : list (list bool) := [[false]].

(** A case whose train split is empty, so that the test split starts at
    frame 0. *)
Definition case_train0 : EvaluateChamfer.case_data :=
  {| EvaluateChamfer.case_name := String.EmptyString;
     EvaluateChamfer.vertices := [[origin]; [origin]];
     EvaluateChamfer.object_points := [[origin]; [origin]];
     EvaluateChamfer.object_visibilities := [[true]; [true]];
     EvaluateChamfer.object_motions_valid := [[true]];
     EvaluateChamfer.surface_points := [];
     EvaluateChamfer.split_train := [0; 0]%Z;
     EvaluateChamfer.split_test := [0; 2]%Z |}.

(** A case with three frames, two of them in the train split. *)
Definition case_three : EvaluateChamfer.case_data :=
  {| EvaluateChamfer.case_name := String.EmptyString;
     EvaluateChamfer.vertices := [[origin]; [unit_x]; [far]];
     EvaluateChamfer.object_points := [[origin]; [origin]; [origin]];
     EvaluateChamfer.object_visibilities := [[true]; [true]; [true]];
     EvaluateChamfer.object_motions_valid := [[true]; [true]];
     EvaluateChamfer.surface_points := [];
     EvaluateChamfer.split_train := [0; 2]%Z;
     EvaluateChamfer.split_test := [2; 3]%Z |}.

(** The same data with a split that announces four frames. *)
Definition case_short : EvaluateChamfer.case_data :=
  {| EvaluateChamfer.case_name := String.EmptyString;
     EvaluateChamfer.vertices := [[origin]; [unit_x]; [far]];
     EvaluateChamfer.object_points := [[origin]; [origin]; [origin]];
     EvaluateChamfer.object_visibilities := [[true]; [true]; [true]];
     EvaluateChamfer.object_motions_valid := [[true]; [true]];
     EvaluateChamfer.surface_points := [];
     EvaluateChamfer.split_train := [0; 2]%Z;
     EvaluateChamfer.split_test := [2; 4]%Z |}.

Definition identity3 : GsRender.mat3 :=
  ((1, 0, 0), (0, 1, 0), (0, 0, 1))%Q.

(** A camera at the origin looking down the z axis, with a 2x2 image whose
    mask covers the left column only. *)
Definition left_view : GsRender.View :=
  {| GsRender.image_height := 2;
     GsRender.image_width := 2;
     GsRender.K := identity3;
     GsRender.R := identity3;
     GsRender.T := (0, 0, 0)%Q;
     GsRender.alpha_mask := [[1; 0]; [1; 0]]%Q |}.

(** Two points in front of that camera: the first projects to pixel (0, 0),
    the second to pixel (1, 0). *)
Definition two_gaussians : GsRender.GaussianModel :=
  {| GsRender.active_sh_degree := 3;
     GsRender._xyz := [(0, 0, 1); (1, 0, 1)]%Q;
     GsRender._features_dc := [[1]; [2]]%Q;
     GsRender._features_rest := [[]; []];
     GsRender._scaling := [[1; 1; 1]; [2; 2; 2]]%Q;
     GsRender._rotation := [[1; 0; 0; 0]; [1; 0; 0; 0]]%Q;
     GsRender._opacity := [1 # 2; 1 # 20]%Q |}.

(** The first of them alone. *)
Definition first_gaussian : GsRender.GaussianModel :=
  {| GsRender.active_sh_degree := 3;
     GsRender._xyz := [(0, 0, 1)]%Q;
     GsRender._features_dc := [[1]]%Q;
     GsRender._features_rest := [[]];
     GsRender._scaling := [[1; 1; 1]]%Q;
     GsRender._rotation := [[1; 0; 0; 0]]%Q;
     GsRender._opacity := [1 # 2]%Q |}.

(** Two mesh samples: one at distance 1/2 of the first point of
    [two_gaussians], none within distance 1 of the second. *)
Definition mesh_samples : list point := [(5, 5, 5); (0, 0, 3 # 2)]%Q.

(** An activation that sends the stored opacity 0 to 1/2. *)
Definition affine_activation (x : Q) : Q := ((1 # 2) + x * (1 # 4))%Q.

(** A camera turned by a quarter turn about the z axis and moved away from
    the origin, with focal length 2 and principal point (1, 1), and an image
    of 2 rows and 3 columns whose mask covers the middle column.  It sends
    (x, y, z) to the camera-space point (y + 1, - x, z + 1). *)
Definition turned_view : GsRender.View :=
  {| GsRender.image_height := 2;
     GsRender.image_width := 3;
     GsRender.K := ((2, 0, 1), (0, 2, 1), (0, 0, 1))%Q;
     GsRender.R := ((0, -1, 0), (1, 0, 0), (0, 0, 1))%Q;
     GsRender.T := (1, 0, 1)%Q;
     GsRender.alpha_mask := [[0; 1; 0]; [0; 1; 0]]%Q |}.

(** Four points for that camera.  The first has the image-space position
    (0.6, 0.7), in pixel (1, 1), where the mask is 1; the second has the
    position (0.5, 1), in pixel (0, 1), where the mask is 0; the third is in
    pixel (1, -1), outside the image; the fourth has depth 0. *)
Definition four_gaussians : GsRender.GaussianModel :=
  {| GsRender.active_sh_degree := 3;
     GsRender._xyz :=
       [(3 # 20, - (6 # 5), 0); (0, - (5 # 4), 0); (1, -1, 0); (0, -1, -1)]%Q;
     GsRender._features_dc := [[1]; [2]; [3]; [4]]%Q;
     GsRender._features_rest := [[]; []; []; []];
     GsRender._scaling := [[1]; [2]; [3]; [4]]%Q;
     GsRender._rotation := [[1; 0; 0; 0]; [1; 0; 0; 0]; [1; 0; 0; 0]; [1; 0; 0; 0]]%Q;
     GsRender._opacity := [1; 2; 3; 4]%Q |}.

(** The first of them alone, and no gaussian at all. *)
Definition kept_gaussian : GsRender.GaussianModel :=
  {| GsRender.active_sh_degree := 3;
     GsRender._xyz := [(3 # 20, - (6 # 5), 0)]%Q;
     GsRender._features_dc := [[1]]%Q;
     GsRender._features_rest := [[]];
     GsRender._scaling := [[1]]%Q;
     GsRender._rotation := [[1; 0; 0; 0]]%Q;
     GsRender._opacity := [1]%Q |}.

Definition no_gaussian : GsRender.GaussianModel :=
  {| GsRender.active_sh_degree := 3;
     GsRender._xyz := [];
     GsRender._features_dc := [];
     GsRender._features_rest := [];
     GsRender._scaling := [];
     GsRender._rotation := [];
     GsRender._opacity := [] |}.

(** The same camera with a mask that covers the right column only. *)
Definition turned_view_right : GsRender.View :=
  {| GsRender.image_height := 2;
     GsRender.image_width := 3;
     GsRender.K := ((2, 0, 1), (0, 2, 1), (0, 0, 1))%Q;
     GsRender.R := ((0, -1, 0), (1, 0, 0), (0, 0, 1))%Q;
     GsRender.T := (1, 0, 1)%Q;
     GsRender.alpha_mask := [[0; 0; 1]; [0; 0; 1]]%Q |}.

End Examples.

(** ** gs_render.py: render_set and render_sets *)

Module RenderSets.

(** [s.zfill(width)] for a string of digits: zeros are added on the left up
    to [width] characters. *)
Definition zfill (width : nat) (s : String.string) : String.string :=
  Nat.iter (width - String.length s) (String.String "0"%char) s.

(** ['{0:05d}'.format(idx)] for an index [idx] of [enumerate]: its decimal
    digits, padded with zeros to five characters. *)
Definition format_05d (idx : nat) : String.string :=
  zfill 5 (NilEmpty.string_of_uint (Nat.to_uint idx)).

(** ['{0:05d}'.format(idx) + ".png"]. *)
Definition png_name (idx : nat) : String.string :=
  String.append (format_05d idx) ".png"%string.

Section Render.

(** The activation of [GaussianModel.get_opacity], the images, the renderer
    ([render(...)["render"]], given the view, the gaussians, the override
    color and [use_trained_exp]), the ground-truth image of a view
    ([view.original_image[0:3, :, :]]) and the slice [t[..., t.shape[-1] // 2:]]
    are declared outside the given sources. *)
Variable opacity_activation : Q -> Q.
Variable image : Type.
Variable render :
  GsRender.View -> GsRender.GaussianModel -> option (list GsRender.row) -> bool -> image.
Variable original_image : GsRender.View -> image.
Variable right_half : image -> image.

(** One call of [torchvision.utils.save_image]: the set ("train" or "test"),
    the folder ("renders" or "gt"), the file name and the image. *)
Record saved := {
  set_name : String.string;
  folder : String.string;
  file : String.string;
  content : image;
}.

(** The body of the loop of [render_set] for the view of index [idx]. *)
Definition render_view (name : String.string) (gaussians : GsRender.GaussianModel)
           (train_test_exp disable_sh args_train_test_exp : bool)
           (idx : nat) (view : GsRender.View) : list saved :=
  let rendering :=
    if disable_sh
    then render view gaussians (Some (GsRender._features_dc gaussians)) train_test_exp
    else render view gaussians None train_test_exp in
  let gt := original_image view in
  let '(rendering, gt) :=
    if args_train_test_exp then (right_half rendering, right_half gt)
    else (rendering, gt) in
  [ {| set_name := name; folder := "renders"%string; file := png_name idx;
       content := rendering |};
    {| set_name := name; folder := "gt"%string; file := png_name idx;
       content := gt |} ].

(** [render_set]: the images saved, in the order of the calls. *)
Definition render_set (name : String.string) (views : list GsRender.View)
           (gaussians : GsRender.GaussianModel)
           (train_test_exp disable_sh args_train_test_exp : bool) : list saved :=
  concat (imap (render_view name gaussians train_test_exp disable_sh
                  args_train_test_exp) views).

(** The pruning at the start of [render_sets]: the gaussians handed to
    [render_set]. *)
Definition pruned_gaussians (gaussians : GsRender.GaussianModel)
           (train_cameras : list GsRender.View) (remove_gaussians : bool)
  : result GsRender.GaussianModel :=
  gaussians ← (if remove_gaussians
               then GsRender.remove_gaussians_with_mask gaussians train_cameras
               else Ok gaussians);
  GsRender.remove_gaussians_with_low_opacity opacity_activation gaussians
    GsRender.default_opacity_threshold.

(** [render_sets], from the gaussians and cameras of the loaded scene to the
    images saved. *)
Definition render_sets (gaussians : GsRender.GaussianModel)
           (train_cameras test_cameras : list GsRender.View)
           (skip_train skip_test remove_gaussians : bool)
           (train_test_exp disable_sh args_train_test_exp : bool)
  : result (list saved) :=
  gaussians ← pruned_gaussians gaussians train_cameras remove_gaussians;
  let train :=
    if skip_train then []
    else render_set "train"%string train_cameras gaussians train_test_exp disable_sh
           args_train_test_exp in
  let test :=
    if skip_test then []
    else render_set "test"%string test_cameras gaussians train_test_exp disable_sh
           args_train_test_exp in
  mret (train ++ test).

End Render.

End RenderSets.

(** ** export_render_eval_data.py *)

Module ExportRenderEvalData.

Definition CONTROLLER_NAME : String.string := "hand"%string.

Section ObjectIndex.

(** Python's [int(key)] on a string. *)
Variable int : String.string -> result Z.

(** One pass of the loop [for key, value in data.items()]. *)
Definition pick_object (item : String.string * String.string)
           (obj_idx : option Z) : result (option Z) :=
  let '(key, value) := item in
  if negb (String.eqb value CONTROLLER_NAME) then
    match obj_idx with
    | Some _ => Raise ValueError
    | None => k ← int key; mret (Some k)
    end
  else mret obj_idx.

(** The search for the object mask in the items of [mask_info_{i}.json]:
    [obj_idx] after the loop. *)
Definition find_obj_idx (data : list (String.string * String.string))
  : result (option Z) :=
  Py.for_each data pick_object None.

End ObjectIndex.

(** The items that do not belong to the controller. *)
Definition objects (data : list (String.string * String.string))
  : list (String.string * String.string) :=
  List.filter (fun item => negb (String.eqb (snd item) CONTROLLER_NAME)) data.

(** An [int] for keys written as plain decimal digits. *)
Definition int_of_digits (key : String.string) : result Z :=
  match key, NilEmpty.uint_of_string key with
  | String.String _ _, Some d => Ok (Z.of_nat (Nat.of_uint d))
  | _, _ => Raise ValueError
  end.

End ExportRenderEvalData.

(** ** Notions used to state further properties *)

Module Notions.

(** The Gaussian set [g] with every attribute array indexed by [mask3d]. *)
Definition select_attributes (g : GsRender.GaussianModel) (mask3d : list bool)
  : GsRender.GaussianModel :=
  {| GsRender.active_sh_degree := GsRender.active_sh_degree g;
     GsRender._xyz := Py.select (GsRender._xyz g) mask3d;
     GsRender._features_dc := Py.select (GsRender._features_dc g) mask3d;
     GsRender._features_rest := Py.select (GsRender._features_rest g) mask3d;
     GsRender._scaling := Py.select (GsRender._scaling g) mask3d;
     GsRender._rotation := Py.select (GsRender._rotation g) mask3d;
     GsRender._opacity := Py.select (GsRender._opacity g) mask3d |}.

(** The point opposite to [p] with respect to the origin. *)
Definition opposite (p : point) : point :=
  let '(x, y, z) := p in ((- x)%Q, (- y)%Q, (- z)%Q).

(** The opacity (as stored) of an attribute tuple, and its position. *)
Definition tuple_opacity
           (t : point * GsRender.row * GsRender.row * GsRender.row * GsRender.row * Q)
  : Q := snd t.

Definition tuple_xyz
           (t : point * GsRender.row * GsRender.row * GsRender.row * GsRender.row * Q)
  : point := fst (fst (fst (fst (fst t)))).

(** A Gaussian set with three points and a view list for it. *)
Definition three_gaussians : GsRender.GaussianModel :=
  {| GsRender.active_sh_degree := 3;
     GsRender._xyz := [(0, 0, 1); (1, 0, 1); (0, 0, 2)]%Q;
     GsRender._features_dc := [[1]; [2]; [3]]%Q;
     GsRender._features_rest := [[]; []; []];
     GsRender._scaling := [[1]; [2]; [3]]%Q;
     GsRender._rotation := [[1; 0; 0; 0]; [1; 0; 0; 0]; [1; 0; 0; 0]]%Q;
     GsRender._opacity := [0; -2; 0]%Q |}.

(** A Gaussian set whose opacity array is too short. *)
Definition misaligned_gaussians : GsRender.GaussianModel :=
  {| GsRender.active_sh_degree := 3;
     GsRender._xyz := [(0, 0, 1); (1, 0, 1)]%Q;
     GsRender._features_dc := [[1]; [2]]%Q;
     GsRender._features_rest := [[]; []];
     GsRender._scaling := [[1]; [2]]%Q;
     GsRender._rotation := [[1; 0; 0; 0]; [1; 0; 0; 0]]%Q;
     GsRender._opacity := [0]%Q |}.

(** The view [Examples.turned_view] with a mask of one column only. *)
Definition cropped_view : GsRender.View :=
  {| GsRender.image_height := 2;
     GsRender.image_width := 3;
     GsRender.K := ((2, 0, 1), (0, 2, 1), (0, 0, 1))%Q;
     GsRender.R := ((0, -1, 0), (1, 0, 0), (0, 0, 1))%Q;
     GsRender.T := (1, 0, 1)%Q;
     GsRender.alpha_mask := [[1]; [1]]%Q |}.

(** The focal lengths and the principal point read from an intrinsics
    matrix: [K[0, 0]], [K[1, 1]], [K[0, 2]], [K[1, 2]]. *)
Definition fx (K : GsRender.mat3) : Q := let '((a, _, _), _, _) := K in a.
Definition fy (K : GsRender.mat3) : Q := let '(_, (_, a, _), _) := K in a.
Definition cx (K : GsRender.mat3) : Q := let '((_, _, a), _, _) := K in a.
Definition cy (K : GsRender.mat3) : Q := let '(_, (_, _, a), _) := K in a.



(** Two points have opposite coordinates. *)
Definition opposite_points (p p' : point) : Prop :=
  let '(x, y, z) := p in
  let '(x', y', z') := p' in
  (x' == - x /\ y' == - y /\ z' == - z)%Q.

(** The third coordinate of a point in camera space. *)
Definition depth (c : point) : Q := let '(_, _, z) := c in z.

(** A random sample that is always 1/4. *)
Definition quarter (v u : nat) : Q := 1 # 4.

(** [q] is the value of a Python float: rounding leaves it as it is. *)
Definition is_float (q : Q) : Prop := (Float.nearest q == q)%Q.

(** The rows of [t] have the same length, as the rows of a tensor do (and
    those of a nested list that [torch.tensor] converts entry by entry). *)
Definition is_tensor {A} (t : list (list A)) : bool :=
  forallb (fun r => (Py.len r =? EvaluateChamfer.shape1 t)%Z) t.

(** [t[i]] is defined: [-len(t) <= i < len(t)]. *)
Definition in_bounds {A} (t : list A) (i : Z) : Prop :=
  (- Py.len t <= i < Py.len t)%Z.

(** One coordinate lies between two others, and a point lies between two
    points coordinate by coordinate. *)
Definition between (lo x hi : Q) : Prop := (lo <= x <= hi)%Q.

Definition point_between (lo p hi : point) : Prop :=
  let '(lx, ly, lz) := lo in
  let '(x, y, z) := p in
  let '(hx, hy, hz) := hi in
  between lx x hx /\ between ly y hy /\ between lz z hz.

(** A Gaussian set with three different opacities. *)
Definition graded_gaussians : GsRender.GaussianModel :=
  {| GsRender.active_sh_degree := 3;
     GsRender._xyz := [(0, 0, 1); (1, 0, 1); (0, 0, 2)]%Q;
     GsRender._features_dc := [[1]; [2]; [3]]%Q;
     GsRender._features_rest := [[]; []; []];
     GsRender._scaling := [[1]; [2]; [3]]%Q;
     GsRender._rotation := [[1; 0; 0; 0]; [1; 0; 0; 0]; [1; 0; 0; 0]]%Q;
     GsRender._opacity := [1 # 2; -2; 1 # 20]%Q |}.

End Notions.


(** * Properties *)

(** ** The result monad and Python indexing *)

Lemma bind_Ok {A B} (m : result A) (f : A -> result B) (b : B) :
  m ≫= f = Ok b -> exists a, m = Ok a /\ f a = Ok b.
Proof. destruct m as [a|e]; simpl; [eauto | discriminate]. Qed.

Ltac inv_bind H :=
  let a := fresh "a" in
  let Ha := fresh "Ha" in
  apply bind_Ok in H; destruct H as (a & Ha & H).

Lemma index_Ok_pos {A} (l : list A) (i : Z) (a : A) :
  (0 <= i)%Z -> Py.index l i = Ok a -> l !! Z.to_nat i = Some a.
Proof.
  intros Hi. unfold Py.index.
  destruct (Z.ltb_spec i 0); [lia|].
  destruct (_ && _); [|discriminate].
  destruct (l !! Z.to_nat i); congruence.
Qed.

Lemma index_pos_Ok {A} (l : list A) (i : Z) (a : A) :
  (0 <= i)%Z -> l !! Z.to_nat i = Some a -> Py.index l i = Ok a.
Proof.
  intros Hi Hl. unfold Py.index, Py.len.
  destruct (Z.ltb_spec i 0); [lia|].
  apply lookup_lt_Some in Hl as Hlt.
  destruct (Z.leb_spec 0 i); [|lia].
  destruct (Z.ltb_spec i (Z.of_nat (length l))); [|lia].
  simpl. by rewrite Hl.
Qed.

(** Whether [l[i]] raises depends on the length of [l] only. *)
Lemma index_defined_length {A B} (l : list A) (l' : list B) (i : Z) :
  length l = length l' ->
  (exists a, Py.index l i = Ok a) -> exists b, Py.index l' i = Ok b.
Proof.
  intros Hlen [a Ha]. unfold Py.index, Py.len in *. rewrite <- Hlen.
  set (j := if (i <? 0)%Z then _ else i) in *.
  destruct (_ && _) eqn:Hb; [|discriminate].
  destruct (l !! _) eqn:Hl; [|discriminate].
  apply lookup_lt_Some in Hl. rewrite Hlen in Hl.
  apply lookup_lt_is_Some_2 in Hl as [b Hb']. rewrite Hb'. eauto.
Qed.

Lemma range_length (start stop : Z) :
  length (Py.range start stop) = Z.to_nat (stop - start).
Proof. unfold Py.range. by rewrite length_fmap, length_seq. Qed.

Lemma range_lookup (start stop : Z) (k : nat) :
  (start + Z.of_nat k < stop)%Z ->
  Py.range start stop !! k = Some (start + Z.of_nat k)%Z.
Proof.
  intros Hk. unfold Py.range. rewrite list_lookup_fmap, lookup_seq_lt by lia.
  reflexivity.
Qed.

Lemma range_elem (start stop i : Z) :
  i ∈ Py.range start stop <-> (start <= i < stop)%Z.
Proof.
  unfold Py.range. rewrite list_elem_of_fmap. split.
  - intros (k & -> & Hk). apply elem_of_seq in Hk. lia.
  - intros Hi. exists (Z.to_nat (i - start)). split; [lia|].
    apply elem_of_seq. lia.
Qed.

(** A loop that appends one computed entry per element. *)
Lemma for_each_append {X E} (f : X -> result E) (xs : list X) (acc out : list E) :
  Py.for_each xs (fun x acc => e ← f x; mret (acc ++ [e])) acc = Ok out ->
  exists es, out = acc ++ es /\ Forall2 (fun x e => f x = Ok e) xs es.
Proof.
  revert acc. induction xs as [|x xs IH]; intros acc H; simpl in H.
  - injection H as <-. exists []. by rewrite app_nil_r.
  - inv_bind H. inv_bind Ha. injection Ha as <-.
    apply IH in H as (es & -> & HF).
    exists (a0 :: es). rewrite <- app_assoc. split; [done|]. by constructor.
Qed.

Lemma for_each_append_total {X E} (f : X -> result E) (xs : list X) (acc : list E) :
  (forall x, x ∈ xs -> exists e, f x = Ok e) ->
  exists out, Py.for_each xs (fun x acc => e ← f x; mret (acc ++ [e])) acc = Ok out.
Proof.
  revert acc. induction xs as [|x xs IH]; intros acc H; simpl.
  - eauto.
  - destruct (H x) as [e He]; [left|]. rewrite He. simpl.
    apply IH. intros y Hy. apply H. by right.
Qed.

Lemma for_each_ext {X S} (f g : X -> S -> result S) (xs : list X) (s : S) :
  (forall x s, x ∈ xs -> f x s = g x s) ->
  Py.for_each xs f s = Py.for_each xs g s.
Proof.
  revert s. induction xs as [|x xs IH]; intros s H; simpl; [done|].
  rewrite H by left. destruct (g x s); simpl; [|done].
  apply IH. intros. apply H. by right.
Qed.

(** ** Sums and minima of rationals *)

Lemma Qltb_lt (a b : Q) : Qltb a b = true <-> (a < b)%Q.
Proof.
  unfold Qltb. rewrite negb_true_iff, <- not_true_iff_false, Qle_bool_iff.
  split; [apply Qnot_le_lt | apply Qlt_not_le].
Qed.

Lemma Qltb_ge (a b : Q) : Qltb a b = false <-> (b <= a)%Q.
Proof. unfold Qltb. by rewrite negb_false_iff, Qle_bool_iff. Qed.

Lemma Qgtb_lt (a b : Q) : Qgtb a b = true <-> (b < a)%Q.
Proof. apply (Qltb_lt b a). Qed.

Lemma Qgeb_le (a b : Q) : Qgeb a b = true <-> (b <= a)%Q.
Proof. apply Qle_bool_iff. Qed.

Lemma Qltb_proper (a a' b b' : Q) : (a == a')%Q -> (b == b')%Q -> Qltb a b = Qltb a' b'.
Proof. intros Ha Hb. unfold Qltb. f_equal. by apply Qleb_comp. Qed.

Lemma round_proper (q q' : Q) : (q == q')%Q -> Lib.round q = Lib.round q'.
Proof.
  intros Hq. unfold Lib.round. rewrite <- (Qfloor_comp _ _ Hq).
  assert (q - inject_Z (Qfloor q) == q' - inject_Z (Qfloor q))%Q as Hr.
  { unfold Qminus. apply Qplus_comp; [exact Hq | reflexivity]. }
  rewrite (Qltb_proper _ _ _ _ Hr (Qeq_refl _)).
  by rewrite (Qltb_proper _ _ _ _ (Qeq_refl (1 # 2)) Hr).
Qed.

Lemma Qsum_Forall2 (l l' : list Q) :
  Forall2 Qeq l l' -> (Qsum l == Qsum l')%Q.
Proof.
  induction 1 as [|x y l l' Hxy _ IH]; simpl; [reflexivity|].
  by rewrite Hxy, IH.
Qed.

Lemma foldl_Qplus_shift (l : list Q) (a : Q) :
  (foldl Qplus a l == a + Qsum l)%Q.
Proof.
  revert a. induction l as [|x l IH]; intros a; simpl.
  - ring.
  - rewrite IH. ring.
Qed.

Section running_minimum.
Variable d : point -> Q.

Let step (q : point) (m : Q) : Q := Qmin (d q) m.

Lemma foldr_min_base (l : list point) (a b : Q) :
  (foldr step (Qmin a b) l == Qmin a (foldr step b l))%Q.
Proof.
  induction l as [|q l IH]; simpl; [reflexivity|].
  unfold step at 1 3. rewrite IH.
  rewrite !Q.min_assoc. by rewrite (Q.min_comm (d q) a).
Qed.

Lemma foldr_min_proper (l : list point) (a b : Q) :
  (a == b)%Q -> (foldr step a l == foldr step b l)%Q.
Proof.
  intros Hab. induction l as [|q l IH]; simpl; [done|].
  unfold step at 1 3. by rewrite IH.
Qed.

(** The scan of [knn_points] keeps the running minimum. *)
Lemma knn_scan_min (l : list point) (j : Z) (bd : Q) (bj : Z) :
  exists m i, Lib.knn_scan d l j (Some (bd, bj)) = Some (m, i) /\
              (m == foldr step bd l)%Q.
Proof.
  revert j bd bj. induction l as [|q l IH]; intros j bd bj; simpl.
  - exists bd, bj. split; reflexivity.
  - destruct (Qltb (d q) bd) eqn:Hlt.
    + destruct (IH (j + 1)%Z (d q) j) as (m & i & -> & Hm).
      exists m, i. split; [done|]. rewrite Hm.
      apply Qltb_lt in Hlt. unfold step at 2.
      rewrite <- foldr_min_base. apply foldr_min_proper.
      symmetry. apply Q.min_l. by apply Qlt_le_weak.
    + destruct (IH (j + 1)%Z bd bj) as (m & i & -> & Hm).
      exists m, i. split; [done|]. rewrite Hm.
      apply Qltb_ge in Hlt. unfold step at 2.
      rewrite <- foldr_min_base. apply foldr_min_proper.
      symmetry. by apply Q.min_r.
Qed.

(** The fold is the least distance and is attained. *)
Lemma foldr_min_least (l : list point) (b : Q) (q : point) :
  q ∈ l -> (foldr step b l <= d q)%Q.
Proof.
  induction 1 as [q l|q q' l _ IH]; simpl; unfold step at 1.
  - apply Q.le_min_l.
  - eapply Qle_trans; [apply Q.le_min_r | exact IH].
Qed.

Lemma foldr_min_le_base (l : list point) (b : Q) :
  (foldr step b l <= b)%Q.
Proof.
  induction l as [|q l IH]; simpl; [apply Qle_refl|].
  eapply Qle_trans; [apply Q.le_min_r | exact IH].
Qed.

Lemma foldr_min_attained (l : list point) (b : Q) :
  (foldr step b l == b)%Q \/ exists q, q ∈ l /\ (foldr step b l == d q)%Q.
Proof.
  induction l as [|q l IH]; simpl; [by left|].
  unfold step at 1 3.
  destruct (Q.min_dec (d q) (foldr step b l)) as [H|H].
  - right. exists q. split; [left | exact H].
  - destruct IH as [IH|(q' & Hq' & IH)].
    + left. by rewrite H.
    + right. exists q'. split; [by right | by rewrite H].
Qed.
End running_minimum.

(** ** The Chamfer distance of the library and of the specification *)

(** [Spec.nearest_L1] is the least L1 distance to a point of the target. *)
Lemma nearest_L1_is_least (target : list point) (p : point) (m : Q) :
  Spec.nearest_L1 target p = Some m ->
  (exists q, q ∈ target /\ (m == Lib.dist_L1 p q)%Q) /\
  (forall q, q ∈ target -> (m <= Lib.dist_L1 p q)%Q).
Proof.
  destruct target as [|q0 target]; simpl; [discriminate|].
  intros [= <-]. split.
  - destruct (foldr_min_attained (Lib.dist_L1 p) target (Lib.dist_L1 p q0))
      as [H|(q & Hq & H)].
    + exists q0. split; [left | exact H].
    + exists q. split; [by right | exact H].
  - intros q Hq. apply elem_of_cons in Hq as [->|Hq].
    + apply (foldr_min_le_base (Lib.dist_L1 p)).
    + by apply (foldr_min_least (Lib.dist_L1 p)).
Qed.

Lemma knn_points_nearest (target : list point) (p : point) (m : Q) :
  Spec.nearest_L1 target p = Some m ->
  (fst (default (0%Q, (-1)%Z) (Lib.knn_scan (Lib.dist 1 p) target 0 None)) == m)%Q.
Proof.
  destruct target as [|q0 target]; simpl; [discriminate|].
  intros [= <-].
  destruct (knn_scan_min (Lib.dist_L1 p) target (0 + 1) (Lib.dist_L1 p q0) 0)
    as (m & i & Hscan & Hm).
  change (Lib.dist 1 p) with (Lib.dist_L1 p). rewrite Hscan. exact Hm.
Qed.

Lemma chamfer_single_direction_spec (source target : list point) (d : Q) :
  Spec.one_way_chamfer_L1 source target = Some d ->
  (Lib.chamfer_single_direction 1 source target == d)%Q.
Proof.
  unfold Spec.one_way_chamfer_L1, Lib.chamfer_single_direction.
  destruct source as [|p0 source']; [discriminate|].
  set (source := p0 :: source'). intros H.
  destruct (mapM _ source) as [ds|] eqn:Hds; [|discriminate].
  injection H as <-.
  assert (Z.max (Py.len source) 1 = Py.len source) as ->.
  { unfold Py.len, source. simpl. lia. }
  apply Qmult_comp; [|reflexivity].
  apply Qsum_Forall2. apply mapM_Some in Hds.
  unfold Lib.knn_points. clearbody source. clear p0 source'.
  induction Hds as [|p m source ds Hp _ IH]; simpl; constructor; [|exact IH].
  by apply knn_points_nearest.
Qed.

(** The single-directional call made by [evaluate_prediction]: the distance is
    measured from the first argument to the second. *)
Lemma chamfer_distance_direction (x y : list point) (r : Q * option Q) (d : Q) :
  Lib.chamfer_distance [x] [y] true 1 = Ok r ->
  Spec.one_way_chamfer_L1 x y = Some d ->
  (fst r == d)%Q.
Proof.
  unfold Lib.chamfer_distance. simpl. intros [= <-] Hd. simpl.
  rewrite (chamfer_single_direction_spec _ _ _ Hd).
  change (inject_Z (Py.len [x] `max` 1)) with 1%Q. field.
Qed.

(** ** evaluate_prediction *)

Section evaluate_prediction.
Import EvaluateChamfer.

Variables (V OP : list (list point)) (OV : list (list bool)).

Lemma index_raises {A} (l : list A) (i : Z) (e : exn) :
  Py.index l i = Raise e -> e = IndexError.
Proof.
  unfold Py.index. destruct (_ && _); [|congruence].
  destruct (l !! _); congruence.
Qed.

Lemma mask_index_raises {A} (l : list A) (m : list bool) (e : exn) :
  Py.mask_index l m = Raise e -> e = IndexError.
Proof. unfold Py.mask_index. destruct (_ =? _)%nat; congruence. Qed.

Lemma chamfer_distance_raises x y sd norm (e : exn) :
  Lib.chamfer_distance x y sd norm = Raise e -> e = ValueError.
Proof.
  unfold Lib.chamfer_distance.
  destruct (negb (_ || _)); [congruence|]. destruct (negb _); congruence.
Qed.

Lemma frame_chamfer_error_raises OMV nsp i e :
  frame_chamfer_error V OP OV OMV nsp i = Raise e -> e <> AssertionError.
Proof.
  unfold frame_chamfer_error.
  destruct (Py.index V i) eqn:H1; cbn [mbind result_bind];
    [|intros [= <-]; by rewrite (index_raises _ _ _ H1)].
  destruct (Py.index OP i) eqn:H2; cbn [mbind result_bind];
    [|intros [= <-]; by rewrite (index_raises _ _ _ H2)].
  destruct (Py.index OV i) eqn:H3; cbn [mbind result_bind];
    [|intros [= <-]; by rewrite (index_raises _ _ _ H3)].
  destruct (Py.index OMV (i - 1)) eqn:H4; cbn [mbind result_bind];
    [|intros [= <-]; by rewrite (index_raises _ _ _ H4)].
  destruct (Py.mask_index _ _) eqn:H5; cbn [mbind result_bind];
    [|intros [= <-]; by rewrite (mask_index_raises _ _ _ H5)].
  destruct (Lib.chamfer_distance _ _ _ _) eqn:H6; cbn [mbind result_bind];
    [discriminate|].
  intros [= <-]. by rewrite (chamfer_distance_raises _ _ _ _ _ H6).
Qed.

Lemma for_each_raises {X S} (P : exn -> Prop) (body : X -> S -> result S)
      (xs : list X) (s : S) (e : exn) :
  (forall x s e, body x s = Raise e -> P e) ->
  Py.for_each xs body s = Raise e -> P e.
Proof.
  intros Hbody. revert s. induction xs as [|x xs IH]; intros s; simpl.
  - discriminate.
  - destruct (body x s) eqn:Hx; simpl; [apply IH|].
    intros [= <-]. by eapply Hbody.
Qed.

Lemma evaluate_prediction_raises s t OMV nop nsp e :
  evaluate_prediction s t V OP OV OMV nop nsp = Raise e -> e <> AssertionError.
Proof.
  unfold evaluate_prediction, chamfer_errors_loop.
  destruct (Py.for_each _ _ _) eqn:H; simpl; [discriminate|].
  intros [= <-]. revert H.
  apply (for_each_raises (fun e => e <> AssertionError)).
  intros x s0 e'.
  destruct (frame_chamfer_error _ _ _ _ _ _) eqn:Hf; simpl; [discriminate|].
  intros [= <-]. by eapply frame_chamfer_error_raises.
Qed.

(** The error of a frame is the same whatever the motion flags hold. *)
Lemma frame_chamfer_error_motion OMV OMV' nsp i :
  length OMV = length OMV' ->
  frame_chamfer_error V OP OV OMV nsp i = frame_chamfer_error V OP OV OMV' nsp i.
Proof.
  intros Hlen. unfold frame_chamfer_error.
  destruct (Py.index V i); simpl; [|done].
  destruct (Py.index OP i); simpl; [|done].
  destruct (Py.index OV i); simpl; [|done].
  destruct (Py.index OMV (i - 1)) as [b|e] eqn:H;
    destruct (Py.index OMV' (i - 1)) as [b'|e'] eqn:H'; simpl; [done| | |].
  - destruct (index_defined_length OMV OMV' (i - 1) Hlen) as [? ?]; [eauto|congruence].
  - destruct (index_defined_length OMV' OMV (i - 1)) as [? ?]; [done|eauto|congruence].
  - by rewrite (index_raises _ _ _ H), (index_raises _ _ _ H').
Qed.

End evaluate_prediction.

Lemma index_insert0 {A} (l : list A) (x : A) (i : Z) :
  (1 <= i)%Z -> Py.index (<[0%nat := x]> l) i = Py.index l i.
Proof.
  intros Hi. unfold Py.index, Py.len. rewrite length_insert.
  destruct (Z.ltb_spec i 0); [lia|].
  by rewrite list_lookup_insert_ne by lia.
Qed.

Lemma shape1_insert0 {A} (t : list (list A)) (r : list A) :
  Py.len r = EvaluateChamfer.shape1 t ->
  EvaluateChamfer.shape1 (<[0%nat := r]> t) = EvaluateChamfer.shape1 t.
Proof. destruct t; simpl; [done|]. by intros ->. Qed.

Lemma evaluate_prediction_frame0 s t V OP OV OMV nop nsp v0 p0 b0 :
  (1 <= s)%Z ->
  EvaluateChamfer.evaluate_prediction s t (<[0%nat := v0]> V) (<[0%nat := p0]> OP)
    (<[0%nat := b0]> OV) OMV nop nsp =
  EvaluateChamfer.evaluate_prediction s t V OP OV OMV nop nsp.
Proof.
  intros Hs. unfold EvaluateChamfer.evaluate_prediction,
    EvaluateChamfer.chamfer_errors_loop.
  f_equal. apply for_each_ext. intros i acc Hi.
  apply range_elem in Hi.
  unfold EvaluateChamfer.frame_chamfer_error.
  by rewrite !index_insert0 by lia.
Qed.

Lemma main_loop_app before rest written :
  EvaluateChamfer.main_loop (before ++ rest) written =
  match EvaluateChamfer.main_loop before written with
  | (rows, None) => EvaluateChamfer.main_loop rest rows
  | stopped => stopped
  end.
Proof.
  revert written. induction before as [|c before IH]; intros written; simpl.
  - done.
  - destruct (EvaluateChamfer.process_case c); [apply IH | done].
Qed.

(** ** Claims about the Chamfer evaluator *)

(** C1, as amended.  For every frame of the evaluated range, the error that
    [evaluate_prediction] accumulates for it is the one-directional L1 Chamfer
    distance measured from the ground-truth object points marked visible in
    that frame to the predicted surface points (the first
    [num_surface_points] predicted vertices of the frame): each visible
    ground-truth point is matched with its nearest predicted point. *)
Theorem frame_error_measured_from_ground_truth
        (start_frame end_frame : Z) (V OP : list (list point))
        (OV OMV : list (list bool)) (num_surface_points : Z) (errs : list Q) :
  (0 <= num_surface_points)%Z ->
  EvaluateChamfer.chamfer_errors_loop start_frame end_frame V OP OV OMV
    num_surface_points = Ok errs ->
  forall k : nat, (start_frame + Z.of_nat k < end_frame)%Z ->
  exists x pts vis e,
    Py.index V (start_frame + Z.of_nat k) = Ok x /\
    Py.index OP (start_frame + Z.of_nat k) = Ok pts /\
    Py.index OV (start_frame + Z.of_nat k) = Ok vis /\
    errs !! k = Some e /\
    forall d,
      Spec.one_way_chamfer_L1 (Py.select pts vis)
        (take (Z.to_nat num_surface_points) x) = Some d ->
      (e == d)%Q.
Proof.
  intros Hn Hloop k Hk.
  apply for_each_append in Hloop as (es & -> & HF). simpl.
  destruct (Forall2_lookup_l _ _ _ k _ HF (range_lookup _ _ _ Hk)) as (e & He & Hf).
  unfold EvaluateChamfer.frame_chamfer_error in Hf.
  apply bind_Ok in Hf as (x & Hx & Hf).
  apply bind_Ok in Hf as (pts & Hpts & Hf).
  apply bind_Ok in Hf as (vis & Hvis & Hf).
  apply bind_Ok in Hf as (mv & _ & Hf).
  apply bind_Ok in Hf as (sel & Hsel & Hf).
  apply bind_Ok in Hf as (r & Hr & Hf).
  injection Hf as <-.
  exists x, pts, vis, (fst r). repeat split; try done.
  intros d Hd. apply (chamfer_distance_direction _ _ _ _ Hr).
  unfold Py.mask_index in Hsel. destruct (_ =? _)%nat; [|discriminate].
  injection Hsel as <-.
  unfold Py.slice_to. by destruct (Z.ltb_spec num_surface_points 0); [lia|].
Qed.

Lemma frame_error_measured_from_ground_truth_witness :
  exists x pts vis e,
    Py.index Examples.two_frames_vertices (1 + Z.of_nat 0) = Ok x /\
    Py.index Examples.two_frames_points (1 + Z.of_nat 0) = Ok pts /\
    Py.index Examples.two_frames_visibilities (1 + Z.of_nat 0) = Ok vis /\
    [0%Q] !! 0%nat = Some e /\
    forall d,
      Spec.one_way_chamfer_L1 (Py.select pts vis) (take (Z.to_nat 2) x) = Some d ->
      (e == d)%Q.
Proof.
  apply (frame_error_measured_from_ground_truth 1 2
           Examples.two_frames_vertices Examples.two_frames_points
           Examples.two_frames_visibilities Examples.one_motion 2 [0%Q]).
  - lia.
  - vm_compute. reflexivity.
  - lia.
Defined.

(** C1, as stated, fails: in the second frame of this input the prediction has
    a vertex far from the only visible ground-truth point.  The distance
    measured from the predicted points to the ground truth is 5, and the error
    that [evaluate_prediction] accumulates is 0. *)
Lemma frame_error_not_measured_from_prediction :
  exists e d,
    EvaluateChamfer.chamfer_errors_loop 1 2 Examples.two_frames_vertices
      Examples.two_frames_points Examples.two_frames_visibilities
      Examples.one_motion 2 = Ok [e] /\
    Py.index Examples.two_frames_vertices 1 = Ok [Examples.origin; Examples.far] /\
    Py.index Examples.two_frames_points 1 = Ok [Examples.origin] /\
    Py.index Examples.two_frames_visibilities 1 = Ok [true] /\
    Spec.one_way_chamfer_L1
      (take (Z.to_nat 2) [Examples.origin; Examples.far])
      (Py.select [Examples.origin] [true]) = Some d /\
    ~ (e == d)%Q.
Proof.
  eexists _, _. repeat split; try (vm_compute; reflexivity).
  vm_compute. discriminate.
Qed.

(** C4.  For a non-empty frame range, the dictionary that
    [evaluate_prediction] returns has [frame_len = end_frame - start_frame]
    and its [chamfer_error] is the arithmetic mean of the per-frame errors of
    the frames of the range, in order; and it does return when every frame of
    the range can be evaluated. *)
Theorem chamfer_error_is_mean_of_frame_errors
        (start_frame end_frame : Z) (V OP : list (list point))
        (OV OMV : list (list bool)) (num_original_points num_surface_points : Z) :
  (start_frame < end_frame)%Z ->
  (forall r,
      EvaluateChamfer.evaluate_prediction start_frame end_frame V OP OV OMV
        num_original_points num_surface_points = Ok r ->
      EvaluateChamfer.frame_len r = (end_frame - start_frame)%Z /\
      exists errs m,
        Forall2 (fun i e =>
                   EvaluateChamfer.frame_chamfer_error V OP OV OMV
                     num_surface_points i = Ok e)
                (Py.range start_frame end_frame) errs /\
        EvaluateChamfer.chamfer_error r = Finite m /\
        (m == Spec.arithmetic_mean errs)%Q) /\
  ((forall i, (start_frame <= i < end_frame)%Z ->
              exists e, EvaluateChamfer.frame_chamfer_error V OP OV OMV
                          num_surface_points i = Ok e) ->
   exists r, EvaluateChamfer.evaluate_prediction start_frame end_frame V OP OV
               OMV num_original_points num_surface_points = Ok r).
Proof.
  intros Hrange. unfold EvaluateChamfer.evaluate_prediction,
    EvaluateChamfer.chamfer_errors_loop. split.
  - intros r Hr. apply bind_Ok in Hr as (errs & Hloop & Hr).
    injection Hr as <-. simpl.
    apply for_each_append in Hloop as (es & -> & HF). simpl.
    pose proof (Forall2_length _ _ _ HF) as Hlen. rewrite range_length in Hlen.
    split; [unfold Py.len; lia|].
    destruct es as [|e es]; [simpl in Hlen; lia|].
    eexists (e :: es), _. split; [exact HF|]. split; [reflexivity|].
    unfold Spec.arithmetic_mean. rewrite foldl_Qplus_shift.
    unfold Qdiv. ring.
  - intros Hall.
    destruct (for_each_append_total
                (EvaluateChamfer.frame_chamfer_error V OP OV OMV num_surface_points)
                (Py.range start_frame end_frame) []) as [out Hout].
    { intros i Hi. apply Hall. by apply range_elem. }
    rewrite Hout. simpl. eauto.
Qed.

Lemma chamfer_error_is_mean_of_frame_errors_witness :
  exists r,
    EvaluateChamfer.evaluate_prediction 0 2 Examples.two_frames_vertices
      Examples.two_frames_points Examples.two_frames_visibilities
      Examples.one_motion 1 2 = Ok r /\
    EvaluateChamfer.frame_len r = (2 - 0)%Z.
Proof.
  destruct (chamfer_error_is_mean_of_frame_errors 0 2
              Examples.two_frames_vertices Examples.two_frames_points
              Examples.two_frames_visibilities Examples.one_motion 1 2
              ltac:(lia)) as [Hmean _].
  eexists. split; [vm_compute; reflexivity|].
  apply Hmean. vm_compute. reflexivity.
Defined.

(** C10.  The dictionary returned by [evaluate_prediction] does not depend on
    the motion-validity flags: two calls that differ only in the contents of
    [object_motions_valid], of the same shape, return the same result. *)
Theorem motion_flags_do_not_matter
        (start_frame end_frame : Z) (V OP : list (list point))
        (OV OMV OMV' : list (list bool))
        (num_original_points num_surface_points : Z) :
  length OMV = length OMV' ->
  EvaluateChamfer.evaluate_prediction start_frame end_frame V OP OV OMV
    num_original_points num_surface_points =
  EvaluateChamfer.evaluate_prediction start_frame end_frame V OP OV OMV'
    num_original_points num_surface_points.
Proof.
  intros Hlen. unfold EvaluateChamfer.evaluate_prediction,
    EvaluateChamfer.chamfer_errors_loop.
  f_equal. apply for_each_ext. intros i acc _.
  by rewrite (frame_chamfer_error_motion V OP OV OMV OMV' _ i Hlen).
Qed.

Lemma motion_flags_do_not_matter_witness :
  EvaluateChamfer.evaluate_prediction 1 2 Examples.two_frames_vertices
    Examples.two_frames_points Examples.two_frames_visibilities
    Examples.one_motion 1 2 =
  EvaluateChamfer.evaluate_prediction 1 2 Examples.two_frames_vertices
    Examples.two_frames_points Examples.two_frames_visibilities
    Examples.other_motion 1 2.
Proof. apply motion_flags_do_not_matter. reflexivity. Defined.

(** C8, as amended.  The train split is always evaluated from frame 1, and
    [evaluate_prediction] accumulates errors for the frame indices of
    [range(start_frame, end_frame)] only.  Hence the data of frame 0 (its
    predicted vertices, object points and visibility flags) never contributes
    to the report of the train split, and does not contribute to the report of
    the test split when [train_frame >= 1]: replacing it leaves the reports
    unchanged. *)
Theorem frame0_skipped (c : EvaluateChamfer.case_data)
        (v0 p0 : list point) (b0 : list bool) :
  Py.len p0 = EvaluateChamfer.shape1 (EvaluateChamfer.object_points c) ->
  let c' := Spec.replace_frame0 c v0 p0 b0 in
  (forall train_frame, 0%Z ∉ Py.range 1 train_frame) /\
  (forall train_frame num_original_points num_surface_points,
      EvaluateChamfer.evaluate_prediction 1 train_frame
        (EvaluateChamfer.vertices c') (EvaluateChamfer.object_points c')
        (EvaluateChamfer.object_visibilities c')
        (EvaluateChamfer.object_motions_valid c')
        num_original_points num_surface_points =
      EvaluateChamfer.evaluate_prediction 1 train_frame
        (EvaluateChamfer.vertices c) (EvaluateChamfer.object_points c)
        (EvaluateChamfer.object_visibilities c)
        (EvaluateChamfer.object_motions_valid c)
        num_original_points num_surface_points) /\
  (forall train_frame,
      Py.index (EvaluateChamfer.split_train c) 1 = Ok train_frame ->
      (1 <= train_frame)%Z ->
      EvaluateChamfer.process_case c' = EvaluateChamfer.process_case c).
Proof.
  intros Hshape c'. split; [|split].
  - intros train_frame Hin. apply range_elem in Hin. lia.
  - intros train_frame nop nsp. simpl. by apply evaluate_prediction_frame0.
  - intros train_frame Htrain Hge.
    unfold EvaluateChamfer.process_case. simpl.
    rewrite (shape1_insert0 _ _ Hshape). rewrite Htrain. simpl.
    destruct (Py.index (EvaluateChamfer.split_test c) 1) as [test_frame|]; [|done].
    simpl.
    assert (Py.len (<[0%nat := v0]> (EvaluateChamfer.vertices c)) =
            Py.len (EvaluateChamfer.vertices c)) as ->
      by (unfold Py.len; by rewrite length_insert).
    destruct (_ =? _)%Z; [|done]. simpl.
    by rewrite !evaluate_prediction_frame0 by lia.
Qed.

Lemma frame0_skipped_witness :
  EvaluateChamfer.process_case
    (Spec.replace_frame0 Examples.case_three [Examples.far] [Examples.unit_x] [false]) =
  EvaluateChamfer.process_case Examples.case_three.
Proof.
  refine (proj2 (proj2 (frame0_skipped Examples.case_three
                          [Examples.far] [Examples.unit_x] [false] _)) 2%Z _ _).
  - reflexivity.
  - reflexivity.
  - lia.
Defined.

(** C8, as stated, fails: when the split puts no frame in the train set
    ([train_frame = 0]), the test split is evaluated over [range(0, 2)];
    frame 0 is counted, and replacing its predicted vertices changes the
    reported test error. *)
Lemma frame0_evaluated_in_test_split :
  exists r r' q q',
    Py.index (EvaluateChamfer.split_train Examples.case_train0) 1 = Ok 0%Z /\
    0%Z ∈ Py.range 0 2 /\
    EvaluateChamfer.process_case Examples.case_train0 = Ok r /\
    EvaluateChamfer.process_case
      (Spec.replace_frame0 Examples.case_train0
         [Examples.unit_x] [Examples.origin] [true]) = Ok r' /\
    EvaluateChamfer.test_frame_num r = 2%Z /\
    EvaluateChamfer.test_chamfer_error r = Finite q /\
    EvaluateChamfer.test_chamfer_error r' = Finite q' /\
    ~ (q == q')%Q.
Proof.
  eexists _, _, _, _. repeat split; try (vm_compute; reflexivity).
  - apply range_elem. lia.
  - vm_compute. discriminate.
Qed.

(** C9.  When the frame count of the test split differs from the number of
    predicted frames, processing the case raises AssertionError, whatever the
    rest of the data holds (so before any frame is evaluated), and the run
    stops there without writing a row for this case or the following ones;
    when they are equal, no AssertionError is raised. *)
Theorem frame_count_mismatch_aborts (c : EvaluateChamfer.case_data)
        (train_frame test_frame : Z) :
  Py.index (EvaluateChamfer.split_train c) 1 = Ok train_frame ->
  Py.index (EvaluateChamfer.split_test c) 1 = Ok test_frame ->
  (test_frame <> Py.len (EvaluateChamfer.vertices c) ->
   EvaluateChamfer.process_case c = Raise AssertionError /\
   forall before rest rows,
     EvaluateChamfer.main before = (rows, None) ->
     EvaluateChamfer.main (before ++ c :: rest) = (rows, Some AssertionError)) /\
  (test_frame = Py.len (EvaluateChamfer.vertices c) ->
   EvaluateChamfer.process_case c <> Raise AssertionError).
Proof.
  intros Htrain Htest.
  assert (test_frame <> Py.len (EvaluateChamfer.vertices c) ->
          EvaluateChamfer.process_case c = Raise AssertionError) as Hraise.
  { intros Hne. unfold EvaluateChamfer.process_case.
    rewrite Htrain, Htest. simpl.
    by destruct (Z.eqb_spec test_frame (Py.len (EvaluateChamfer.vertices c))). }
  split.
  - intros Hne. split; [by apply Hraise|].
    intros before rest rows Hbefore. unfold EvaluateChamfer.main in *.
    rewrite main_loop_app, Hbefore. simpl. by rewrite (Hraise Hne).
  - intros ->. unfold EvaluateChamfer.process_case.
    rewrite Htrain, Htest. simpl. rewrite Z.eqb_refl. simpl.
    destruct (EvaluateChamfer.evaluate_prediction 1 _ _ _ _ _ _ _) eqn:H1; simpl.
    + destruct (EvaluateChamfer.evaluate_prediction train_frame _ _ _ _ _ _ _)
        eqn:H2; simpl; [discriminate|].
      intros [= ->]. by eapply evaluate_prediction_raises.
    + intros [= ->]. by eapply evaluate_prediction_raises.
Qed.

Lemma frame_count_mismatch_aborts_witness :
  EvaluateChamfer.process_case Examples.case_short = Raise AssertionError /\
  EvaluateChamfer.process_case Examples.case_three <> Raise AssertionError.
Proof.
  split.
  - apply (frame_count_mismatch_aborts Examples.case_short 2 4 eq_refl eq_refl).
    vm_compute. discriminate.
  - by apply (frame_count_mismatch_aborts Examples.case_three 2 3 eq_refl eq_refl).
Defined.

(** ** Indexing by a boolean mask *)

Lemma select_nil_r {A} (l : list A) : Py.select l [] = [].
Proof. by destruct l. Qed.

Lemma zip_nil_r {A B} (l : list A) : zip l (@nil B) = [].
Proof. by destruct l. Qed.

Lemma select_zip {A B} (a : list A) (b : list B) (m : list bool) :
  Py.select (zip a b) m = zip (Py.select a m) (Py.select b m).
Proof.
  revert b m. induction a as [|x a IH]; intros b m; [done|].
  destruct b as [|y b].
  { change (Py.select (@nil B) m) with (@nil B). by rewrite !zip_nil_r. }
  destruct m as [|[] m]; simpl; [done| |]; by rewrite IH.
Qed.

Lemma select_length_eq {A B} (a : list A) (b : list B) (m : list bool) :
  length a = length b -> length (Py.select a m) = length (Py.select b m).
Proof.
  revert b m. induction a as [|x a IH]; intros [|y b] m; simpl; try done.
  intros [= Hlen]. destruct m as [|[] m]; simpl; auto.
Qed.

(** The entry at position [i] is selected when the mask is true there. *)
Lemma select_elem {A} (l : list A) (m : list bool) (i : nat) (x : A) :
  l !! i = Some x -> m !! i = Some true -> x ∈ Py.select l m.
Proof.
  revert m i. induction l as [|y l IH]; intros [|b m] [|i]; simpl; try done.
  - intros [= ->] [= ->]. left.
  - intros Hl Hm. destruct b; [right|]; eauto.
Qed.

Lemma mask_index_Ok {A} (l : list A) (m : list bool) (l' : list A) :
  Py.mask_index l m = Ok l' <-> length l = length m /\ l' = Py.select l m.
Proof.
  unfold Py.mask_index. destruct (Nat.eqb_spec (length l) (length m)).
  - split; [by intros [= <-] | by intros [_ ->]].
  - split; [discriminate | by intros [? _]].
Qed.

(** ** The common end of the pruning functions *)

Lemma index_attributes_pruned (g g' : GsRender.GaussianModel) (mask3d : list bool) :
  GsRender.index_attributes g mask3d = Ok g' -> Spec.pruned_by mask3d g g'.
Proof.
  unfold GsRender.index_attributes. intros H.
  apply bind_Ok in H as (xyz & H1 & H). apply mask_index_Ok in H1 as [L1 ->].
  apply bind_Ok in H as (dc & H2 & H). apply mask_index_Ok in H2 as [L2 ->].
  apply bind_Ok in H as (fr & H3 & H). apply mask_index_Ok in H3 as [L3 ->].
  apply bind_Ok in H as (sc & H4 & H). apply mask_index_Ok in H4 as [L4 ->].
  apply bind_Ok in H as (ro & H5 & H). apply mask_index_Ok in H5 as [L5 ->].
  apply bind_Ok in H as (op & H6 & H). apply mask_index_Ok in H6 as [L6 ->].
  injection H as <-. split; [done|]. split.
  - unfold Spec.aligned. simpl.
    repeat split; apply select_length_eq; congruence.
  - unfold Spec.attribute_tuples. simpl. by rewrite !select_zip.
Qed.

Lemma index_attributes_total (g : GsRender.GaussianModel) (mask3d : list bool) :
  Spec.aligned g -> length mask3d = length (GsRender._xyz g) ->
  exists g', GsRender.index_attributes g mask3d = Ok g'.
Proof.
  intros (H1 & H2 & H3 & H4 & H5) Hm. unfold GsRender.index_attributes, Py.mask_index.
  rewrite H1, H2, H3, H4, H5, Hm, Nat.eqb_refl. simpl. eauto.
Qed.

(** ** Opacity pruning *)

Lemma low_opacity_mask3d_lookup (act : Q -> Q) (g : GsRender.GaussianModel)
      (thr : Q) (i : nat) (o : Q) :
  GsRender._opacity g !! i = Some o ->
  GsRender.low_opacity_mask3d act g thr !! i = Some (Qgtb (act o) thr).
Proof.
  intros H. unfold GsRender.low_opacity_mask3d, GsRender.get_opacity.
  by rewrite !list_lookup_fmap, H.
Qed.

(** ** Mesh-distance pruning *)

Lemma ball_scan_first (radius : Q) (p : point) (mesh : list point) (j : Z) :
  (0 <= j)%Z ->
  GsRender.hit_mask
    [snd <$> (Lib.ball_scan radius p mesh j 1 ++
              replicate (1 - length (Lib.ball_scan radius p mesh j 1)) (0%Q, (-1)%Z))] =
  [existsb (Lib.within_radius radius p) mesh].
Proof.
  revert j. induction mesh as [|q mesh IH]; intros j Hj; simpl; [done|].
  destruct (Lib.within_radius radius p q); simpl.
  - destruct mesh; simpl; by destruct (Z.eqb_spec j (-1)); [lia|].
  - apply IH. lia.
Qed.

Lemma mesh_distance_mask3d_eq (g : GsRender.GaussianModel) (mesh : list point)
      (thr : Q) :
  GsRender.mesh_distance_mask3d g mesh thr =
  (fun p => existsb (Lib.within_radius thr p) mesh) <$> GsRender._xyz g.
Proof.
  unfold GsRender.mesh_distance_mask3d, Lib.ball_query. simpl.
  induction (GsRender._xyz g) as [|p xyz IH]; simpl; [done|].
  f_equal; [|exact IH].
  pose proof (ball_scan_first thr p mesh 0 ltac:(lia)) as H.
  simpl in H. by injection H.
Qed.

Lemma within_radius_lt (radius : Q) (p q : point) :
  Lib.within_radius radius p q = true <->
  (Lib.dist2_L2 p q < radius * radius)%Q.
Proof. apply Qltb_lt. Qed.

(** ** Visibility pruning *)

Lemma for_each_app {X S} (body : X -> S -> result S) (xs ys : list X) (s : S) :
  Py.for_each (xs ++ ys) body s = Py.for_each xs body s ≫= Py.for_each ys body.
Proof.
  revert s. induction xs as [|x xs IH]; intros s; simpl; [done|].
  destruct (body x s); simpl; [apply IH | done].
Qed.

Lemma index_nat_Ok {A} (l : list A) (i : nat) (a : A) :
  Py.index l (Z.of_nat i) = Ok a <-> l !! i = Some a.
Proof.
  split.
  - intros H. apply index_Ok_pos in H; [|lia]. by rewrite Nat2Z.id in H.
  - intros H. apply index_pos_Ok; [lia|]. by rewrite Nat2Z.id.
Qed.

(** The depth that the code divides by is the third coordinate of
    R^T p + T. *)
Lemma to_camera_depth (view : GsRender.View) (p : point) :
  (Notions.depth (GsRender.to_camera (GsRender.R view) (GsRender.T view) p) ==
   Notions.depth (Spec.camera_space view p))%Q.
Proof.
  unfold GsRender.to_camera, Spec.camera_space, GsRender.transpose, GsRender.dot3.
  destruct (GsRender.R view) as [[[[r00 r01] r02] [[r10 r11] r12]] [[r20 r21] r22]].
  destruct (GsRender.T view) as [[t0 t1] t2]. destruct p as [[x y] z].
  simpl. ring.
Qed.

(** The pixel that the code computes is the projected pixel of the
    specification; where that is undefined (depth 0) the code gets the
    integer that stands for nan. *)
Lemma project_pixel (view : GsRender.View) (p : point) :
  GsRender.project view p =
  default (Lib.long_of_nan, Lib.long_of_nan) (Spec.pixel view p).
Proof.
  pose proof (to_camera_depth view p) as Hdepth. revert Hdepth.
  unfold GsRender.project, Spec.pixel, Spec.image_space, GsRender.to_camera,
    Spec.camera_space, GsRender.transpose, GsRender.dot3, GsRender.normalize_z,
    Notions.depth.
  destruct (GsRender.R view) as [[[[r00 r01] r02] [[r10 r11] r12]] [[r20 r21] r22]].
  destruct (GsRender.T view) as [[t0 t1] t2]. destruct p as [[x y] z].
  destruct (GsRender.K view) as [[[[k00 k01] k02] [[k10 k11] k12]] k2].
  intros Hdepth. rewrite (Qeqb_comp _ _ Hdepth 0%Q 0%Q (Qeq_refl 0%Q)).
  destruct (Qeq_bool (r02 * x + r12 * y + r22 * z + t2) 0) eqn:Hz; [done|].
  apply Qeq_bool_neq in Hz.
  assert (~ x * r02 + y * r12 + z * r22 + 1 * t2 == 0)%Q as Hz'.
  { intros H0. apply Hz. rewrite <- Hdepth. exact H0. }
  unfold default, id. f_equal; apply round_proper; field; done.
Qed.

Lemma long_of_nan_invalid (W H : Z) :
  GsRender.valid W H (Lib.long_of_nan, Lib.long_of_nan) = false.
Proof. reflexivity. Qed.

Lemma mask_at_entry (alpha_mask : list (list Q)) (u v : Z) (a : Q) :
  (0 <= u)%Z -> (0 <= v)%Z ->
  GsRender.mask_at alpha_mask v u = Ok a <-> Spec.mask_entry alpha_mask (u, v) = Some a.
Proof.
  intros Hu Hv. unfold GsRender.mask_at, Spec.mask_entry. cbn [fst snd]. split.
  - intros H. apply bind_Ok in H as (r & Hr & H).
    apply index_Ok_pos in Hr; [|done]. apply index_Ok_pos in H; [|done].
    by rewrite Hr.
  - intros H. destruct (alpha_mask !! Z.to_nat v) as [r|] eqn:Hr; [|done].
    simpl in H. rewrite (index_pos_Ok _ _ _ Hv Hr). simpl.
    by apply index_pos_Ok.
Qed.

(** The test of the code, [valid_uv[i] and alpha_mask[v, u] > 0], decides
    whether the point is covered. *)
Lemma covered_visible_in (view : GsRender.View) (p : point) :
  Spec.covered view p <-> Spec.visible_in view p = true.
Proof.
  unfold Spec.covered, Spec.visible_in, Spec.on_mask. rewrite project_pixel.
  destruct (Spec.pixel view p) as [[u v]|]; unfold default, id; cbn [fst snd].
  - unfold GsRender.valid. cbn [fst snd].
    rewrite !andb_true_iff, !Z.leb_le, !Z.ltb_lt. split.
    + intros (u' & v' & a & [= <- <-] & Hu & Hv & Ha & Hpos).
      split; [lia|]. apply mask_at_entry in Ha; [|lia..]. rewrite Ha.
      by apply Qgtb_lt.
    + intros (Huv & Ha).
      destruct (GsRender.mask_at _ v u) as [a|] eqn:Hm; [|discriminate].
      exists u, v, a. split; [done|]. split; [lia|]. split; [lia|].
      split; [apply mask_at_entry; [lia..|done] | by apply Qgtb_lt].
  - rewrite long_of_nan_invalid. split; [|discriminate].
    intros (u & v & a & H & _). discriminate.
Qed.

(** One pass of the inner loop bumps the counter of its point when the pixel
    is on the mask, and leaves the other counters alone. *)
Lemma count_point_Ok (view : GsRender.View) (valid_uv : list bool)
      (i : nat) (uv : Z * Z) (counter counter' : list Z) (c : Z) :
  valid_uv !! i =
    Some (GsRender.valid (GsRender.image_width view) (GsRender.image_height view) uv) ->
  counter !! i = Some c ->
  GsRender.count_point (GsRender.alpha_mask view) valid_uv (i, uv) counter = Ok counter' ->
  counter' = <[i := if Spec.on_mask view uv then Lib.wrap32 (c + 1) else c]> counter.
Proof.
  intros Hv Hc. unfold GsRender.count_point, Spec.on_mask. destruct uv as [u v].
  apply index_nat_Ok in Hv. rewrite Hv. simpl.
  destruct (GsRender.valid _ _ _); simpl.
  - destruct (GsRender.mask_at _ v u) as [a|]; simpl; [|discriminate].
    destruct (Qgtb a 0).
    + apply index_nat_Ok in Hc. rewrite Hc. simpl. by intros [= <-].
    + intros [= <-]. by rewrite list_insert_id.
  - intros [= <-]. by rewrite list_insert_id.
Qed.

Lemma count_point_total (view : GsRender.View) (valid_uv : list bool)
      (i : nat) (uv : Z * Z) (counter : list Z) :
  Spec.mask_covers_image view ->
  valid_uv !! i =
    Some (GsRender.valid (GsRender.image_width view) (GsRender.image_height view) uv) ->
  i < length counter ->
  exists counter',
    GsRender.count_point (GsRender.alpha_mask view) valid_uv (i, uv) counter = Ok counter'.
Proof.
  intros Hcov Hv Hi. unfold GsRender.count_point. destruct uv as [u v].
  apply index_nat_Ok in Hv. rewrite Hv. simpl.
  destruct (GsRender.valid _ _ _) eqn:Hvalid; simpl; [|eauto].
  unfold GsRender.valid in Hvalid. simpl in Hvalid.
  rewrite !andb_true_iff, !Z.leb_le, !Z.ltb_lt in Hvalid.
  destruct (Hcov u v) as [a ->]; [lia|lia|]. simpl.
  destruct (Qgtb a 0); [|eauto].
  apply lookup_lt_is_Some_2 in Hi as [c Hc].
  apply index_nat_Ok in Hc. rewrite Hc. simpl. eauto.
Qed.

(** The inner loop over the points [k, k + length uvs). *)
Lemma count_points_Ok (view : GsRender.View) (valid_uv : list bool)
      (uvs : list (Z * Z)) (k : nat) (counter counter' : list Z) :
  (forall j uv, uvs !! j = Some uv ->
     valid_uv !! (k + j)%nat =
       Some (GsRender.valid (GsRender.image_width view) (GsRender.image_height view) uv)) ->
  (k + length uvs <= length counter)%nat ->
  Py.for_each (zip (seq k (length uvs)) uvs)
    (GsRender.count_point (GsRender.alpha_mask view) valid_uv) counter = Ok counter' ->
  length counter' = length counter /\
  (forall i, (i < k \/ k + length uvs <= i)%nat -> counter' !! i = counter !! i) /\
  (forall j uv c, uvs !! j = Some uv -> counter !! (k + j)%nat = Some c ->
     counter' !! (k + j)%nat =
       Some (if Spec.on_mask view uv then Lib.wrap32 (c + 1) else c)).
Proof.
  revert k counter. induction uvs as [|uv0 uvs IH]; intros k counter Hvalid Hlen H.
  - injection H as <-. split; [done|]. split; [done|]. intros j uv c Hj. done.
  - simpl in H, Hlen. apply bind_Ok in H as (c1 & H0 & H).
    destruct (lookup_lt_is_Some_2 counter k) as [c0 Hc0]; [lia|].
    apply (count_point_Ok view valid_uv k uv0 counter c1 c0) in H0 as ->; [| |done].
    2:{ specialize (Hvalid 0%nat uv0 eq_refl). by rewrite Nat.add_0_r in Hvalid. }
    apply IH in H as (HL & Hout & Hin).
    + rewrite length_insert in HL. split; [done|]. split.
      * intros i Hi. simpl in Hi. rewrite Hout by lia.
        apply list_lookup_insert_ne. lia.
      * intros [|j] uv c Hj Hc.
        -- injection Hj as <-. rewrite Nat.add_0_r in *.
           rewrite Hout by lia. rewrite list_lookup_insert_eq by lia.
           rewrite Hc0 in Hc. by injection Hc as ->.
        -- simpl in Hj. replace (k + S j)%nat with (S k + j)%nat in * by lia.
           apply (Hin j uv c Hj). by rewrite list_lookup_insert_ne by lia.
    + intros j uv Hj. replace (S k + j)%nat with (k + S j)%nat by lia.
      by apply Hvalid.
    + rewrite length_insert. lia.
Qed.

Lemma count_points_total (view : GsRender.View) (valid_uv : list bool)
      (uvs : list (Z * Z)) (k : nat) (counter : list Z) :
  Spec.mask_covers_image view ->
  (forall j uv, uvs !! j = Some uv ->
     valid_uv !! (k + j)%nat =
       Some (GsRender.valid (GsRender.image_width view) (GsRender.image_height view) uv)) ->
  (k + length uvs <= length counter)%nat ->
  exists counter',
    Py.for_each (zip (seq k (length uvs)) uvs)
      (GsRender.count_point (GsRender.alpha_mask view) valid_uv) counter = Ok counter'.
Proof.
  intros Hcov. revert k counter.
  induction uvs as [|uv0 uvs IH]; intros k counter Hvalid Hlen; [simpl; eauto|].
  simpl in Hlen.
  destruct (count_point_total view valid_uv k uv0 counter Hcov) as [c1 H1]; [|lia|].
  { specialize (Hvalid 0%nat uv0 eq_refl). by rewrite Nat.add_0_r in Hvalid. }
  assert (forall f, Py.for_each (zip (seq k (length (uv0 :: uvs))) (uv0 :: uvs)) f counter =
                    f (k, uv0) counter ≫= Py.for_each (zip (seq (S k) (length uvs)) uvs) f)
    as -> by reflexivity.
  rewrite H1. cbn [mbind result_bind].
  destruct (lookup_lt_is_Some_2 counter k) as [c0 Hc0]; [lia|].
  apply (count_point_Ok view valid_uv k uv0 counter c1 c0) in H1 as ->; [| |done].
  2:{ specialize (Hvalid 0%nat uv0 eq_refl). by rewrite Nat.add_0_r in Hvalid. }
  apply IH.
  - intros j uv Hj. replace (S k + j)%nat with (k + S j)%nat by lia. by apply Hvalid.
  - rewrite length_insert. lia.
Qed.

(** One pass of the loop over the views. *)
Lemma count_view_Ok (xyz : list point) (view : GsRender.View)
      (counter counter' : list Z) :
  length counter = length xyz ->
  GsRender.count_view xyz view counter = Ok counter' ->
  length counter' = length xyz /\
  forall i p c, xyz !! i = Some p -> counter !! i = Some c ->
    counter' !! i = Some (if Spec.visible_in view p then Lib.wrap32 (c + 1) else c).
Proof.
  intros Hlen H. unfold GsRender.count_view, Py.enumerate in H.
  apply count_points_Ok in H as (HL & _ & Hin).
  - split; [congruence|]. intros i p c Hp Hc.
    apply (Hin i (GsRender.project view p) c); [|done].
    by rewrite list_lookup_fmap, Hp.
  - intros j uv Hj. simpl. by rewrite list_lookup_fmap, Hj.
  - rewrite length_fmap. simpl. lia.
Qed.

Lemma count_view_total (xyz : list point) (view : GsRender.View) (counter : list Z) :
  Spec.mask_covers_image view ->
  length counter = length xyz ->
  exists counter', GsRender.count_view xyz view counter = Ok counter'.
Proof.
  intros Hcov Hlen. unfold GsRender.count_view, Py.enumerate.
  apply count_points_total; [done| |].
  - intros j uv Hj. simpl. by rewrite list_lookup_fmap, Hj.
  - rewrite length_fmap. simpl. lia.
Qed.

Lemma wrap32_small (z : Z) :
  (- 2 ^ 31 <= z < 2 ^ 31)%Z -> Lib.wrap32 z = z.
Proof. intros Hz. unfold Lib.wrap32. rewrite Z.mod_small; lia. Qed.

Lemma count_visible_cons (view : GsRender.View) (views : list GsRender.View)
      (p : point) :
  Spec.count_visible (view :: views) p =
  ((if Spec.visible_in view p then 1 else 0) + Spec.count_visible views p)%Z.
Proof.
  unfold Spec.count_visible. simpl.
  destruct (Spec.visible_in view p); simpl; lia.
Qed.

Lemma count_visible_bounds (views : list GsRender.View) (p : point) :
  (0 <= Spec.count_visible views p <= Py.len views)%Z.
Proof.
  unfold Spec.count_visible, Py.len.
  pose proof (List.filter_length_le (fun view => Spec.visible_in view p) views). lia.
Qed.

Lemma count_visible_all (views : list GsRender.View) (p : point) :
  Spec.count_visible views p = Py.len views <->
  forall view, view ∈ views -> Spec.visible_in view p = true.
Proof.
  induction views as [|view views IH].
  - split; [|done]. intros _ view Hin. by apply elem_of_nil in Hin.
  - rewrite count_visible_cons. unfold Py.len in *. simpl length.
    pose proof (count_visible_bounds views p) as Hb. unfold Py.len in Hb.
    split.
    + intros H view' Hin. destruct (Spec.visible_in view p) eqn:Hv; [|lia].
      apply elem_of_cons in Hin as [->|Hin]; [done|].
      apply IH; [lia|done].
    + intros H. rewrite (H view) by left.
      assert (Spec.count_visible views p = Z.of_nat (length views)) as ->; [|lia].
      apply IH. intros view' Hin. apply H. by right.
Qed.

(** The loop over the views, started from any counters that cannot overflow:
    each counter grows by the number of views in which its point is
    visible. *)
Lemma view_loop_Ok (xyz : list point) (views : list GsRender.View)
      (counter0 counter : list Z) :
  length counter0 = length xyz ->
  Py.for_each views (GsRender.count_view xyz) counter0 = Ok counter ->
  length counter = length xyz /\
  forall i p c, xyz !! i = Some p -> counter0 !! i = Some c ->
    (0 <= c)%Z -> (c + Py.len views < 2 ^ 31)%Z ->
    counter !! i = Some (c + Spec.count_visible views p)%Z.
Proof.
  revert counter0. induction views as [|view views IH]; intros counter0 Hlen H.
  - injection H as <-. split; [done|]. intros i p c _ Hc _ _.
    unfold Spec.count_visible. simpl. by rewrite Z.add_0_r.
  - simpl in H. apply bind_Ok in H as (counter1 & H1 & H).
    apply count_view_Ok in H1 as [Hlen1 H1]; [|done].
    apply IH in H as [Hlen2 H]; [|done]. split; [done|].
    intros i p c Hp Hc Hc0 Hbound. unfold Py.len in Hbound. simpl in Hbound.
    rewrite count_visible_cons.
    specialize (H1 i p c Hp Hc).
    rewrite (H i p _ Hp H1).
    + f_equal. destruct (Spec.visible_in view p); [|lia].
      rewrite wrap32_small; lia.
    + destruct (Spec.visible_in view p); [|lia]. rewrite wrap32_small; lia.
    + unfold Py.len. destruct (Spec.visible_in view p); [|lia].
      rewrite wrap32_small; lia.
Qed.

Lemma view_loop_total (xyz : list point) (views : list GsRender.View)
      (counter0 : list Z) :
  Forall Spec.mask_covers_image views ->
  length counter0 = length xyz ->
  exists counter, Py.for_each views (GsRender.count_view xyz) counter0 = Ok counter.
Proof.
  intros Hcov. revert counter0.
  induction Hcov as [|view views Hview _ IH]; intros counter0 Hlen; simpl; [eauto|].
  destruct (count_view_total xyz view counter0 Hview Hlen) as [counter1 H1].
  rewrite H1. simpl. apply IH.
  by apply count_view_Ok in H1 as [-> _].
Qed.

Lemma view_counter_Ok (g : GsRender.GaussianModel) (views : list GsRender.View)
      (counter : list Z) :
  (Py.len views < 2 ^ 31)%Z ->
  GsRender.view_counter g views = Ok counter ->
  length counter = length (GsRender._xyz g) /\
  forall i p, GsRender._xyz g !! i = Some p ->
    counter !! i = Some (Spec.count_visible views p).
Proof.
  intros Hbound H. unfold GsRender.view_counter in H.
  apply view_loop_Ok in H as [Hlen H]; [|by rewrite length_replicate].
  split; [done|]. intros i p Hp.
  rewrite (H i p 0%Z Hp); [done| |lia|lia].
  apply lookup_replicate_2. by apply lookup_lt_Some in Hp.
Qed.

Lemma mask3d_of_counter_lookup (views : list GsRender.View) (counter : list Z)
      (i : nat) (c : Z) :
  counter !! i = Some c ->
  (GsRender.mask3d_of_counter views counter !! i = Some true <->
   (Py.len views <= c)%Z).
Proof.
  intros Hc. unfold GsRender.mask3d_of_counter, GsRender.VIEW_THRESHOLD.
  rewrite list_lookup_fmap, Hc. simpl.
  split.
  - intros [= H]. apply Qgeb_le in H. rewrite Qmult_1_r in H.
    by rewrite Zle_Qle.
  - intros H. f_equal. apply Qgeb_le. rewrite Qmult_1_r. by rewrite <- Zle_Qle.
Qed.

(** ** Claims about the pruning functions *)

(** C2, as amended.  In [remove_gaussians_with_mask], with fewer than 2^31
    views: each view increments the counter of a gaussian exactly when its
    projected pixel (defined when its depth in camera space is not 0) lies
    inside the image bounds and the alpha mask of the view is positive
    there; a gaussian survives if and only if its final counter reaches
    [len(views) * VIEW_THRESHOLD].  [VIEW_THRESHOLD] is the constant 1.0 of
    the function body, which takes the gaussians and the views and nothing
    else: whatever the call, a gaussian survives if and only if it is
    covered in all the views.  The call returns when the set is aligned and
    the alpha masks have an entry for every pixel of their images. *)
Theorem visibility_pruning_counts_views
        (g : GsRender.GaussianModel) (views : list GsRender.View) :
  (Py.len views < 2 ^ 31)%Z ->
  (Spec.aligned g -> Forall Spec.mask_covers_image views ->
   exists g', GsRender.remove_gaussians_with_mask g views = Ok g') /\
  forall g', GsRender.remove_gaussians_with_mask g views = Ok g' ->
  exists counter,
    GsRender.view_counter g views = Ok counter /\
    (forall pre view post, views = pre ++ view :: post ->
       exists before after,
         GsRender.view_counter g pre = Ok before /\
         GsRender.view_counter g (pre ++ [view]) = Ok after /\
         forall i p, GsRender._xyz g !! i = Some p ->
           exists c, before !! i = Some c /\
             (Spec.covered view p -> after !! i = Some (c + 1)%Z) /\
             (~ Spec.covered view p -> after !! i = Some c)) /\
    Spec.pruned_by (GsRender.mask3d_of_counter views counter) g g' /\
    (forall i p, GsRender._xyz g !! i = Some p ->
       exists c, counter !! i = Some c /\
         (GsRender.mask3d_of_counter views counter !! i = Some true <->
          (inject_Z (Py.len views) * GsRender.VIEW_THRESHOLD <= inject_Z c)%Q) /\
         (GsRender.mask3d_of_counter views counter !! i = Some true <->
          (Py.len views <= c)%Z) /\
         (GsRender.mask3d_of_counter views counter !! i = Some true <->
          forall view, view ∈ views -> Spec.covered view p)).
Proof.
  intros Hbound. split.
  { intros Hal Hcov. unfold GsRender.remove_gaussians_with_mask, GsRender.view_counter.
    destruct (view_loop_total (GsRender._xyz g) views
                (replicate (length (GsRender._xyz g)) 0%Z) Hcov)
      as [counter Hcounter]; [by rewrite length_replicate|].
    rewrite Hcounter. simpl. apply index_attributes_total; [done|].
    unfold GsRender.mask3d_of_counter. rewrite length_fmap.
    apply view_loop_Ok in Hcounter as [-> _]; [done|by rewrite length_replicate]. }
  intros g' H. unfold GsRender.remove_gaussians_with_mask in H.
  apply bind_Ok in H as (counter & Hcounter & H).
  exists counter. split; [done|].
  pose proof (view_counter_Ok g views counter Hbound Hcounter) as [Hlen Hcount].
  split; [|split].
  - intros pre view post ->.
    assert (Py.len pre + 1 <= Py.len (pre ++ view :: post))%Z as Hpre.
    { unfold Py.len. rewrite length_app. simpl. lia. }
    unfold GsRender.view_counter in Hcounter |- *.
    rewrite for_each_app in Hcounter.
    apply bind_Ok in Hcounter as (before & Hbefore & Hrest).
    simpl in Hrest. apply bind_Ok in Hrest as (after & Hafter & _).
    exists before, after. split; [done|]. split.
    { rewrite for_each_app, Hbefore. simpl. by rewrite Hafter. }
    intros i p Hp.
    destruct (view_counter_Ok g pre before) as [Hlenb Hb]; [lia|done|].
    exists (Spec.count_visible pre p). split; [by apply Hb|].
    apply count_view_Ok in Hafter as [_ Hafter]; [|done].
    specialize (Hafter i p _ Hp (Hb i p Hp)).
    pose proof (count_visible_bounds pre p) as Hcb.
    split.
    + intros Hcov. apply covered_visible_in in Hcov. rewrite Hcov in Hafter.
      rewrite Hafter, wrap32_small; [done|lia].
    + intros Hcov. rewrite covered_visible_in in Hcov.
      by destruct (Spec.visible_in view p).
  - by apply index_attributes_pruned.
  - intros i p Hp. exists (Spec.count_visible views p).
    split; [by apply Hcount|].
    pose proof (mask3d_of_counter_lookup views counter i _ (Hcount i p Hp)) as Hm.
    split; [|split; [done|]].
    + rewrite Hm. unfold GsRender.VIEW_THRESHOLD. rewrite Qmult_1_r.
      by rewrite Zle_Qle.
    + rewrite Hm. pose proof (count_visible_bounds views p) as Hcb. split.
      * intros Hle view Hin. apply covered_visible_in.
        apply (proj1 (count_visible_all views p)); [lia|done].
      * intros Hall.
        assert (Spec.count_visible views p = Py.len views) as ->; [|lia].
        apply (proj2 (count_visible_all views p)). intros view Hin.
        by apply covered_visible_in, Hall.
Qed.

Lemma visibility_pruning_counts_views_witness :
  exists counter,
    GsRender.view_counter Examples.four_gaussians [Examples.turned_view] = Ok counter /\
    Spec.pruned_by (GsRender.mask3d_of_counter [Examples.turned_view] counter)
      Examples.four_gaussians Examples.kept_gaussian.
Proof.
  destruct (proj2 (visibility_pruning_counts_views Examples.four_gaussians
                     [Examples.turned_view] ltac:(vm_compute; reflexivity))
              Examples.kept_gaussian)
    as (counter & Hc & _ & Hp & _).
  - vm_compute. reflexivity.
  - exists counter. split; [exact Hc | exact Hp].
Defined.

(** C2, as stated, fails: the threshold cannot be configured.  The first of
    [Examples.four_gaussians] is covered in one of two views, and the call,
    which has no argument besides the gaussians and the views, removes it
    with the others. *)
Lemma view_threshold_is_not_configurable :
  Spec.covered Examples.turned_view (3 # 20, - (6 # 5), 0)%Q /\
  ~ Spec.covered Examples.turned_view_right (3 # 20, - (6 # 5), 0)%Q /\
  GsRender.remove_gaussians_with_mask Examples.four_gaussians
    [Examples.turned_view; Examples.turned_view_right] = Ok Examples.no_gaussian.
Proof.
  split; [|split].
  - exists 1%Z, 1%Z, 1%Q. vm_compute. repeat split; discriminate.
  - intros (u & v & a & Hpix & _ & _ & Ha & Hpos).
    vm_compute in Hpix. injection Hpix as <- <-.
    vm_compute in Ha. injection Ha as <-. discriminate Hpos.
  - vm_compute. reflexivity.
Qed.

(** C3.  Each pruning function, applied to a Gaussian set whose six attribute
    arrays have the same length, returns a set whose six arrays have the same
    length again, and whose attribute tuples are the tuples of the input at
    the positions kept by one boolean mask: a point is removed from every
    array together, and a surviving point keeps its attributes. *)
Theorem pruning_keeps_attributes_aligned (g : GsRender.GaussianModel) :
  Spec.aligned g ->
  (forall views,
      (Forall Spec.mask_covers_image views ->
       exists g', GsRender.remove_gaussians_with_mask g views = Ok g') /\
      (forall g', GsRender.remove_gaussians_with_mask g views = Ok g' ->
                  exists mask3d, Spec.pruned_by mask3d g g')) /\
  (forall opacity_activation opacity_threshold,
      exists g' mask3d,
        GsRender.remove_gaussians_with_low_opacity opacity_activation g
          opacity_threshold = Ok g' /\
        Spec.pruned_by mask3d g g') /\
  (forall mesh_sampled_points dist_threshold,
      exists g' mask3d,
        GsRender.remove_gaussians_with_point_mesh_distance g mesh_sampled_points
          dist_threshold = Ok g' /\
        Spec.pruned_by mask3d g g').
Proof.
  intros Hal. split; [|split].
  - intros views. split.
    + intros Hcov. unfold GsRender.remove_gaussians_with_mask, GsRender.view_counter.
      destruct (view_loop_total (GsRender._xyz g) views
                  (replicate (length (GsRender._xyz g)) 0%Z) Hcov)
        as [counter Hcounter]; [by rewrite length_replicate|].
      rewrite Hcounter. simpl. apply index_attributes_total; [done|].
      unfold GsRender.mask3d_of_counter. rewrite length_fmap.
      apply view_loop_Ok in Hcounter as [-> _]; [done|by rewrite length_replicate].
    + intros g' H. unfold GsRender.remove_gaussians_with_mask in H.
      apply bind_Ok in H as (counter & _ & H).
      eexists. by apply index_attributes_pruned.
  - intros act thr. unfold GsRender.remove_gaussians_with_low_opacity.
    destruct (index_attributes_total g (GsRender.low_opacity_mask3d act g thr) Hal)
      as [g' Hg'].
    { unfold GsRender.low_opacity_mask3d, GsRender.get_opacity.
      rewrite !length_fmap. apply Hal. }
    exists g', (GsRender.low_opacity_mask3d act g thr).
    split; [done|]. by apply index_attributes_pruned.
  - intros mesh thr. unfold GsRender.remove_gaussians_with_point_mesh_distance.
    destruct (index_attributes_total g (GsRender.mesh_distance_mask3d g mesh thr) Hal)
      as [g' Hg'].
    { by rewrite mesh_distance_mask3d_eq, length_fmap. }
    exists g', (GsRender.mesh_distance_mask3d g mesh thr).
    split; [done|]. by apply index_attributes_pruned.
Qed.

Lemma pruning_keeps_attributes_aligned_witness :
  exists mask3d,
    GsRender.remove_gaussians_with_low_opacity Examples.affine_activation
      Examples.two_gaussians (11 # 20) = Ok Examples.first_gaussian /\
    Spec.pruned_by mask3d Examples.two_gaussians Examples.first_gaussian.
Proof.
  destruct (proj1 (proj2 (pruning_keeps_attributes_aligned Examples.two_gaussians
                            ltac:(repeat split)))
              Examples.affine_activation (11 # 20)) as (g' & mask3d & Hg' & Hp).
  assert (GsRender.remove_gaussians_with_low_opacity Examples.affine_activation
            Examples.two_gaussians (11 # 20) = Ok Examples.first_gaussian) as Hc.
  { vm_compute. reflexivity. }
  rewrite Hc in Hg'. injection Hg' as <-.
  exists mask3d. split; [exact Hc | exact Hp].
Defined.

(** C6: the code at the boundary.  A point whose opacity equals the threshold
    is removed: pruning a single gaussian with the threshold set to its own
    opacity returns the empty set. *)
Theorem opacity_at_threshold_is_removed
        (opacity_activation : Q -> Q) (sh : Z) (p : point)
        (dc fr sc ro : GsRender.row) (o : Q) :
  GsRender.remove_gaussians_with_low_opacity opacity_activation
    {| GsRender.active_sh_degree := sh;
       GsRender._xyz := [p];
       GsRender._features_dc := [dc];
       GsRender._features_rest := [fr];
       GsRender._scaling := [sc];
       GsRender._rotation := [ro];
       GsRender._opacity := [o] |}
    (opacity_activation o) =
  Ok {| GsRender.active_sh_degree := sh;
        GsRender._xyz := [];
        GsRender._features_dc := [];
        GsRender._features_rest := [];
        GsRender._scaling := [];
        GsRender._rotation := [];
        GsRender._opacity := [] |}.
Proof.
  unfold GsRender.remove_gaussians_with_low_opacity, GsRender.low_opacity_mask3d,
    GsRender.get_opacity, GsRender.index_attributes. simpl.
  assert (Qgtb (opacity_activation o) (opacity_activation o) = false) as ->.
  { apply negb_false_iff, Qle_bool_iff, Qle_refl. }
  reflexivity.
Qed.

(** What the code does: a point is kept exactly when its opacity is strictly
    above the threshold. *)
Lemma low_opacity_keeps_strictly_above
      (opacity_activation : Q -> Q) (g : GsRender.GaussianModel)
      (opacity_threshold : Q) (i : nat) (o : Q) :
  GsRender._opacity g !! i = Some o ->
  (GsRender.low_opacity_mask3d opacity_activation g opacity_threshold !! i = Some true
   <-> (opacity_threshold < opacity_activation o)%Q).
Proof.
  intros Ho. rewrite (low_opacity_mask3d_lookup _ _ _ _ _ Ho).
  rewrite <- Qgtb_lt. split; [by intros [= ->] | by intros ->].
Qed.

Lemma dist2_L2_squared_distance (p q : point) :
  (Lib.dist2_L2 p q == Spec.squared_distance p q)%Q.
Proof. destruct p as [[px py] pz], q as [[qx qy] qz]. simpl. ring. Qed.

(** C7: the code at the boundary.  A gaussian whose distance to the mesh is
    exactly [dist_threshold] is removed: for a single gaussian and a single
    mesh sample placed at the distance [dist_threshold] from it along the x
    axis, the pruning returns the empty set. *)
Theorem gaussian_at_threshold_distance_is_removed
        (sh : Z) (x y z : Q) (dc fr sc ro : GsRender.row) (o : Q)
        (dist_threshold : Q) :
  (Spec.squared_distance (x, y, z) ((x + dist_threshold)%Q, y, z) ==
   dist_threshold ^ 2)%Q /\
  GsRender.remove_gaussians_with_point_mesh_distance
    {| GsRender.active_sh_degree := sh;
       GsRender._xyz := [(x, y, z)];
       GsRender._features_dc := [dc];
       GsRender._features_rest := [fr];
       GsRender._scaling := [sc];
       GsRender._rotation := [ro];
       GsRender._opacity := [o] |}
    [((x + dist_threshold)%Q, y, z)] dist_threshold =
  Ok {| GsRender.active_sh_degree := sh;
        GsRender._xyz := [];
        GsRender._features_dc := [];
        GsRender._features_rest := [];
        GsRender._scaling := [];
        GsRender._rotation := [];
        GsRender._opacity := [] |}.
Proof.
  split; [simpl; ring|].
  unfold GsRender.remove_gaussians_with_point_mesh_distance.
  rewrite mesh_distance_mask3d_eq. cbn [GsRender._xyz fmap list_fmap existsb].
  assert (Lib.within_radius dist_threshold (x, y, z) ((x + dist_threshold)%Q, y, z)
          = false) as ->.
  { apply Qltb_ge. apply Qle_lteq. right. simpl. ring. }
  reflexivity.
Qed.

(** What the code does: a gaussian survives exactly when some mesh sample
    point passes the radius test of the ball query, that is, when its squared
    distance to the gaussian is below the square of [dist_threshold]; it is
    removed when the squared distance of every mesh sample point is at least
    that square. *)
Theorem mesh_distance_pruning_keeps_ball_hits
        (g : GsRender.GaussianModel) (mesh_sampled_points : list point)
        (dist_threshold : Q) :
  Spec.aligned g ->
  exists g',
    GsRender.remove_gaussians_with_point_mesh_distance g mesh_sampled_points
      dist_threshold = Ok g' /\
    let mask3d := GsRender.mesh_distance_mask3d g mesh_sampled_points dist_threshold in
    Spec.pruned_by mask3d g g' /\
    forall i p, GsRender._xyz g !! i = Some p ->
      (mask3d !! i = Some true <->
       exists q, q ∈ mesh_sampled_points /\
                 (Spec.squared_distance p q < dist_threshold ^ 2)%Q) /\
      (mask3d !! i = Some false <->
       forall q, q ∈ mesh_sampled_points ->
                 (dist_threshold ^ 2 <= Spec.squared_distance p q)%Q).
Proof.
  intros Hal. unfold GsRender.remove_gaussians_with_point_mesh_distance.
  destruct (index_attributes_total g
              (GsRender.mesh_distance_mask3d g mesh_sampled_points dist_threshold) Hal)
    as [g' Hg'].
  { by rewrite mesh_distance_mask3d_eq, length_fmap. }
  exists g'. split; [done|]. split; [by apply index_attributes_pruned|].
  intros i p Hp. rewrite mesh_distance_mask3d_eq, list_lookup_fmap, Hp. simpl.
  assert (forall q, Lib.within_radius dist_threshold p q = true <->
                    (Spec.squared_distance p q < dist_threshold ^ 2)%Q) as Hw.
  { intros q. rewrite within_radius_lt, dist2_L2_squared_distance.
    assert (dist_threshold ^ 2 == dist_threshold * dist_threshold)%Q as -> by ring.
    reflexivity. }
  split.
  - split.
    + intros [= H]. apply existsb_exists in H as (q & Hq & H).
      exists q. split; [by apply list_elem_of_In|]. by apply Hw.
    + intros (q & Hq & H). f_equal. apply existsb_exists.
      exists q. split; [by apply list_elem_of_In|]. by apply Hw.
  - split.
    + intros [= H] q Hq. apply Qnot_lt_le. intros Hlt.
      apply not_true_iff_false in H. apply H, existsb_exists.
      exists q. split; [by apply list_elem_of_In|]. by apply Hw.
    + intros H. f_equal. apply not_true_iff_false. intros Hex.
      apply existsb_exists in Hex as (q & Hq & Hw').
      apply Hw in Hw'. apply list_elem_of_In in Hq.
      apply (Qlt_not_le _ _ Hw'). by apply H.
Qed.

Lemma mesh_distance_pruning_keeps_ball_hits_witness :
  exists g',
    GsRender.remove_gaussians_with_point_mesh_distance Examples.two_gaussians
      Examples.mesh_samples 1 = Ok g' /\
    Spec.pruned_by
      (GsRender.mesh_distance_mask3d Examples.two_gaussians Examples.mesh_samples 1)
      Examples.two_gaussians g'.
Proof.
  destruct (mesh_distance_pruning_keeps_ball_hits Examples.two_gaussians
              Examples.mesh_samples 1) as (g' & Hg' & Hp & _).
  - repeat split.
  - exists g'. split; [exact Hg' | exact Hp].
Defined.

(** ** Ray directions *)

Lemma concat_lookup_uniform {A} (rows : list (list A)) (W v u : nat) :
  Forall (fun r => length r = W) rows -> (u < W)%nat ->
  concat rows !! (v * W + u)%nat = rows !! v ≫= (fun r => r !! u).
Proof.
  intros Hrows Hu. revert v. induction Hrows as [|r rows Hr _ IH]; intros v.
  - done.
  - destruct v as [|v]; simpl.
    + rewrite lookup_app_l by lia. done.
    + rewrite lookup_app_r by lia.
      replace (W + v * W + u - length r)%nat with (v * W + u)%nat by lia.
      apply IH.
Qed.

Lemma create_meshgrid_lookup (H W : Z) (v u : nat) :
  (Z.of_nat v < H)%Z -> (Z.of_nat u < W)%Z ->
  Lib.create_meshgrid H W !! v ≫= (fun r => r !! u) =
  Some (inject_Z (Z.of_nat u), inject_Z (Z.of_nat v)).
Proof.
  intros Hv Hu. unfold Lib.create_meshgrid.
  rewrite list_lookup_fmap, lookup_seq_lt by lia. simpl.
  by rewrite list_lookup_fmap, lookup_seq_lt by lia.
Qed.

Lemma create_meshgrid_rows (H W : Z) :
  Forall (fun r => length r = Z.to_nat W) (Lib.create_meshgrid H W).
Proof.
  unfold Lib.create_meshgrid. apply Forall_fmap, Forall_forall. intros v _.
  simpl. by rewrite length_fmap, length_seq.
Qed.

Lemma centre_direction_eq (K : GsRender.mat3) (v u : nat) :
  GsRender.direction K (1 # 2) (1 # 2) (inject_Z (Z.of_nat u), inject_Z (Z.of_nat v)) =
  Spec.centre_direction K v u.
Proof. by destruct K as [[[[fx ?] cx] [[? fy] cy]] ?]. Qed.

(** C5, as amended.  [get_ray_directions] leaves the caller's [K] unchanged
    when [anti_aliasing_factor <= 1]; when the factor exceeds 1 it rescales
    [K] in place ([K *= anti_aliasing_factor], then [K[2, 2] = 1]).  With
    [random=False] the result does not depend on the random samples, and the
    direction of each pixel (u, v) of the grid is
    ((u - cx + 0.5) / fx, (v - cy + 0.5) / fy, 1), with fx, fy, cx, cy read
    from [K] as the call leaves it. *)
Theorem get_ray_directions_effect
        (H W : Z) (K : GsRender.mat3) (random return_uv flatten : bool)
        (anti_aliasing_factor : Q) (rand_u rand_v : nat -> nat -> Q) :
  let out := GsRender.get_ray_directions H W K random return_uv flatten
               anti_aliasing_factor rand_u rand_v in
  ((anti_aliasing_factor <= 1)%Q -> snd out = K) /\
  ((1 < anti_aliasing_factor)%Q ->
   snd out = GsRender.set22 1 (GsRender.scale anti_aliasing_factor K)) /\
  (random = false ->
   (forall rand_u' rand_v',
       GsRender.get_ray_directions H W K random return_uv flatten
         anti_aliasing_factor rand_u' rand_v' = out) /\
   (forall v u : nat,
       (Z.of_nat v < Spec.render_size H anti_aliasing_factor)%Z ->
       (Z.of_nat u < Spec.render_size W anti_aliasing_factor)%Z ->
       Spec.pixel_at (Spec.render_size W anti_aliasing_factor)
         (GsRender.directions (fst out)) v u =
       Some (Spec.centre_direction (snd out) v u))).
Proof.
  unfold GsRender.get_ray_directions, Spec.render_size.
  destruct (Qgtb anti_aliasing_factor 1) eqn:Hf.
  - apply Qgtb_lt in Hf.
    set (K' := GsRender.set22 1 (GsRender.scale anti_aliasing_factor K)).
    set (H' := Py.int_of _). set (W' := Py.int_of _).
    split; [|split].
    + intros Hle. by apply Qlt_not_le in Hf.
    + by destruct flatten.
    + intros ->. split; [by destruct flatten|].
      intros v u Hv Hu. destruct flatten; simpl.
      * rewrite (concat_lookup_uniform _ (Z.to_nat W')); [| |lia].
        2:{ apply Forall_fmap. eapply Forall_impl; [apply create_meshgrid_rows|].
            intros r Hr. simpl. by rewrite length_fmap. }
        rewrite list_lookup_fmap.
        pose proof (create_meshgrid_lookup H' W' v u Hv Hu) as Hg.
        destruct (Lib.create_meshgrid H' W' !! v) as [r|]; [|done]. simpl in *.
        rewrite list_lookup_fmap, Hg. simpl. by rewrite centre_direction_eq.
      * rewrite list_lookup_fmap.
        pose proof (create_meshgrid_lookup H' W' v u Hv Hu) as Hg.
        destruct (Lib.create_meshgrid H' W' !! v) as [r|]; [|done]. simpl in *.
        rewrite list_lookup_fmap, Hg. simpl. by rewrite centre_direction_eq.
  - assert (anti_aliasing_factor <= 1)%Q as Hle.
    { apply Qle_bool_iff. unfold Qgtb in Hf. by apply negb_false_iff in Hf. }
    split; [|split].
    + by destruct flatten.
    + intros Hlt. by apply Qlt_not_le in Hlt.
    + intros ->. split; [by destruct flatten|].
      intros v u Hv Hu. destruct flatten; simpl.
      * rewrite (concat_lookup_uniform _ (Z.to_nat W)); [| |lia].
        2:{ apply Forall_fmap. eapply Forall_impl; [apply create_meshgrid_rows|].
            intros r Hr. simpl. by rewrite length_fmap. }
        rewrite list_lookup_fmap.
        pose proof (create_meshgrid_lookup H W v u Hv Hu) as Hg.
        destruct (Lib.create_meshgrid H W !! v) as [r|]; [|done]. simpl in *.
        rewrite list_lookup_fmap, Hg. simpl. by rewrite centre_direction_eq.
      * rewrite list_lookup_fmap.
        pose proof (create_meshgrid_lookup H W v u Hv Hu) as Hg.
        destruct (Lib.create_meshgrid H W !! v) as [r|]; [|done]. simpl in *.
        rewrite list_lookup_fmap, Hg. simpl. by rewrite centre_direction_eq.
Qed.

Lemma get_ray_directions_effect_witness :
  snd (GsRender.get_ray_directions 2 2 Examples.identity3 false false true 1
         (fun _ _ => 0%Q) (fun _ _ => 0%Q)) = Examples.identity3 /\
  Spec.pixel_at (Spec.render_size 2 1)
    (GsRender.directions
       (fst (GsRender.get_ray_directions 2 2 Examples.identity3 false false true 1
               (fun _ _ => 0%Q) (fun _ _ => 0%Q)))) 1 0 =
  Some (Spec.centre_direction
          (snd (GsRender.get_ray_directions 2 2 Examples.identity3 false false true 1
                  (fun _ _ => 0%Q) (fun _ _ => 0%Q))) 1 0).
Proof.
  pose proof (get_ray_directions_effect 2 2 Examples.identity3 false false true 1
                (fun _ _ => 0%Q) (fun _ _ => 0%Q)) as (Hk & _ & Hd).
  split.
  - apply Hk. discriminate.
  - apply (proj2 (Hd eq_refl) 1%nat 0%nat); reflexivity.
Defined.

(** C5, as stated, fails: with [anti_aliasing_factor = 2] the call changes the
    caller's intrinsics matrix. *)
Lemma get_ray_directions_rescales_K :
  ~ Spec.mat3_eq
      (snd (GsRender.get_ray_directions 1 1 Examples.identity3 false false true 2
              (fun _ _ => 0%Q) (fun _ _ => 0%Q)))
      Examples.identity3.
Proof. vm_compute. intros (H & _). discriminate. Qed.

(** * Further properties of the Chamfer evaluator *)

(** An empty frame range is reported as zero frames with a nan mean, whatever
    the tensors hold: nothing is indexed. *)
Theorem evaluate_prediction_empty_range
        (start_frame end_frame : Z) (V OP : list (list point))
        (OV OMV : list (list bool)) (num_original_points num_surface_points : Z) :
  (end_frame <= start_frame)%Z ->
  EvaluateChamfer.evaluate_prediction start_frame end_frame V OP OV OMV
    num_original_points num_surface_points =
  Ok {| EvaluateChamfer.frame_len := 0; EvaluateChamfer.chamfer_error := NaN |}.
Proof.
  intros Hle. unfold EvaluateChamfer.evaluate_prediction,
    EvaluateChamfer.chamfer_errors_loop, Py.range.
  replace (Z.to_nat (end_frame - start_frame)) with 0%nat by lia.
  reflexivity.
Qed.

Lemma evaluate_prediction_empty_range_witness :
  EvaluateChamfer.evaluate_prediction 1 1 [] [] [] [] 0 0 =
  Ok {| EvaluateChamfer.frame_len := 0; EvaluateChamfer.chamfer_error := NaN |}.
Proof. apply evaluate_prediction_empty_range. lia. Defined.

Lemma frame_chamfer_error_index_error V OP OV OMV nsp i e :
  EvaluateChamfer.frame_chamfer_error V OP OV OMV nsp i = Raise e -> e = IndexError.
Proof.
  unfold EvaluateChamfer.frame_chamfer_error.
  destruct (Py.index V i) eqn:H1; cbn [mbind result_bind];
    [|intros [= <-]; by apply index_raises in H1].
  destruct (Py.index OP i) eqn:H2; cbn [mbind result_bind];
    [|intros [= <-]; by apply index_raises in H2].
  destruct (Py.index OV i) eqn:H3; cbn [mbind result_bind];
    [|intros [= <-]; by apply index_raises in H3].
  destruct (Py.index OMV (i - 1)) eqn:H4; cbn [mbind result_bind];
    [|intros [= <-]; by apply index_raises in H4].
  destruct (Py.mask_index _ _) eqn:H5; cbn [mbind result_bind];
    [|intros [= <-]; by apply mask_index_raises in H5].
  discriminate.
Qed.

Lemma evaluate_prediction_index_error
      (start_frame end_frame : Z) (V OP : list (list point))
      (OV OMV : list (list bool)) (num_original_points num_surface_points : Z)
      (e : exn) :
  EvaluateChamfer.evaluate_prediction start_frame end_frame V OP OV OMV
    num_original_points num_surface_points = Raise e ->
  e = IndexError.
Proof.
  unfold EvaluateChamfer.evaluate_prediction, EvaluateChamfer.chamfer_errors_loop.
  destruct (Py.for_each _ _ _) eqn:H; simpl; [discriminate|].
  intros [= <-]. revert H. apply (for_each_raises (fun e => e = IndexError)).
  intros x s e'.
  destruct (EvaluateChamfer.frame_chamfer_error _ _ _ _ _ _) eqn:Hf; simpl;
    [discriminate|].
  intros [= <-]. by eapply frame_chamfer_error_index_error.
Qed.

Lemma index_in_bounds {A} (l : list A) (i : Z) :
  (exists a, Py.index l i = Ok a) <-> Notions.in_bounds l i.
Proof.
  unfold Py.index, Notions.in_bounds, Py.len. split.
  - intros [a Ha].
    destruct (_ && _) eqn:Hb; [|discriminate].
    apply andb_true_iff in Hb as [H0 H1]. apply Z.leb_le in H0. apply Z.ltb_lt in H1.
    destruct (Z.ltb_spec i 0); lia.
  - intros Hi. destruct (Z.ltb_spec i 0).
    + destruct (Z.leb_spec 0 (Z.of_nat (length l) + i)); [|lia].
      destruct (Z.ltb_spec (Z.of_nat (length l) + i) (Z.of_nat (length l))); [|lia].
      simpl. destruct (lookup_lt_is_Some_2 l (Z.to_nat (Z.of_nat (length l) + i)))
        as [a ->]; [lia|eauto].
    + destruct (Z.leb_spec 0 i); [|lia].
      destruct (Z.ltb_spec i (Z.of_nat (length l))); [|lia].
      simpl. destruct (lookup_lt_is_Some_2 l (Z.to_nat i)) as [a ->]; [lia|eauto].
Qed.

Lemma index_out_of_bounds {A} (l : list A) (i : Z) (e : exn) :
  Py.index l i = Raise e -> ~ Notions.in_bounds l i.
Proof.
  intros H Hin. apply index_in_bounds in Hin as [a Ha]. congruence.
Qed.

Lemma index_elem {A} (l : list A) (i : Z) (a : A) :
  Py.index l i = Ok a -> a ∈ l.
Proof.
  unfold Py.index. destruct (_ && _); [|discriminate].
  destruct (l !! _) eqn:H; [|discriminate]. intros [= <-].
  by eapply list_elem_of_lookup_2.
Qed.

(** The rows of a tensor have the length that its shape gives. *)
Lemma is_tensor_row {A} (t : list (list A)) (r : list A) :
  Notions.is_tensor t = true -> r ∈ t -> Py.len r = EvaluateChamfer.shape1 t.
Proof.
  unfold Notions.is_tensor. intros Ht Hr.
  rewrite forallb_forall in Ht. apply Z.eqb_eq, Ht. by apply list_elem_of_In.
Qed.

Lemma for_each_append_raises {X E} (f : X -> result E) (xs : list X) (acc : list E)
      (e : exn) :
  Py.for_each xs (fun x acc => v ← f x; mret (acc ++ [v])) acc = Raise e ->
  exists x, x ∈ xs /\ f x = Raise e.
Proof.
  revert acc. induction xs as [|x xs IH]; intros acc; simpl; [discriminate|].
  destruct (f x) as [v|e'] eqn:Hx; simpl.
  - intros H. apply IH in H as (x' & Hin & Hx'). exists x'. split; [by right|done].
  - intros [= <-]. exists x. split; [left|done].
Qed.

(** On tensors the only exception [evaluate_prediction] raises is
    IndexError, and it raises it only when some frame of the range is missing
    from one of the tensors or when the visibility flags of a frame are not
    as many as its object points: the call of [chamfer_distance] cannot
    fail. *)
Theorem evaluate_prediction_raises_index_error_only
        (start_frame end_frame : Z) (V OP : list (list point))
        (OV OMV : list (list bool)) (num_original_points num_surface_points : Z)
        (e : exn) :
  Notions.is_tensor V = true -> Notions.is_tensor OP = true ->
  Notions.is_tensor OV = true -> Notions.is_tensor OMV = true ->
  EvaluateChamfer.evaluate_prediction start_frame end_frame V OP OV OMV
    num_original_points num_surface_points = Raise e ->
  e = IndexError /\
  exists frame_idx, (start_frame <= frame_idx < end_frame)%Z /\
    (~ Notions.in_bounds V frame_idx \/ ~ Notions.in_bounds OP frame_idx \/
     ~ Notions.in_bounds OV frame_idx \/ ~ Notions.in_bounds OMV (frame_idx - 1) \/
     EvaluateChamfer.shape1 OP <> EvaluateChamfer.shape1 OV).
Proof.
  intros _ HOP HOV _ H. split; [by eapply evaluate_prediction_index_error|].
  unfold EvaluateChamfer.evaluate_prediction, EvaluateChamfer.chamfer_errors_loop in H.
  destruct (Py.for_each _ _ _) as [errs|e'] eqn:Hloop; [discriminate|].
  apply for_each_append_raises in Hloop as (i & Hi & Hf).
  exists i. split; [by apply range_elem|].
  unfold EvaluateChamfer.frame_chamfer_error in Hf.
  destruct (Py.index V i) as [x|] eqn:H1; cbn [mbind result_bind] in Hf;
    [|left; by eapply index_out_of_bounds].
  destruct (Py.index OP i) as [pts|] eqn:H2; cbn [mbind result_bind] in Hf;
    [|right; left; by eapply index_out_of_bounds].
  destruct (Py.index OV i) as [vis|] eqn:H3; cbn [mbind result_bind] in Hf;
    [|do 2 right; left; by eapply index_out_of_bounds].
  destruct (Py.index OMV (i - 1)) as [mv|] eqn:H4; cbn [mbind result_bind] in Hf;
    [|do 3 right; left; by eapply index_out_of_bounds].
  do 4 right. intros Hshape.
  apply index_elem in H2, H3.
  pose proof (is_tensor_row OP pts HOP H2) as Hp.
  pose proof (is_tensor_row OV vis HOV H3) as Hv.
  unfold Py.mask_index in Hf.
  destruct (Nat.eqb_spec (length pts) (length vis)) as [_|Hne].
  - cbn [mbind result_bind] in Hf. discriminate.
  - apply Hne. unfold Py.len in Hp, Hv. lia.
Qed.

Lemma evaluate_prediction_raises_index_error_only_witness :
  exists e,
    EvaluateChamfer.evaluate_prediction 1 2 Examples.two_frames_vertices
      [[Examples.origin; Examples.far]; [Examples.origin; Examples.far]]
      Examples.two_frames_visibilities Examples.one_motion 2 2 = Raise e /\
    e = IndexError /\
    exists frame_idx, (1 <= frame_idx < 2)%Z /\
      (~ Notions.in_bounds Examples.two_frames_vertices frame_idx \/
       ~ Notions.in_bounds [[Examples.origin; Examples.far];
                            [Examples.origin; Examples.far]] frame_idx \/
       ~ Notions.in_bounds Examples.two_frames_visibilities frame_idx \/
       ~ Notions.in_bounds Examples.one_motion (frame_idx - 1) \/
       EvaluateChamfer.shape1 [[Examples.origin; Examples.far];
                               [Examples.origin; Examples.far]] <>
       EvaluateChamfer.shape1 Examples.two_frames_visibilities).
Proof.
  exists IndexError. split; [vm_compute; reflexivity|].
  apply (evaluate_prediction_raises_index_error_only 1 2
           Examples.two_frames_vertices
           [[Examples.origin; Examples.far]; [Examples.origin; Examples.far]]
           Examples.two_frames_visibilities Examples.one_motion 2 2 IndexError);
    vm_compute; reflexivity.
Defined.

Lemma for_each_append_fails {X E} (f : X -> result E) (xs : list X) (acc : list E)
      (x : X) (e : exn) :
  x ∈ xs -> f x = Raise e ->
  exists e', Py.for_each xs (fun x acc => v ← f x; mret (acc ++ [v])) acc = Raise e'.
Proof.
  intros Hin Hx. revert acc.
  induction xs as [|y xs IH]; intros acc; [by apply elem_of_nil in Hin|].
  simpl. apply elem_of_cons in Hin as [<-|Hin].
  - rewrite Hx. simpl. eauto.
  - destruct (f y); simpl; [by apply IH | eauto].
Qed.

(** A frame range that reaches beyond the predicted frames makes the call
    raise IndexError: no partial mean is returned. *)
Theorem evaluate_prediction_beyond_last_frame
        (start_frame end_frame : Z) (V OP : list (list point))
        (OV OMV : list (list bool)) (num_original_points num_surface_points : Z) :
  (start_frame < end_frame)%Z ->
  (0 <= start_frame)%Z ->
  (Py.len V < end_frame)%Z ->
  EvaluateChamfer.evaluate_prediction start_frame end_frame V OP OV OMV
    num_original_points num_surface_points = Raise IndexError.
Proof.
  intros Hrange Hstart Hend.
  set (i := Z.max start_frame (Py.len V)).
  assert (exists e, EvaluateChamfer.frame_chamfer_error V OP OV OMV
                      num_surface_points i = Raise e) as [e He].
  { unfold EvaluateChamfer.frame_chamfer_error, Py.index.
    destruct (Z.ltb_spec i 0); [lia|].
    destruct (Z.leb_spec 0 i); [|lia].
    destruct (Z.ltb_spec i (Py.len V)); [lia|]. simpl. eauto. }
  destruct (EvaluateChamfer.evaluate_prediction start_frame end_frame V OP OV OMV
              num_original_points num_surface_points) as [r|e'] eqn:Hr.
  - exfalso. unfold EvaluateChamfer.evaluate_prediction,
      EvaluateChamfer.chamfer_errors_loop in Hr.
    destruct (for_each_append_fails
                (EvaluateChamfer.frame_chamfer_error V OP OV OMV num_surface_points)
                (Py.range start_frame end_frame) [] i e) as [e' He']; [|done|].
    { apply range_elem. lia. }
    by rewrite He' in Hr.
  - f_equal. by eapply evaluate_prediction_index_error.
Qed.

Lemma evaluate_prediction_beyond_last_frame_witness :
  EvaluateChamfer.evaluate_prediction 1 4 Examples.two_frames_vertices
    Examples.two_frames_points Examples.two_frames_visibilities
    Examples.one_motion 1 2 = Raise IndexError.
Proof.
  apply evaluate_prediction_beyond_last_frame.
  - lia.
  - lia.
  - vm_compute. reflexivity.
Defined.

(** ** What the frame error depends on *)

Lemma index_Forall2 {A B} (P : A -> B -> Prop) (l : list A) (l' : list B) (i : Z) :
  Forall2 P l l' ->
  match Py.index l i, Py.index l' i with
  | Ok a, Ok b => P a b
  | Raise e, Raise e' => e = e'
  | _, _ => False
  end.
Proof.
  intros HF. pose proof (Forall2_length _ _ _ HF) as Hlen.
  unfold Py.index, Py.len. rewrite <- Hlen.
  set (j := if (i <? 0)%Z then _ else i).
  destruct (_ && _) eqn:Hb; [|done].
  destruct (l !! Z.to_nat j) as [a|] eqn:Ha.
  - destruct (Forall2_lookup_l _ _ _ _ _ HF Ha) as (b & -> & Hab). done.
  - apply lookup_ge_None in Ha. rewrite Hlen in Ha.
    apply lookup_ge_None in Ha. by rewrite Ha.
Qed.

(** Only the first [num_surface_points] predicted vertices of a frame enter
    the evaluation: predicted tensors that agree on them get the same
    result. *)
Theorem only_surface_vertices_matter
        (start_frame end_frame : Z) (V V' OP : list (list point))
        (OV OMV : list (list bool)) (num_original_points num_surface_points : Z) :
  Notions.is_tensor V = true -> Notions.is_tensor V' = true ->
  (0 <= num_surface_points)%Z ->
  Forall2 (fun x x' => take (Z.to_nat num_surface_points) x =
                       take (Z.to_nat num_surface_points) x') V V' ->
  EvaluateChamfer.evaluate_prediction start_frame end_frame V OP OV OMV
    num_original_points num_surface_points =
  EvaluateChamfer.evaluate_prediction start_frame end_frame V' OP OV OMV
    num_original_points num_surface_points.
Proof.
  intros _ _ Hn HF. unfold EvaluateChamfer.evaluate_prediction,
    EvaluateChamfer.chamfer_errors_loop.
  f_equal. apply for_each_ext. intros i acc _. f_equal.
  unfold EvaluateChamfer.frame_chamfer_error.
  pose proof (index_Forall2 _ V V' i HF) as Hi.
  destruct (Py.index V i) as [x|e], (Py.index V' i) as [x'|e']; try done; simpl.
  - unfold Py.slice_to. destruct (Z.ltb_spec num_surface_points 0); [lia|].
    by rewrite Hi.
  - by subst.
Qed.

Lemma only_surface_vertices_matter_witness :
  EvaluateChamfer.evaluate_prediction 0 2
    [[Examples.origin; Examples.far; Examples.far];
     [Examples.unit_x; Examples.far; Examples.origin]]
    Examples.two_frames_points Examples.two_frames_visibilities
    Examples.one_motion 1 1 =
  EvaluateChamfer.evaluate_prediction 0 2
    [[Examples.origin; Examples.unit_x];
     [Examples.unit_x; Examples.origin]]
    Examples.two_frames_points Examples.two_frames_visibilities
    Examples.one_motion 1 1.
Proof.
  apply only_surface_vertices_matter.
  - vm_compute. reflexivity.
  - vm_compute. reflexivity.
  - lia.
  - repeat constructor.
Defined.

Lemma index_Forall3 {A B C} (P : A -> B -> C -> Prop)
      (l : list A) (l' : list B) (l'' : list C) (i : Z) :
  Forall3 P l l' l'' ->
  match Py.index l i, Py.index l' i, Py.index l'' i with
  | Ok a, Ok b, Ok c => P a b c
  | Raise e, Raise e', Raise e'' => e = e' /\ e = e''
  | _, _, _ => False
  end.
Proof.
  intros HF. pose proof (Forall3_length_lm _ _ _ _ HF) as Hlen.
  pose proof (Forall3_length_lr _ _ _ _ HF) as Hlen'.
  unfold Py.index, Py.len. rewrite <- Hlen, <- Hlen'.
  set (j := if (i <? 0)%Z then _ else i).
  destruct (_ && _) eqn:Hb; [|done].
  destruct (l !! Z.to_nat j) as [a|] eqn:Ha.
  - destruct (Forall3_lookup_l _ _ _ _ _ _ HF Ha) as (b & c & -> & -> & Habc). done.
  - apply lookup_ge_None in Ha. pose proof Ha as Ha'.
    rewrite Hlen in Ha. rewrite Hlen' in Ha'.
    apply lookup_ge_None in Ha, Ha'. by rewrite Ha, Ha'.
Qed.

(** Only the object points marked visible enter the evaluation: ground truths
    of the same shape that agree, frame by frame, on the points marked visible
    get the same result. *)
Theorem only_visible_points_matter
        (start_frame end_frame : Z) (V OP OP' : list (list point))
        (OV OMV : list (list bool)) (num_original_points num_surface_points : Z) :
  Forall3 (fun pts pts' vis =>
             length pts = length pts' /\ Py.select pts vis = Py.select pts' vis)
          OP OP' OV ->
  EvaluateChamfer.evaluate_prediction start_frame end_frame V OP OV OMV
    num_original_points num_surface_points =
  EvaluateChamfer.evaluate_prediction start_frame end_frame V OP' OV OMV
    num_original_points num_surface_points.
Proof.
  intros HF. unfold EvaluateChamfer.evaluate_prediction,
    EvaluateChamfer.chamfer_errors_loop.
  f_equal. apply for_each_ext. intros i acc _. f_equal.
  unfold EvaluateChamfer.frame_chamfer_error.
  destruct (Py.index V i) as [x|e]; [|done]. simpl.
  pose proof (index_Forall3 _ OP OP' OV i HF) as Hi.
  destruct (Py.index OP i) as [pts|e], (Py.index OP' i) as [pts'|e'],
    (Py.index OV i) as [vis|e'']; try done; simpl.
  - destruct Hi as [Hlen Hsel].
    destruct (Py.index OMV (i - 1)); [|done]. simpl.
    unfold Py.mask_index. rewrite <- Hlen, Hsel. done.
  - by destruct Hi as [-> _].
Qed.

Lemma only_visible_points_matter_witness :
  EvaluateChamfer.evaluate_prediction 0 2 Examples.two_frames_vertices
    [[Examples.origin; Examples.far]; [Examples.origin; Examples.far]]
    [[true; false]; [true; false]] Examples.one_motion 2 2 =
  EvaluateChamfer.evaluate_prediction 0 2 Examples.two_frames_vertices
    [[Examples.origin; Examples.unit_x]; [Examples.origin; Examples.origin]]
    [[true; false]; [true; false]] Examples.one_motion 2 2.
Proof.
  apply only_visible_points_matter.
  repeat constructor.
Defined.

(** ** Bounds on the reported error *)

Lemma dist_L1_nonneg (p q : point) : (0 <= Lib.dist_L1 p q)%Q.
Proof.
  destruct p as [[px py] pz], q as [[qx qy] qz]. simpl.
  pose proof (Qabs_nonneg (px - qx)). pose proof (Qabs_nonneg (py - qy)).
  pose proof (Qabs_nonneg (pz - qz)).
  apply Qle_trans with (0 + 0 + 0)%Q; [discriminate|].
  repeat apply Qplus_le_compat; done.
Qed.

Lemma dist_L1_self (p : point) : (Lib.dist_L1 p p == 0)%Q.
Proof.
  destruct p as [[px py] pz]. unfold Lib.dist_L1.
  assert (forall x : Q, Qabs (x - x) == 0)%Q as H.
  { intros x. assert (x - x == 0)%Q as -> by ring. reflexivity. }
  rewrite !H. reflexivity.
Qed.

Lemma Qsum_nonneg (l : list Q) : Forall (fun x => 0 <= x)%Q l -> (0 <= Qsum l)%Q.
Proof.
  induction 1 as [|x l Hx _ IH]; simpl; [discriminate|].
  apply Qle_trans with (0 + 0)%Q; [discriminate|]. by apply Qplus_le_compat.
Qed.

Lemma Qsum_zero (l : list Q) : Forall (fun x => x == 0)%Q l -> (Qsum l == 0)%Q.
Proof.
  induction 1 as [|x l Hx _ IH]; simpl; [reflexivity|]. rewrite Hx, IH. reflexivity.
Qed.

Lemma Qdiv_nonneg (a : Q) (n : Z) : (0 <= a)%Q -> (0 < n)%Z -> (0 <= a / inject_Z n)%Q.
Proof.
  intros Ha Hn. apply Qle_shift_div_l.
  - change 0%Q with (inject_Z 0). by rewrite <- Zlt_Qlt.
  - by rewrite Qmult_0_l.
Qed.

(** The nearest-neighbour distance that [knn_points] returns for one point:
    non-negative, and at most the distance to any point of the cloud. *)
Lemma knn_nearest_bounds (p : point) (cloud : list point) :
  let m := fst (default (0%Q, (-1)%Z) (Lib.knn_scan (Lib.dist 1 p) cloud 0 None)) in
  (0 <= m)%Q /\ forall q, q ∈ cloud -> (m <= Lib.dist_L1 p q)%Q.
Proof.
  destruct cloud as [|q0 cloud]; simpl.
  - split; [discriminate|]. intros q Hq. by apply elem_of_nil in Hq.
  - destruct (knn_scan_min (Lib.dist_L1 p) cloud (0 + 1) (Lib.dist_L1 p q0) 0)
      as (m & i & Hscan & Hm).
    change (Lib.dist 1 p) with (Lib.dist_L1 p). rewrite Hscan. simpl.
    split.
    + rewrite Hm.
      destruct (foldr_min_attained (Lib.dist_L1 p) cloud (Lib.dist_L1 p q0))
        as [->|(q & _ & ->)]; apply dist_L1_nonneg.
    + intros q Hq. rewrite Hm. apply elem_of_cons in Hq as [->|Hq].
      * apply foldr_min_le_base.
      * by apply foldr_min_least.
Qed.

Lemma chamfer_single_direction_nonneg (x y : list point) :
  (0 <= Lib.chamfer_single_direction 1 x y)%Q.
Proof.
  unfold Lib.chamfer_single_direction. apply Qdiv_nonneg; [|lia].
  apply Qsum_nonneg. unfold Lib.knn_points. rewrite <- list_fmap_compose.
  apply Forall_fmap, Forall_forall. intros p _. apply knn_nearest_bounds.
Qed.

Lemma frame_chamfer_error_nonneg V OP OV OMV nsp i e :
  EvaluateChamfer.frame_chamfer_error V OP OV OMV nsp i = Ok e -> (0 <= e)%Q.
Proof.
  unfold EvaluateChamfer.frame_chamfer_error. intros H.
  apply bind_Ok in H as (x & _ & H). apply bind_Ok in H as (pts & _ & H).
  apply bind_Ok in H as (vis & _ & H). apply bind_Ok in H as (mv & _ & H).
  apply bind_Ok in H as (sel & _ & H). apply bind_Ok in H as (r & Hr & H).
  injection H as <-. unfold Lib.chamfer_distance in Hr. simpl in Hr.
  injection Hr as <-. simpl.
  apply Qdiv_nonneg; [|unfold Py.len; simpl; lia].
  apply Qle_trans with (0 + 0)%Q; [discriminate|].
  apply Qplus_le_compat; [apply chamfer_single_direction_nonneg | discriminate].
Qed.

(** The reported mean error is never negative. *)
Theorem chamfer_error_nonnegative
        (start_frame end_frame : Z) (V OP : list (list point))
        (OV OMV : list (list bool)) (num_original_points num_surface_points : Z)
        (r : EvaluateChamfer.results) (m : Q) :
  EvaluateChamfer.evaluate_prediction start_frame end_frame V OP OV OMV
    num_original_points num_surface_points = Ok r ->
  EvaluateChamfer.chamfer_error r = Finite m ->
  (0 <= m)%Q.
Proof.
  unfold EvaluateChamfer.evaluate_prediction, EvaluateChamfer.chamfer_errors_loop.
  intros H Hm. apply bind_Ok in H as (errs & Hloop & H). injection H as <-.
  apply for_each_append in Hloop as (es & -> & HF). simpl in Hm.
  destruct es as [|e es]; [discriminate|]. injection Hm as <-.
  apply Qdiv_nonneg; [|unfold Py.len; simpl; lia].
  apply (Qsum_nonneg (e :: es)). apply Forall_forall. intros e' He'.
  apply list_elem_of_lookup in He' as [k Hk].
  destruct (Forall2_lookup_r _ _ _ _ _ HF Hk) as (i & _ & Hi).
  by eapply frame_chamfer_error_nonneg.
Qed.

Lemma chamfer_error_nonnegative_witness :
  exists r m,
    EvaluateChamfer.evaluate_prediction 2 3
      (EvaluateChamfer.vertices Examples.case_three)
      (EvaluateChamfer.object_points Examples.case_three)
      (EvaluateChamfer.object_visibilities Examples.case_three)
      (EvaluateChamfer.object_motions_valid Examples.case_three) 1 1 = Ok r /\
    EvaluateChamfer.chamfer_error r = Finite m /\ (0 <= m)%Q.
Proof.
  eexists _, _. split; [vm_compute; reflexivity|]. split; [reflexivity|].
  eapply (chamfer_error_nonnegative 2 3
            (EvaluateChamfer.vertices Examples.case_three)
            (EvaluateChamfer.object_points Examples.case_three)
            (EvaluateChamfer.object_visibilities Examples.case_three)
            (EvaluateChamfer.object_motions_valid Examples.case_three) 1 1).
  - vm_compute. reflexivity.
  - reflexivity.
Defined.

(** A frame whose visible ground-truth points all occur among its predicted
    surface points has error 0. *)
Theorem frame_error_zero_when_covered
        (V OP : list (list point)) (OV OMV : list (list bool))
        (num_surface_points frame_idx : Z) (x pts : list point) (vis : list bool)
        (e : Q) :
  Py.index V frame_idx = Ok x ->
  Py.index OP frame_idx = Ok pts ->
  Py.index OV frame_idx = Ok vis ->
  (forall g, g ∈ Py.select pts vis -> g ∈ Py.slice_to x num_surface_points) ->
  EvaluateChamfer.frame_chamfer_error V OP OV OMV num_surface_points frame_idx = Ok e ->
  (e == 0)%Q.
Proof.
  intros Hx Hpts Hvis Hcov. unfold EvaluateChamfer.frame_chamfer_error.
  rewrite Hx, Hpts, Hvis. cbn [mbind result_bind]. intros H.
  apply bind_Ok in H as (mv & _ & H).
  apply bind_Ok in H as (sel & Hsel & H). apply bind_Ok in H as (r & Hr & H).
  injection H as <-. apply mask_index_Ok in Hsel as [_ ->].
  unfold Lib.chamfer_distance in Hr. simpl in Hr. injection Hr as <-. simpl.
  assert (Lib.chamfer_single_direction 1 (Py.select pts vis)
            (Py.slice_to x num_surface_points) == 0)%Q as ->.
  { unfold Lib.chamfer_single_direction.
    rewrite Qsum_zero; [unfold Qdiv; ring|].
    unfold Lib.knn_points. rewrite <- list_fmap_compose.
    apply Forall_fmap, Forall_forall. intros g Hg. simpl.
    destruct (knn_nearest_bounds g (Py.slice_to x num_surface_points)) as [Hlo Hhi].
    apply Qle_antisym; [|exact Hlo].
    eapply Qle_trans; [apply (Hhi g), Hcov, Hg|].
    apply Qle_lteq. right. apply dist_L1_self. }
  unfold Py.len. simpl. reflexivity.
Qed.

Lemma frame_error_zero_when_covered_witness :
  exists e,
    EvaluateChamfer.frame_chamfer_error Examples.two_frames_vertices
      Examples.two_frames_points Examples.two_frames_visibilities
      Examples.one_motion 2 1 = Ok e /\ (e == 0)%Q.
Proof.
  eexists. split; [vm_compute; reflexivity|].
  apply (frame_error_zero_when_covered Examples.two_frames_vertices
           Examples.two_frames_points Examples.two_frames_visibilities
           Examples.one_motion 2 1 [Examples.origin; Examples.far]
           [Examples.origin] [true]).
  - reflexivity.
  - reflexivity.
  - reflexivity.
  - intros g Hg. apply list_elem_of_singleton in Hg as ->. left.
  - vm_compute. reflexivity.
Defined.

(** ** The two splits and the rows of the run *)

Lemma evaluate_prediction_frame_len
      (start_frame end_frame : Z) (V OP : list (list point))
      (OV OMV : list (list bool)) (nop nsp : Z) (r : EvaluateChamfer.results) :
  EvaluateChamfer.evaluate_prediction start_frame end_frame V OP OV OMV nop nsp = Ok r ->
  EvaluateChamfer.frame_len r = Z.max 0 (end_frame - start_frame).
Proof.
  unfold EvaluateChamfer.evaluate_prediction, EvaluateChamfer.chamfer_errors_loop.
  intros H. apply bind_Ok in H as (errs & Hloop & H). injection H as <-.
  apply for_each_append in Hloop as (es & -> & HF). simpl.
  apply Forall2_length in HF. rewrite range_length in HF. unfold Py.len. lia.
Qed.

(** The train report counts the frames 1 .. train_frame - 1 and the test
    report the frames train_frame .. test_frame - 1: for
    [1 <= train_frame <= test_frame] the two counts add up to the number of
    predicted frames minus one, every frame but frame 0 being counted once. *)
Theorem train_and_test_counts_partition
        (c : EvaluateChamfer.case_data) (row : EvaluateChamfer.csv_row)
        (train_frame test_frame : Z) :
  Py.index (EvaluateChamfer.split_train c) 1 = Ok train_frame ->
  Py.index (EvaluateChamfer.split_test c) 1 = Ok test_frame ->
  EvaluateChamfer.process_case c = Ok row ->
  EvaluateChamfer.train_frame_num row = Z.max 0 (train_frame - 1) /\
  EvaluateChamfer.test_frame_num row = Z.max 0 (test_frame - train_frame) /\
  ((1 <= train_frame <= test_frame)%Z ->
   (EvaluateChamfer.train_frame_num row + EvaluateChamfer.test_frame_num row =
    Py.len (EvaluateChamfer.vertices c) - 1)%Z).
Proof.
  intros Htrain Htest. unfold EvaluateChamfer.process_case.
  rewrite Htrain, Htest. cbn [mbind result_bind]. intros H.
  apply bind_Ok in H as ([] & Hassert & H).
  destruct (Z.eqb_spec test_frame (Py.len (EvaluateChamfer.vertices c)));
    [|discriminate].
  apply bind_Ok in H as (r1 & H1 & H). apply bind_Ok in H as (r2 & H2 & H).
  injection H as <-. simpl.
  apply evaluate_prediction_frame_len in H1, H2. rewrite H1, H2.
  split; [done|]. split; [done|]. lia.
Qed.

Lemma train_and_test_counts_partition_witness :
  exists row,
    EvaluateChamfer.process_case Examples.case_three = Ok row /\
    (EvaluateChamfer.train_frame_num row + EvaluateChamfer.test_frame_num row =
     Py.len (EvaluateChamfer.vertices Examples.case_three) - 1)%Z.
Proof.
  eexists. split; [vm_compute; reflexivity|].
  eapply (train_and_test_counts_partition Examples.case_three _ 2 3).
  - reflexivity.
  - reflexivity.
  - vm_compute. reflexivity.
  - lia.
Defined.

Lemma main_loop_rows (cases : list EvaluateChamfer.case_data)
      (written : list EvaluateChamfer.csv_row) :
  exists processed rows,
    fst (EvaluateChamfer.main_loop cases written) = written ++ rows /\
    Forall2 (fun c row => EvaluateChamfer.process_case c = Ok row) processed rows /\
    match snd (EvaluateChamfer.main_loop cases written) with
    | None => cases = processed
    | Some e => exists c rest, cases = processed ++ c :: rest /\
                               EvaluateChamfer.process_case c = Raise e
    end.
Proof.
  revert written. induction cases as [|c cases IH]; intros written; simpl.
  - exists [], []. rewrite app_nil_r. repeat split. constructor.
  - destruct (EvaluateChamfer.process_case c) as [row|e] eqn:Hc.
    + destruct (IH (written ++ [row])) as (processed & rows & Hrows & HF & Hend).
      exists (c :: processed), (row :: rows). split; [|split].
      * by rewrite Hrows, <- app_assoc.
      * by constructor.
      * destruct (snd _) as [e|]; [|by f_equal].
        destruct Hend as (c' & rest & -> & Hc'). by exists c', rest.
    + exists [], []. rewrite app_nil_r. simpl. repeat split; [constructor|].
      by exists c, cases.
Qed.

(** The run writes one row per case, in the order of the cases, for the cases
    that precede the first one whose processing raises; it stops at that
    case with its exception, and without one it has a row for every case. *)
Theorem main_writes_rows_in_order (cases : list EvaluateChamfer.case_data) :
  exists processed,
    Forall2 (fun c row => EvaluateChamfer.process_case c = Ok row)
            processed (fst (EvaluateChamfer.main cases)) /\
    match snd (EvaluateChamfer.main cases) with
    | None => cases = processed
    | Some e => exists c rest, cases = processed ++ c :: rest /\
                               EvaluateChamfer.process_case c = Raise e
    end.
Proof.
  unfold EvaluateChamfer.main.
  destruct (main_loop_rows cases []) as (processed & rows & Hrows & HF & Hend).
  exists processed. simpl in Hrows. rewrite Hrows. by split.
Qed.

(** * Further properties of the pruning functions *)

Lemma select_all_true {A} (l : list A) (m : list bool) :
  length l = length m -> Forall (fun b => b = true) m -> Py.select l m = l.
Proof.
  revert m. induction l as [|x l IH]; intros [|b m]; simpl; try done.
  intros [= Hlen] HF. apply Forall_cons in HF as [-> HF]. f_equal. by apply IH.
Qed.

Lemma select_fmap {A B} (f : A -> B) (l : list A) (m : list bool) :
  Py.select (f <$> l) m = f <$> Py.select l m.
Proof.
  revert m. induction l as [|x l IH]; intros [|[] m]; simpl; try done.
  by rewrite IH.
Qed.

(** Indexing by a mask and then by a second mask restricted to the kept
    positions is indexing by the conjunction of the masks. *)
Lemma select_select {A} (l : list A) (m1 m2 : list bool) :
  Py.select (Py.select l m1) (Py.select m2 m1) = Py.select l (zip_with andb m1 m2).
Proof.
  revert m1 m2. induction l as [|x l IH]; intros [|b1 m1] [|b2 m2]; simpl; try done.
  - by destruct b1; simpl; destruct (Py.select l m1).
  - destruct b1; simpl; [destruct b2; simpl|]; by rewrite IH.
Qed.

Lemma select_lookup_inv {A} (l : list A) (m : list bool) (x : A) :
  x ∈ Py.select l m -> exists i, l !! i = Some x /\ m !! i = Some true.
Proof.
  revert m. induction l as [|y l IH]; intros [|b m]; simpl;
    try (intros H; by apply elem_of_nil in H).
  destruct b.
  - intros H. apply elem_of_cons in H as [->|H]; [by exists 0%nat|].
    destruct (IH m H) as (i & ? & ?). by exists (S i).
  - intros H. destruct (IH m H) as (i & ? & ?). by exists (S i).
Qed.

Lemma index_attributes_Ok (g g' : GsRender.GaussianModel) (mask3d : list bool) :
  GsRender.index_attributes g mask3d = Ok g' <->
  (length (GsRender._xyz g) = length mask3d /\
   length (GsRender._features_dc g) = length mask3d /\
   length (GsRender._features_rest g) = length mask3d /\
   length (GsRender._scaling g) = length mask3d /\
   length (GsRender._rotation g) = length mask3d /\
   length (GsRender._opacity g) = length mask3d) /\
  g' = Notions.select_attributes g mask3d.
Proof.
  unfold GsRender.index_attributes, Py.mask_index. split.
  - intros H.
    destruct (Nat.eqb_spec (length (GsRender._xyz g)) (length mask3d)); [|done].
    destruct (Nat.eqb_spec (length (GsRender._features_dc g)) (length mask3d)); [|done].
    destruct (Nat.eqb_spec (length (GsRender._features_rest g)) (length mask3d)); [|done].
    destruct (Nat.eqb_spec (length (GsRender._scaling g)) (length mask3d)); [|done].
    destruct (Nat.eqb_spec (length (GsRender._rotation g)) (length mask3d)); [|done].
    destruct (Nat.eqb_spec (length (GsRender._opacity g)) (length mask3d)); [|done].
    simpl in H. by injection H as <-.
  - intros [(-> & -> & -> & -> & -> & ->) ->]. by rewrite Nat.eqb_refl.
Qed.

Lemma index_attributes_aligned_Ok (g : GsRender.GaussianModel) (mask3d : list bool) :
  Spec.aligned g -> length mask3d = length (GsRender._xyz g) ->
  GsRender.index_attributes g mask3d = Ok (Notions.select_attributes g mask3d).
Proof.
  intros (H1 & H2 & H3 & H4 & H5) Hm. apply index_attributes_Ok.
  split; [|done]. rewrite H1, H2, H3, H4, H5, Hm. done.
Qed.

Lemma index_attributes_raises_index_error (g : GsRender.GaussianModel)
      (mask3d : list bool) (e : exn) :
  GsRender.index_attributes g mask3d = Raise e -> e = IndexError.
Proof.
  unfold GsRender.index_attributes, Py.mask_index.
  repeat match goal with
         | |- context [(?a =? ?b)%nat] =>
             destruct (a =? b)%nat; cbn [mbind result_bind]; [|by intros [= <-]]
         end.
  discriminate.
Qed.

Lemma index_attributes_needs_aligned (g g' : GsRender.GaussianModel)
      (mask3d : list bool) :
  GsRender.index_attributes g mask3d = Ok g' -> Spec.aligned g.
Proof.
  intros H. apply index_attributes_Ok in H as [(H1 & H2 & H3 & H4 & H5 & H6) _].
  unfold Spec.aligned. rewrite H1, H2, H3, H4, H5, H6. done.
Qed.

Lemma select_attributes_aligned (g : GsRender.GaussianModel) (mask3d : list bool) :
  Spec.aligned g -> Spec.aligned (Notions.select_attributes g mask3d).
Proof.
  intros (H1 & H2 & H3 & H4 & H5). unfold Spec.aligned. simpl.
  repeat split; by apply select_length_eq.
Qed.

Lemma select_attributes_twice (g : GsRender.GaussianModel) (m1 m2 : list bool) :
  Notions.select_attributes (Notions.select_attributes g m1) (Py.select m2 m1) =
  Notions.select_attributes g (zip_with andb m1 m2).
Proof. unfold Notions.select_attributes. simpl. by rewrite !select_select. Qed.

Lemma select_attributes_all (g : GsRender.GaussianModel) (mask3d : list bool) :
  Spec.aligned g -> length mask3d = length (GsRender._xyz g) ->
  Forall (fun b => b = true) mask3d ->
  Notions.select_attributes g mask3d = g.
Proof.
  intros (H1 & H2 & H3 & H4 & H5) Hm HF. destruct g. simpl in *.
  unfold Notions.select_attributes. simpl.
  rewrite !select_all_true; try done; congruence.
Qed.

Lemma low_opacity_mask3d_select (act : Q -> Q) (g : GsRender.GaussianModel)
      (m : list bool) (thr : Q) :
  GsRender.low_opacity_mask3d act (Notions.select_attributes g m) thr =
  Py.select (GsRender.low_opacity_mask3d act g thr) m.
Proof.
  unfold GsRender.low_opacity_mask3d, GsRender.get_opacity. simpl.
  by rewrite <- !select_fmap.
Qed.

Lemma mesh_distance_mask3d_select (g : GsRender.GaussianModel) (m : list bool)
      (mesh : list point) (thr : Q) :
  GsRender.mesh_distance_mask3d (Notions.select_attributes g m) mesh thr =
  Py.select (GsRender.mesh_distance_mask3d g mesh thr) m.
Proof. rewrite !mesh_distance_mask3d_eq. simpl. by rewrite select_fmap. Qed.

Lemma low_opacity_mask3d_length (act : Q -> Q) (g : GsRender.GaussianModel) (thr : Q) :
  length (GsRender.low_opacity_mask3d act g thr) = length (GsRender._opacity g).
Proof.
  unfold GsRender.low_opacity_mask3d, GsRender.get_opacity. by rewrite !length_fmap.
Qed.

Lemma mesh_distance_mask3d_length (g : GsRender.GaussianModel) mesh thr :
  length (GsRender.mesh_distance_mask3d g mesh thr) = length (GsRender._xyz g).
Proof. by rewrite mesh_distance_mask3d_eq, length_fmap. Qed.

Lemma remove_low_opacity_aligned (act : Q -> Q) (g : GsRender.GaussianModel) (thr : Q) :
  Spec.aligned g ->
  GsRender.remove_gaussians_with_low_opacity act g thr =
  Ok (Notions.select_attributes g (GsRender.low_opacity_mask3d act g thr)).
Proof.
  intros Hal. apply index_attributes_aligned_Ok; [done|].
  rewrite low_opacity_mask3d_length. apply Hal.
Qed.

Lemma remove_mesh_distance_aligned (g : GsRender.GaussianModel) mesh thr :
  Spec.aligned g ->
  GsRender.remove_gaussians_with_point_mesh_distance g mesh thr =
  Ok (Notions.select_attributes g (GsRender.mesh_distance_mask3d g mesh thr)).
Proof.
  intros Hal. apply index_attributes_aligned_Ok; [done|].
  apply mesh_distance_mask3d_length.
Qed.

(** Pruning by opacity with a threshold and then with a higher one gives what
    the higher threshold gives alone; in particular pruning twice with the
    same threshold changes nothing the second time. *)
Theorem low_opacity_pruning_composes
        (opacity_activation : Q -> Q) (g g1 : GsRender.GaussianModel)
        (threshold1 threshold2 : Q) :
  (threshold1 <= threshold2)%Q ->
  GsRender.remove_gaussians_with_low_opacity opacity_activation g threshold1 = Ok g1 ->
  GsRender.remove_gaussians_with_low_opacity opacity_activation g1 threshold2 =
  GsRender.remove_gaussians_with_low_opacity opacity_activation g threshold2 /\
  GsRender.remove_gaussians_with_low_opacity opacity_activation g1 threshold1 = Ok g1.
Proof.
  intros Hle H1. pose proof (index_attributes_needs_aligned _ _ _ H1) as Hal.
  rewrite (remove_low_opacity_aligned _ _ _ Hal) in H1. injection H1 as <-.
  pose proof (select_attributes_aligned g
                (GsRender.low_opacity_mask3d opacity_activation g threshold1) Hal) as Hal1.
  assert (forall t, (threshold1 <= t)%Q ->
            zip_with andb (GsRender.low_opacity_mask3d opacity_activation g threshold1)
              (GsRender.low_opacity_mask3d opacity_activation g t) =
            GsRender.low_opacity_mask3d opacity_activation g t) as Hand.
  { intros t Ht. unfold GsRender.low_opacity_mask3d.
    induction (GsRender.get_opacity opacity_activation g) as [|o os IH]; [done|].
    rewrite !fmap_cons. cbn [zip_with]. rewrite IH. f_equal.
    destruct (Qgtb o t) eqn:Hot; [|by destruct (Qgtb o threshold1)].
    apply Qgtb_lt in Hot.
    assert (Qgtb o threshold1 = true) as ->; [|done].
    apply Qgtb_lt. by eapply Qle_lt_trans. }
  rewrite !(remove_low_opacity_aligned _ _ _ Hal1), (remove_low_opacity_aligned _ _ _ Hal).
  rewrite !low_opacity_mask3d_select, !select_attributes_twice.
  rewrite (Hand threshold2 Hle), (Hand threshold1 (Qle_refl _)). done.
Qed.

Lemma low_opacity_pruning_composes_witness :
  exists g1,
    GsRender.remove_gaussians_with_low_opacity Examples.affine_activation
      Notions.graded_gaussians (1 # 10) = Ok g1 /\
    length (GsRender._xyz g1) = 2%nat /\
    GsRender.remove_gaussians_with_low_opacity Examples.affine_activation g1 (11 # 20) =
    GsRender.remove_gaussians_with_low_opacity Examples.affine_activation
      Notions.graded_gaussians (11 # 20).
Proof.
  eexists. split; [vm_compute; reflexivity|]. split; [reflexivity|].
  eapply (low_opacity_pruning_composes Examples.affine_activation
            Notions.graded_gaussians _ (1 # 10) (11 # 20)).
  - discriminate.
  - vm_compute. reflexivity.
Defined.

Lemma select_pred {A} (f : A -> bool) (l : list A) :
  Py.select l (f <$> l) = List.filter f l.
Proof.
  induction l as [|x l IH]; [done|].
  rewrite fmap_cons. cbn [Py.select List.filter]. rewrite IH. by destruct (f x).
Qed.

Lemma attribute_tuples_opacity (g : GsRender.GaussianModel) :
  Spec.aligned g ->
  Notions.tuple_opacity <$> Spec.attribute_tuples g = GsRender._opacity g.
Proof.
  intros (H1 & H2 & H3 & H4 & H5). unfold Spec.attribute_tuples.
  apply snd_zip. rewrite !length_zip. lia.
Qed.

Lemma attribute_tuples_xyz (g : GsRender.GaussianModel) :
  Spec.aligned g ->
  Notions.tuple_xyz <$> Spec.attribute_tuples g = GsRender._xyz g.
Proof.
  intros (H1 & H2 & H3 & H4 & H5). unfold Spec.attribute_tuples.
  transitivity (fst <$> (fst <$> (fst <$> (fst <$> (fst <$>
    zip (zip (zip (zip (zip (GsRender._xyz g) (GsRender._features_dc g))
                       (GsRender._features_rest g)) (GsRender._scaling g))
             (GsRender._rotation g)) (GsRender._opacity g)))))).
  { rewrite <- !list_fmap_compose. done. }
  rewrite !fst_zip; [done|rewrite ?length_zip; lia..].
Qed.

Lemma attribute_tuples_select (g : GsRender.GaussianModel) (mask3d : list bool) :
  Spec.attribute_tuples (Notions.select_attributes g mask3d) =
  Py.select (Spec.attribute_tuples g) mask3d.
Proof. unfold Spec.attribute_tuples. simpl. by rewrite !select_zip. Qed.

Lemma low_opacity_tuples (act : Q -> Q) (g : GsRender.GaussianModel) (thr : Q) :
  Spec.aligned g ->
  Spec.attribute_tuples
    (Notions.select_attributes g (GsRender.low_opacity_mask3d act g thr)) =
  List.filter (fun t => Qgtb (act (Notions.tuple_opacity t)) thr)
    (Spec.attribute_tuples g).
Proof.
  intros Hal. rewrite attribute_tuples_select, <- select_pred. f_equal.
  unfold GsRender.low_opacity_mask3d, GsRender.get_opacity.
  rewrite <- (attribute_tuples_opacity g Hal), <- !list_fmap_compose. done.
Qed.

(** On an aligned set, opacity pruning returns exactly the attribute tuples
    whose opacity is strictly above the threshold, in their original
    order. *)
Theorem low_opacity_pruning_is_filter
        (opacity_activation : Q -> Q) (g : GsRender.GaussianModel)
        (opacity_threshold : Q) :
  Spec.aligned g ->
  exists g',
    GsRender.remove_gaussians_with_low_opacity opacity_activation g
      opacity_threshold = Ok g' /\
    Spec.attribute_tuples g' =
    List.filter
      (fun t => Qgtb (opacity_activation (Notions.tuple_opacity t)) opacity_threshold)
      (Spec.attribute_tuples g) /\
    Forall (fun o => opacity_threshold < o)%Q
           (GsRender.get_opacity opacity_activation g').
Proof.
  intros Hal. eexists. split; [by apply remove_low_opacity_aligned|].
  pose proof (low_opacity_tuples opacity_activation g opacity_threshold Hal) as Htuples.
  split; [done|].
  unfold GsRender.get_opacity.
  rewrite <- (attribute_tuples_opacity _ (select_attributes_aligned g _ Hal)), Htuples.
  rewrite <- list_fmap_compose. apply Forall_fmap, Forall_forall.
  intros t Ht. apply list_elem_of_In, List.filter_In in Ht as [_ Ht].
  by apply Qgtb_lt.
Qed.

Lemma low_opacity_pruning_is_filter_witness :
  exists g',
    GsRender.remove_gaussians_with_low_opacity Examples.affine_activation
      Notions.three_gaussians (1 # 10) = Ok g' /\
    Forall (fun o => (1 # 10) < o)%Q
           (GsRender.get_opacity Examples.affine_activation g').
Proof.
  destruct (low_opacity_pruning_is_filter Examples.affine_activation
              Notions.three_gaussians (1 # 10)) as (g' & Hg' & _ & Hall).
  - repeat split.
  - by exists g'.
Defined.

(** Without views, visibility pruning keeps every gaussian. *)
Theorem mask_pruning_without_views (g : GsRender.GaussianModel) :
  Spec.aligned g -> GsRender.remove_gaussians_with_mask g [] = Ok g.
Proof.
  intros Hal. unfold GsRender.remove_gaussians_with_mask, GsRender.view_counter.
  simpl. rewrite index_attributes_aligned_Ok; [|done|].
  - f_equal. apply select_attributes_all; [done| |].
    + unfold GsRender.mask3d_of_counter. by rewrite length_fmap, length_replicate.
    + unfold GsRender.mask3d_of_counter. apply Forall_fmap, Forall_forall.
      intros c Hc. by apply elem_of_replicate in Hc as [-> _].
  - unfold GsRender.mask3d_of_counter. by rewrite length_fmap, length_replicate.
Qed.

Lemma mask_pruning_without_views_witness :
  GsRender.remove_gaussians_with_mask Examples.two_gaussians [] =
  Ok Examples.two_gaussians.
Proof. apply mask_pruning_without_views. repeat split. Defined.

(** Opacity pruning and mesh-distance pruning commute: on an aligned set both
    orders return the same set. *)
Theorem opacity_and_mesh_pruning_commute
        (opacity_activation : Q -> Q) (g : GsRender.GaussianModel)
        (opacity_threshold : Q) (mesh_sampled_points : list point)
        (dist_threshold : Q) :
  Spec.aligned g ->
  (g1 ← GsRender.remove_gaussians_with_low_opacity opacity_activation g
          opacity_threshold;
   GsRender.remove_gaussians_with_point_mesh_distance g1 mesh_sampled_points
     dist_threshold) =
  (g2 ← GsRender.remove_gaussians_with_point_mesh_distance g mesh_sampled_points
          dist_threshold;
   GsRender.remove_gaussians_with_low_opacity opacity_activation g2
     opacity_threshold).
Proof.
  intros Hal.
  rewrite (remove_low_opacity_aligned _ _ _ Hal), (remove_mesh_distance_aligned _ _ _ Hal).
  simpl.
  rewrite remove_mesh_distance_aligned by by apply select_attributes_aligned.
  rewrite remove_low_opacity_aligned by by apply select_attributes_aligned.
  rewrite mesh_distance_mask3d_select, low_opacity_mask3d_select.
  rewrite !select_attributes_twice. do 2 f_equal.
  pose proof (low_opacity_mask3d_length opacity_activation g opacity_threshold) as H1.
  pose proof (mesh_distance_mask3d_length g mesh_sampled_points dist_threshold) as H2.
  generalize dependent (GsRender.mesh_distance_mask3d g mesh_sampled_points dist_threshold).
  generalize (GsRender.low_opacity_mask3d opacity_activation g opacity_threshold).
  clear. intros m1 m2 _. revert m2.
  induction m1 as [|b1 m1 IH]; intros [|b2 m2]; simpl; try done.
  by rewrite IH, andb_comm.
Qed.

Lemma opacity_and_mesh_pruning_commute_witness :
  (g1 ← GsRender.remove_gaussians_with_low_opacity Examples.affine_activation
          Notions.three_gaussians (1 # 10);
   GsRender.remove_gaussians_with_point_mesh_distance g1 Examples.mesh_samples 1) =
  (g2 ← GsRender.remove_gaussians_with_point_mesh_distance Notions.three_gaussians
          Examples.mesh_samples 1;
   GsRender.remove_gaussians_with_low_opacity Examples.affine_activation g2 (1 # 10)).
Proof. apply opacity_and_mesh_pruning_commute. repeat split. Defined.

Lemma count_point_raises mask valid_uv iuv counter e :
  GsRender.count_point mask valid_uv iuv counter = Raise e -> e = IndexError.
Proof.
  unfold GsRender.count_point, GsRender.mask_at. destruct iuv as [i [u v]].
  destruct (Py.index valid_uv _) as [[]|] eqn:H1; cbn [mbind result_bind];
    [| discriminate | intros [= <-]; by apply index_raises in H1].
  destruct (Py.index mask v) as [r|] eqn:H2; cbn [mbind result_bind];
    [|intros [= <-]; by apply index_raises in H2].
  destruct (Py.index r u) as [a|] eqn:H3; cbn [mbind result_bind];
    [|intros [= <-]; by apply index_raises in H3].
  destruct (Qgtb a 0); [|discriminate].
  destruct (Py.index counter _) eqn:H4; cbn [mbind result_bind];
    [discriminate|intros [= <-]; by apply index_raises in H4].
Qed.

Lemma view_counter_raises (g : GsRender.GaussianModel) (views : list GsRender.View)
      (e : exn) :
  GsRender.view_counter g views = Raise e -> e = IndexError.
Proof.
  unfold GsRender.view_counter.
  apply (for_each_raises (fun e => e = IndexError)).
  intros view counter e'. unfold GsRender.count_view.
  apply (for_each_raises (fun e => e = IndexError)).
  intros iuv c e''. apply count_point_raises.
Qed.

(** On a set whose attribute arrays do not all have the same length, each of
    the three pruning functions raises IndexError: none returns a set. *)
Theorem pruning_rejects_misaligned (g : GsRender.GaussianModel) :
  ~ Spec.aligned g ->
  (forall views, GsRender.remove_gaussians_with_mask g views = Raise IndexError) /\
  (forall opacity_activation opacity_threshold,
      GsRender.remove_gaussians_with_low_opacity opacity_activation g
        opacity_threshold = Raise IndexError) /\
  (forall mesh_sampled_points dist_threshold,
      GsRender.remove_gaussians_with_point_mesh_distance g mesh_sampled_points
        dist_threshold = Raise IndexError).
Proof.
  intros Hnot.
  assert (forall m, GsRender.index_attributes g m = Raise IndexError) as Hidx.
  { intros m. destruct (GsRender.index_attributes g m) as [g'|e] eqn:H.
    - exfalso. by apply Hnot, (index_attributes_needs_aligned g g' m).
    - f_equal. by eapply index_attributes_raises_index_error. }
  split; [|split].
  - intros views. unfold GsRender.remove_gaussians_with_mask.
    destruct (GsRender.view_counter g views) as [counter|e] eqn:Hc; simpl; [done|].
    f_equal. by eapply view_counter_raises.
  - intros act thr. apply Hidx.
  - intros mesh thr. apply Hidx.
Qed.

Lemma pruning_rejects_misaligned_witness :
  GsRender.remove_gaussians_with_low_opacity Examples.affine_activation
    Notions.misaligned_gaussians GsRender.default_opacity_threshold =
  Raise IndexError.
Proof.
  apply (pruning_rejects_misaligned Notions.misaligned_gaussians).
  intros (_ & _ & _ & _ & H). discriminate H.
Defined.

Lemma for_each_fails {X S} (body : X -> S -> result S) (xs : list X) (x : X) :
  x ∈ xs -> (forall s, exists e, body x s = Raise e) ->
  forall s, exists e, Py.for_each xs body s = Raise e.
Proof.
  intros Hin Hx. induction xs as [|y xs IH]; intros s; [by apply elem_of_nil in Hin|].
  simpl. apply elem_of_cons in Hin as [<-|Hin].
  - destruct (Hx s) as [e ->]. simpl. eauto.
  - destruct (body y s) as [s'|e]; simpl; [by apply IH | eauto].
Qed.

Lemma enumerate_elem {A} (l : list A) (i : nat) (a : A) :
  l !! i = Some a -> (i, a) ∈ Py.enumerate l.
Proof.
  intros Hi. unfold Py.enumerate. apply list_elem_of_lookup. exists i.
  apply lookup_zip_with_Some. exists i, a. split; [done|]. split; [|done].
  apply lookup_seq. split; [done|]. by apply lookup_lt_Some in Hi.
Qed.

(** When the projected pixel of a gaussian lies inside the image bounds of a
    view and the view's alpha mask has no entry for that pixel (a mask
    smaller than the image), visibility pruning raises IndexError. *)
Theorem mask_pruning_needs_mask_entries
        (g : GsRender.GaussianModel) (views : list GsRender.View)
        (view : GsRender.View) (p : point) (u v : Z) :
  view ∈ views ->
  p ∈ GsRender._xyz g ->
  Spec.pixel view p = Some (u, v) ->
  (0 <= u < GsRender.image_width view)%Z ->
  (0 <= v < GsRender.image_height view)%Z ->
  Spec.mask_entry (GsRender.alpha_mask view) (u, v) = None ->
  GsRender.remove_gaussians_with_mask g views = Raise IndexError.
Proof.
  intros Hview Hp Hpix Hu Hv Hmask.
  assert (GsRender.project view p = (u, v)) as Hproj.
  { by rewrite project_pixel, Hpix. }
  assert (GsRender.valid (GsRender.image_width view) (GsRender.image_height view)
            (u, v) = true) as Hvalid.
  { unfold GsRender.valid. cbn [fst snd].
    rewrite !andb_true_iff, !Z.leb_le, !Z.ltb_lt. lia. }
  assert (exists e, GsRender.mask_at (GsRender.alpha_mask view) v u = Raise e)
    as [e Hraise].
  { destruct (GsRender.mask_at (GsRender.alpha_mask view) v u) as [a|e] eqn:Ha;
      [|eauto].
    apply mask_at_entry in Ha; [congruence|lia..]. }
  apply list_elem_of_lookup in Hp as [i Hi].
  assert (forall counter, exists e',
            GsRender.count_view (GsRender._xyz g) view counter = Raise e') as Hfail.
  { unfold GsRender.count_view.
    apply (for_each_fails _ _ (i, GsRender.project view p)).
    - apply enumerate_elem. by rewrite list_lookup_fmap, Hi.
    - intros counter. unfold GsRender.count_point. rewrite Hproj.
      assert (Py.index (GsRender.valid (GsRender.image_width view)
                          (GsRender.image_height view)
                        <$> (GsRender.project view <$> GsRender._xyz g))
                (Z.of_nat i) = Ok true) as ->.
      { apply index_nat_Ok. rewrite !list_lookup_fmap, Hi. simpl.
        by rewrite Hproj, Hvalid. }
      cbn [mbind result_bind]. rewrite Hraise. simpl. eauto. }
  unfold GsRender.remove_gaussians_with_mask.
  destruct (GsRender.view_counter g views) as [counter|e'] eqn:Hc.
  - exfalso. unfold GsRender.view_counter in Hc.
    destruct (for_each_fails _ _ view Hview Hfail
                (replicate (length (GsRender._xyz g)) 0%Z)) as [e' He'].
    by rewrite He' in Hc.
  - simpl. f_equal. by eapply view_counter_raises.
Qed.

Lemma mask_pruning_needs_mask_entries_witness :
  GsRender.remove_gaussians_with_mask Examples.four_gaussians [Notions.cropped_view] =
  Raise IndexError.
Proof.
  apply (mask_pruning_needs_mask_entries Examples.four_gaussians
           [Notions.cropped_view] Notions.cropped_view (3 # 20, - (6 # 5), 0)%Q 1 1).
  - left.
  - left.
  - vm_compute. reflexivity.
  - vm_compute. split; [discriminate | reflexivity].
  - vm_compute. split; [discriminate | reflexivity].
  - vm_compute. reflexivity.
Defined.

(** * Further properties of the ray directions and of the projection *)

(** ** Python floats *)







(** The rounding of the float product can be seen after the truncation:
    [int(3 * 1.3333333333333333)] is 4, although the exact product of 3 and
    that float is below 4. *)
Lemma render_size_rounds :
  (inject_Z 3 * Float.nearest (4 # 3) < 4)%Q /\
  Spec.render_size 3 (Float.nearest (4 # 3)) = 4%Z.
Proof. split; vm_compute; reflexivity. Qed.


(** ** The shape of the result *)



Lemma imap_rows_uniform {A B} (f : nat -> nat -> A -> B) (rows : list (list A))
      (W : nat) :
  Forall (fun r => length r = W) rows ->
  Forall (fun r => length r = W) (imap (fun v r => imap (f v) r) rows).
Proof.
  intros HF. apply Forall_forall. intros r Hr.
  apply list_elem_of_lookup in Hr as [v Hv].
  rewrite list_lookup_imap in Hv.
  destruct (rows !! v) as [r0|] eqn:Hr0; [|done]. injection Hv as <-.
  rewrite length_imap. eapply Forall_forall in HF; [exact HF|].
  by eapply list_elem_of_lookup_2.
Qed.


(** [get_ray_directions] in terms of the sides of its grid and of the
    intrinsics it leaves. *)
Lemma get_ray_directions_eq
      (H W : Z) (K : GsRender.mat3) (random return_uv flatten : bool)
      (f : Q) (rand_u rand_v : nat -> nat -> Q) :
  GsRender.get_ray_directions H W K random return_uv flatten f rand_u rand_v =
  let K' := if Qgtb f 1 then GsRender.set22 1 (GsRender.scale f K) else K in
  let grid := Lib.create_meshgrid (Spec.render_size H f) (Spec.render_size W f) in
  let directions :=
    if random
    then imap (fun v r => imap (fun u uv =>
                 GsRender.direction K' (rand_u v u) (rand_v v u) uv) r) grid
    else fmap (M := list) (fmap (M := list) (GsRender.direction K' (1 # 2) (1 # 2))) grid in
  ({| GsRender.directions :=
        if flatten then GsRender.Flat (concat directions) else GsRender.Grid directions;
      GsRender.uv_grid :=
        if return_uv
        then Some (if flatten then GsRender.Flat (concat grid) else GsRender.Grid grid)
        else None |}, K').
Proof.
  unfold GsRender.get_ray_directions, Spec.render_size.
  by destruct (Qgtb f 1), flatten.
Qed.



Lemma get_ray_directions_K
      (H W : Z) (K : GsRender.mat3) (random return_uv flatten : bool)
      (f : Q) (rand_u rand_v : nat -> nat -> Q) :
  snd (GsRender.get_ray_directions H W K random return_uv flatten f rand_u rand_v) =
  if Qgtb f 1 then GsRender.set22 1 (GsRender.scale f K) else K.
Proof. by rewrite get_ray_directions_eq. Qed.

(** When the factor exceeds 1 and the same tensor [K] is passed to a second
    call, the second call rescales it again: after two calls its entries are
    multiplied by the square of the factor, [K[2, 2]] being 1. *)
Theorem get_ray_directions_twice_rescales_twice
        (H W H2 W2 : Z) (K : GsRender.mat3)
        (random return_uv flatten random2 return_uv2 flatten2 : bool)
        (anti_aliasing_factor : Q)
        (rand_u rand_v rand_u2 rand_v2 : nat -> nat -> Q) :
  (1 < anti_aliasing_factor)%Q ->
  let K1 := snd (GsRender.get_ray_directions H W K random return_uv flatten
                   anti_aliasing_factor rand_u rand_v) in
  let K2 := snd (GsRender.get_ray_directions H2 W2 K1 random2 return_uv2 flatten2
                   anti_aliasing_factor rand_u2 rand_v2) in
  Spec.mat3_eq K2
    (GsRender.set22 1 (GsRender.scale (anti_aliasing_factor * anti_aliasing_factor) K)).
Proof.
  intros Hf. apply Qgtb_lt in Hf. simpl. rewrite !get_ray_directions_K, Hf.
  destruct K as [[[[a00 a01] a02] [[a10 a11] a12]] [[a20 a21] a22]].
  unfold Spec.mat3_eq, GsRender.set22, GsRender.scale.
  repeat split; ring.
Qed.

Lemma get_ray_directions_twice_rescales_twice_witness :
  Spec.mat3_eq
    (snd (GsRender.get_ray_directions 1 1
            (snd (GsRender.get_ray_directions 1 1 Examples.identity3 false false true 2
                    Notions.quarter Notions.quarter))
            false false true 2 Notions.quarter Notions.quarter))
    (GsRender.set22 1 (GsRender.scale (2 * 2) Examples.identity3)).
Proof.
  apply (get_ray_directions_twice_rescales_twice 1 1 1 1 Examples.identity3
           false false true false false true 2).
  reflexivity.
Defined.

(** ** Random sampling inside the pixel *)

Lemma Qdiv_le_compat (a b c : Q) : (0 < c)%Q -> (a <= b)%Q -> (a / c <= b / c)%Q.
Proof.
  intros Hc Hab. unfold Qdiv. apply Qmult_le_compat_r; [done|].
  apply Qlt_le_weak. by apply Qinv_lt_0_compat.
Qed.

(** The direction grows with the shift inside the pixel, when the focal
    lengths are positive. *)
Lemma direction_between (K : GsRender.mat3) (du dv : Q) (uv : Q * Q) :
  (0 < Notions.fx K)%Q -> (0 < Notions.fy K)%Q ->
  (0 <= du <= 1)%Q -> (0 <= dv <= 1)%Q ->
  Notions.point_between (GsRender.direction K 0 0 uv) (GsRender.direction K du dv uv)
    (GsRender.direction K 1 1 uv).
Proof.
  destruct K as [[[[fx ?] cx] [[? fy] cy]] ?], uv as [u v]. simpl.
  intros Hfx Hfy [Hu0 Hu1] [Hv0 Hv1]. unfold Notions.between.
  repeat split; try apply Qle_refl;
    apply Qdiv_le_compat; try done; by apply Qplus_le_r.
Qed.

(** With [random=True], samples in [0, 1) and positive focal lengths, the ray
    of the pixel (u, v) passes inside that pixel: its direction lies between
    the directions that the same formula gives for the shifts 0 and 1, those
    of two opposite corners of the pixel, and its third coordinate is 1.  The
    bounds are inclusive (rounding can reach them).  The factor is a Python
    float. *)
Theorem random_direction_inside_pixel
        (H W : Z) (K : GsRender.mat3) (return_uv flatten : bool)
        (anti_aliasing_factor : Q) (rand_u rand_v : nat -> nat -> Q) :
  Notions.is_float anti_aliasing_factor ->
  (forall v u, 0 <= rand_u v u < 1 /\ 0 <= rand_v v u < 1)%Q ->
  let out := GsRender.get_ray_directions H W K true return_uv flatten
               anti_aliasing_factor rand_u rand_v in
  (0 < Notions.fx (snd out))%Q -> (0 < Notions.fy (snd out))%Q ->
  forall v u : nat,
    (Z.of_nat v < Spec.render_size H anti_aliasing_factor)%Z ->
    (Z.of_nat u < Spec.render_size W anti_aliasing_factor)%Z ->
    exists d,
      Spec.pixel_at (Spec.render_size W anti_aliasing_factor)
        (GsRender.directions (fst out)) v u = Some d /\
      Notions.point_between
        (GsRender.direction (snd out) 0 0 (inject_Z (Z.of_nat u), inject_Z (Z.of_nat v)))
        d
        (GsRender.direction (snd out) 1 1 (inject_Z (Z.of_nat u), inject_Z (Z.of_nat v))) /\
      (Notions.depth d == 1)%Q.
Proof.
  intros _ Hrand out. unfold out. rewrite get_ray_directions_eq. cbv zeta.
  set (H' := Spec.render_size H anti_aliasing_factor).
  set (W' := Spec.render_size W anti_aliasing_factor).
  set (K' := if Qgtb anti_aliasing_factor 1 then _ else K).
  cbn [fst snd GsRender.directions].
  intros Hfx Hfy v u Hv Hu.
  destruct (Hrand v u) as [[Hu0 Hu1] [Hv0 Hv1]].
  exists (GsRender.direction K' (rand_u v u) (rand_v v u)
            (inject_Z (Z.of_nat u), inject_Z (Z.of_nat v))).
  split; [|split].
  - pose proof (create_meshgrid_lookup H' W' v u Hv Hu) as Hg.
    assert (forall rows : list (list (Q * Q)),
              rows !! v ≫= (fun r => r !! u) =
                Some (inject_Z (Z.of_nat u), inject_Z (Z.of_nat v)) ->
              imap (fun v r => imap (fun u uv =>
                      GsRender.direction K' (rand_u v u) (rand_v v u) uv) r) rows !! v
                ≫= (fun r => r !! u) =
              Some (GsRender.direction K' (rand_u v u) (rand_v v u)
                      (inject_Z (Z.of_nat u), inject_Z (Z.of_nat v)))) as Himap.
    { intros rows Hrows. rewrite list_lookup_imap.
      destruct (rows !! v) as [r|]; [|done]. simpl in *.
      by rewrite list_lookup_imap, Hrows. }
    destruct flatten; simpl.
    + rewrite (concat_lookup_uniform _ (Z.to_nat W')); [by apply Himap| |lia].
      apply imap_rows_uniform, create_meshgrid_rows.
    + by apply Himap.
  - apply direction_between; [done|done| |]; split; try done; by apply Qlt_le_weak.
  - by destruct K' as [[[[? ?] ?] [[? ?] ?]] ?].
Qed.

Lemma random_direction_inside_pixel_witness :
  let out := GsRender.get_ray_directions 2 2 ((2, 0, 1), (0, 2, 1), (0, 0, 1))%Q
               true false true (3 # 2) Notions.quarter Notions.quarter in
  exists d,
    Spec.pixel_at (Spec.render_size 2 (3 # 2)) (GsRender.directions (fst out)) 2 1 =
      Some d /\
    Notions.point_between
      (GsRender.direction (snd out) 0 0 (inject_Z (Z.of_nat 1), inject_Z (Z.of_nat 2)))
      d
      (GsRender.direction (snd out) 1 1 (inject_Z (Z.of_nat 1), inject_Z (Z.of_nat 2))) /\
    (Notions.depth d == 1)%Q.
Proof.
  apply (random_direction_inside_pixel 2 2 ((2, 0, 1), (0, 2, 1), (0, 0, 1))%Q
           false true (3 # 2) Notions.quarter Notions.quarter).
  - vm_compute. reflexivity.
  - intros v u. repeat split; discriminate.
  - vm_compute. reflexivity.
  - vm_compute. reflexivity.
  - vm_compute. reflexivity.
  - vm_compute. reflexivity.
Defined.

(** ** The projection does not look at the sign of the depth *)

(** Two points whose camera-space coordinates are opposite, one in front of
    the camera and one behind it, project onto the same pixel, so the
    visibility test counts both or neither. *)
Theorem opposite_camera_points_share_pixel (view : GsRender.View) (p p' : point) :
  Notions.opposite_points
    (GsRender.to_camera (GsRender.R view) (GsRender.T view) p)
    (GsRender.to_camera (GsRender.R view) (GsRender.T view) p') ->
  ~ (Notions.depth (GsRender.to_camera (GsRender.R view) (GsRender.T view) p) == 0)%Q ->
  GsRender.project view p' = GsRender.project view p /\
  Spec.visible_in view p' = Spec.visible_in view p.
Proof.
  intros Hopp Hz.
  assert (GsRender.project view p' = GsRender.project view p) as Hproj.
  { unfold GsRender.project.
    destruct (GsRender.to_camera _ _ p) as [[x y] z].
    destruct (GsRender.to_camera _ _ p') as [[x' y'] z'].
    destruct Hopp as (Hx & Hy & Hz'). simpl in Hz.
    destruct (GsRender.K view) as [[[[k00 k01] k02] [[k10 k11] k12]] k2].
    unfold GsRender.normalize_z, GsRender.dot3.
    assert (~ - z == 0)%Q as Hz''.
    { intros H0. apply Hz. rewrite <- (Qopp_involutive z), H0. reflexivity. }
    assert (Qeq_bool z 0 = false) as ->.
    { apply not_true_iff_false. intros H0. by apply Hz, Qeq_bool_eq. }
    assert (Qeq_bool z' 0 = false) as ->.
    { apply not_true_iff_false. intros H0. apply Qeq_bool_eq in H0.
      apply Hz''. by rewrite <- Hz'. }
    f_equal; apply round_proper; rewrite Hx, Hy, Hz'; field; repeat split; done. }
  split; [done|]. unfold Spec.visible_in. by rewrite Hproj.
Qed.

Lemma opposite_camera_points_share_pixel_witness :
  GsRender.project Examples.left_view (0, 0, -1)%Q =
  GsRender.project Examples.left_view (0, 0, 1)%Q.
Proof.
  apply (opposite_camera_points_share_pixel Examples.left_view (0, 0, 1)%Q (0, 0, -1)%Q).
  - vm_compute. repeat split.
  - vm_compute. discriminate.
Defined.

(** * Properties of render_set and render_sets *)

Lemma uint_of_string_zeros (k : nat) (s : String.string) :
  NilEmpty.uint_of_string (Nat.iter k (String.String "0"%char) s) =
  Nat.iter k Decimal.D0 <$> NilEmpty.uint_of_string s.
Proof.
  induction k as [|k IH]; simpl.
  - by destruct (NilEmpty.uint_of_string s).
  - rewrite IH. by destruct (NilEmpty.uint_of_string s).
Qed.

Lemma of_uint_zeros (k : nat) (d : Decimal.uint) :
  Nat.of_uint (Nat.iter k Decimal.D0 d) = Nat.of_uint d.
Proof. induction k as [|k IH]; simpl; [done|]. exact IH. Qed.

Lemma format_05d_round_trip_aux (idx : nat) :
  Nat.of_uint <$> NilEmpty.uint_of_string (RenderSets.format_05d idx) = Some idx.
Proof.
  unfold RenderSets.format_05d, RenderSets.zfill.
  rewrite uint_of_string_zeros, NilEmpty.usu. simpl.
  by rewrite of_uint_zeros, DecimalNat.Unsigned.of_to.
Qed.

Lemma format_05d_length (idx : nat) :
  (5 <= String.length (RenderSets.format_05d idx))%nat.
Proof.
  unfold RenderSets.format_05d, RenderSets.zfill.
  generalize (NilEmpty.string_of_uint (Nat.to_uint idx)). intros s.
  assert (forall k, String.length (Nat.iter k (String.String "0"%char) s) =
                    (k + String.length s)%nat) as ->.
  { induction k as [|k IH]; simpl; [done|]. by rewrite IH. }
  lia.
Qed.

(** The stem of a saved file name has at least five characters, and reading
    it as a decimal number gives back the index of the view. *)
Theorem format_05d_round_trip (idx : nat) :
  Nat.of_uint <$> NilEmpty.uint_of_string (RenderSets.format_05d idx) = Some idx /\
  (5 <= String.length (RenderSets.format_05d idx))%nat.
Proof. split; [apply format_05d_round_trip_aux | apply format_05d_length]. Qed.

Lemma string_length_append (a s : String.string) :
  String.length (String.append a s) = (String.length a + String.length s)%nat.
Proof.
  induction a as [|c a IH]; [done|].
  change (String.append (String.String c a) s)
    with (String.String c (String.append a s)).
  cbn [String.length]. by rewrite IH.
Qed.

Lemma string_append_inj_l (a b s : String.string) :
  String.append a s = String.append b s -> a = b.
Proof.
  revert b. induction a as [|c a IH]; intros [|c' b] H.
  - done.
  - apply (f_equal String.length) in H.
    rewrite !string_length_append in H. cbn [String.length] in H. lia.
  - apply (f_equal String.length) in H.
    rewrite !string_length_append in H. cbn [String.length] in H. lia.
  - change (String.String c (String.append a s) =
            String.String c' (String.append b s)) in H.
    injection H as -> H. f_equal. by apply IH.
Qed.

Lemma png_name_inj (i j : nat) :
  RenderSets.png_name i = RenderSets.png_name j -> i = j.
Proof.
  unfold RenderSets.png_name. intros H. apply string_append_inj_l in H.
  pose proof (format_05d_round_trip_aux i) as Hi. rewrite H in Hi.
  rewrite format_05d_round_trip_aux in Hi. by injection Hi.
Qed.

(** Views of different indices are saved under different file names. *)
Theorem png_names_differ (i j : nat) :
  i <> j -> RenderSets.png_name i <> RenderSets.png_name j.
Proof. intros Hij H. by apply Hij, png_name_inj. Qed.

Lemma png_names_differ_witness :
  RenderSets.png_name 7 <> RenderSets.png_name 12.
Proof. apply png_names_differ. lia. Defined.

Section render_set.
Context {image : Type}.
Variable render :
  GsRender.View -> GsRender.GaussianModel -> option (list GsRender.row) -> bool -> image.
Variable original_image : GsRender.View -> image.
Variable right_half : image -> image.

Let saved := RenderSets.saved image.
Let render_set := RenderSets.render_set image render original_image right_half.

Lemma render_set_lookup name views g tte dsh atte (idx : nat) (view : GsRender.View) :
  views !! idx = Some view ->
  exists r gt : saved,
    render_set name views g tte dsh atte !! (idx * 2 + 0)%nat = Some r /\
    render_set name views g tte dsh atte !! (idx * 2 + 1)%nat = Some gt /\
    RenderSets.folder image r = "renders"%string /\
    RenderSets.folder image gt = "gt"%string /\
    RenderSets.file image r = RenderSets.png_name idx /\
    RenderSets.file image gt = RenderSets.png_name idx /\
    RenderSets.set_name image r = name /\ RenderSets.set_name image gt = name.
Proof.
  intros Hview. unfold render_set, RenderSets.render_set.
  assert (Forall (fun r => length r = 2%nat)
            (imap (RenderSets.render_view image render original_image right_half
                     name g tte dsh atte) views)) as Hrows.
  { apply Forall_forall. intros r Hr. apply list_elem_of_lookup in Hr as [i Hi].
    apply list_lookup_imap_Some in Hi as (v & _ & ->).
    unfold RenderSets.render_view. by destruct atte. }
  rewrite !(concat_lookup_uniform _ 2 idx) by (done || lia).
  rewrite list_lookup_imap, Hview. simpl.
  unfold RenderSets.render_view. destruct atte; simpl; eauto 10.
Qed.

Lemma render_set_length name views g tte dsh atte :
  length (render_set name views g tte dsh atte) = (2 * length views)%nat.
Proof.
  unfold render_set, RenderSets.render_set.
  induction views as [|view views IH] using rev_ind; [done|].
  rewrite imap_app, concat_app, !length_app, IH. simpl.
  unfold RenderSets.render_view. destruct atte; simpl; lia.
Qed.

Lemma render_set_NoDup name views g tte dsh atte :
  NoDup ((fun s => (RenderSets.folder image s, RenderSets.file image s))
           <$> render_set name views g tte dsh atte).
Proof.
  apply NoDup_alt. intros i j x Hi Hj.
  rewrite list_lookup_fmap in Hi, Hj.
  destruct (render_set name views g tte dsh atte !! i) as [si|] eqn:Hsi; [|done].
  destruct (render_set name views g tte dsh atte !! j) as [sj|] eqn:Hsj; [|done].
  injection Hi as <-. simpl in Hj. injection Hj as Hfolder Hfile.
  assert (forall k (s : saved),
            render_set name views g tte dsh atte !! k = Some s ->
            RenderSets.file image s = RenderSets.png_name (k / 2) /\
            RenderSets.folder image s =
              (if (k mod 2 =? 0)%nat then "renders" else "gt")%string) as Hpos.
  { intros k s Hk. pose proof (lookup_lt_Some _ _ _ Hk) as Hlt.
    rewrite render_set_length in Hlt.
    destruct (lookup_lt_is_Some_2 views (k / 2)) as [view Hview].
    { apply Nat.Div0.div_lt_upper_bound. lia. }
    destruct (render_set_lookup name views g tte dsh atte (k / 2) view Hview)
      as (r & gt & Hr & Hgt & Hfr & Hfgt & Hnr & Hngt & _).
    pose proof (Nat.div_mod_eq k 2) as Hk2.
    pose proof (Nat.mod_upper_bound k 2 ltac:(lia)) as Hm.
    destruct (k mod 2)%nat as [|[|m]] eqn:Hmod; [| |lia].
    - replace (k / 2 * 2 + 0)%nat with k in Hr by lia.
      rewrite Hr in Hk. by injection Hk as <-.
    - replace (k / 2 * 2 + 1)%nat with k in Hgt by lia.
      rewrite Hgt in Hk. by injection Hk as <-. }
  destruct (Hpos i si Hsi) as [Hfi Hdi]. destruct (Hpos j sj Hsj) as [Hfj Hdj].
  rewrite Hfi, Hfj in Hfile. apply png_name_inj in Hfile.
  rewrite Hdi, Hdj in Hfolder.
  pose proof (Nat.div_mod_eq i 2). pose proof (Nat.div_mod_eq j 2).
  pose proof (Nat.mod_upper_bound i 2 ltac:(lia)).
  pose proof (Nat.mod_upper_bound j 2 ltac:(lia)).
  destruct (Nat.eqb_spec (i mod 2) 0), (Nat.eqb_spec (j mod 2) 0);
    try discriminate; lia.
Qed.

(** [render_set] saves two images per view, a render and a ground truth, and
    no two of its saves go to the same file of the same folder: nothing it
    writes is overwritten. *)
Theorem render_set_never_overwrites name views g tte dsh atte :
  length (render_set name views g tte dsh atte) = (2 * length views)%nat /\
  NoDup ((fun s => (RenderSets.folder image s, RenderSets.file image s))
           <$> render_set name views g tte dsh atte).
Proof. split; [apply render_set_length | apply render_set_NoDup]. Qed.

Lemma render_set_set_name name views g tte dsh atte (s : saved) :
  s ∈ render_set name views g tte dsh atte -> RenderSets.set_name image s = name.
Proof.
  unfold render_set, RenderSets.render_set. intros Hs.
  apply list_elem_of_In, in_concat in Hs as (l & Hl & Hs).
  apply list_elem_of_In in Hl, Hs.
  apply list_elem_of_lookup in Hl as [i Hi].
  apply list_lookup_imap_Some in Hi as (v & _ & ->).
  unfold RenderSets.render_view in Hs.
  destruct atte; simpl in Hs;
    repeat (apply elem_of_cons in Hs as [->|Hs]; [done|]);
    by apply elem_of_nil in Hs.
Qed.

(** [render_sets] saves two images for each view of the sets that are not
    skipped, those of the train set first and those of the test set after
    them, and no two of its saves go to the same file of the same folder of
    the same set. *)
Theorem render_sets_never_overwrites
        (opacity_activation : Q -> Q) (g : GsRender.GaussianModel)
        (train_cameras test_cameras : list GsRender.View)
        (skip_train skip_test remove_gaussians tte dsh atte : bool)
        (saves : list saved) :
  RenderSets.render_sets opacity_activation image render original_image right_half
    g train_cameras test_cameras skip_train skip_test remove_gaussians
    tte dsh atte = Ok saves ->
  (exists train test : list saved,
     saves = train ++ test /\
     length train = (2 * (if skip_train then 0 else length train_cameras))%nat /\
     length test = (2 * (if skip_test then 0 else length test_cameras))%nat /\
     Forall (fun s => RenderSets.set_name image s = "train"%string) train /\
     Forall (fun s => RenderSets.set_name image s = "test"%string) test) /\
  NoDup ((fun s => (RenderSets.set_name image s, RenderSets.folder image s,
                    RenderSets.file image s)) <$> saves).
Proof.
  unfold RenderSets.render_sets. intros H.
  apply bind_Ok in H as (g' & _ & H). injection H as <-.
  set (train := if skip_train then [] else _).
  set (test := if skip_test then [] else _).
  assert (length train = (2 * (if skip_train then 0 else length train_cameras))%nat
          /\ NoDup ((fun s => (RenderSets.folder image s, RenderSets.file image s))
                      <$> train)
          /\ forall s, s ∈ train -> RenderSets.set_name image s = "train"%string)
    as (Hl1 & Hn1 & Hs1).
  { unfold train. destruct skip_train.
    - split; [done|]. split; [constructor|]. intros s Hs. by apply elem_of_nil in Hs.
    - split; [apply render_set_length|]. split; [apply render_set_NoDup|].
      intros s. apply render_set_set_name. }
  assert (length test = (2 * (if skip_test then 0 else length test_cameras))%nat
          /\ NoDup ((fun s => (RenderSets.folder image s, RenderSets.file image s))
                      <$> test)
          /\ forall s, s ∈ test -> RenderSets.set_name image s = "test"%string)
    as (Hl2 & Hn2 & Hs2).
  { unfold test. destruct skip_test.
    - split; [done|]. split; [constructor|]. intros s Hs. by apply elem_of_nil in Hs.
    - split; [apply render_set_length|]. split; [apply render_set_NoDup|].
      intros s. apply render_set_set_name. }
  split.
  { exists train, test. split; [done|]. split; [done|]. split; [done|].
    split; by apply Forall_forall. }
  rewrite fmap_app. apply NoDup_app. split; [|split].
  - eapply NoDup_fmap_1 with (f := fun x : String.string * String.string * String.string =>
                                     (snd (fst x), snd x)).
    rewrite <- list_fmap_compose. exact Hn1.
  - intros x Hx1 Hx2.
    apply list_elem_of_fmap in Hx1 as (s1 & -> & Hs1').
    apply list_elem_of_fmap in Hx2 as (s2 & Heq & Hs2').
    injection Heq as Hname _ _.
    rewrite (Hs1 _ Hs1'), (Hs2 _ Hs2') in Hname. discriminate.
  - eapply NoDup_fmap_1 with (f := fun x : String.string * String.string * String.string =>
                                     (snd (fst x), snd x)).
    rewrite <- list_fmap_compose. exact Hn2.
Qed.

End render_set.

(** The gaussians that [render_sets] hands to the renderer form an aligned
    subset of the loaded ones; each has an opacity strictly above 0.1 and,
    when [remove_gaussians] is set (with fewer than 2^31 training views),
    each is covered by the alpha mask of every training view. *)
Theorem rendered_gaussians_pass_the_tests
        (opacity_activation : Q -> Q) (g g' : GsRender.GaussianModel)
        (train_cameras : list GsRender.View) (remove_gaussians : bool) :
  RenderSets.pruned_gaussians opacity_activation g train_cameras remove_gaussians =
    Ok g' ->
  Spec.aligned g' /\
  forall t, t ∈ Spec.attribute_tuples g' ->
    t ∈ Spec.attribute_tuples g /\
    (GsRender.default_opacity_threshold <
     opacity_activation (Notions.tuple_opacity t))%Q /\
    (remove_gaussians = true -> (Py.len train_cameras < 2 ^ 31)%Z ->
     forall view, view ∈ train_cameras -> Spec.covered view (Notions.tuple_xyz t)).
Proof.
  unfold RenderSets.pruned_gaussians. intros H.
  apply bind_Ok in H as (g1 & H1 & H).
  pose proof (index_attributes_needs_aligned _ _ _ H) as Hal1.
  rewrite (remove_low_opacity_aligned _ _ _ Hal1) in H. injection H as <-.
  split; [by apply select_attributes_aligned|].
  intros t Ht. rewrite (low_opacity_tuples _ _ _ Hal1) in Ht.
  apply list_elem_of_In, List.filter_In in Ht as [Ht Hop].
  apply list_elem_of_In in Ht. apply Qgtb_lt in Hop.
  destruct remove_gaussians.
  - unfold GsRender.remove_gaussians_with_mask in H1.
    apply bind_Ok in H1 as (counter & Hcounter & H1).
    pose proof (index_attributes_needs_aligned _ _ _ H1) as Hal.
    rewrite (index_attributes_aligned_Ok g _ Hal) in H1.
    2:{ apply index_attributes_pruned in H1 as [Hlen _]. exact Hlen. }
    injection H1 as <-. rewrite attribute_tuples_select in Ht.
    apply select_lookup_inv in Ht as (i & Hi & Hmask).
    split; [by eapply list_elem_of_lookup_2|]. split; [done|].
    intros _ Hbound view Hview.
    assert (GsRender._xyz g !! i = Some (Notions.tuple_xyz t)) as Hxyz.
    { rewrite <- (attribute_tuples_xyz g Hal), list_lookup_fmap, Hi. done. }
    destruct (view_counter_Ok g train_cameras counter Hbound Hcounter) as [_ Hcount].
    specialize (Hcount i _ Hxyz).
    apply (mask3d_of_counter_lookup train_cameras counter i _ Hcount) in Hmask.
    pose proof (count_visible_bounds train_cameras (Notions.tuple_xyz t)) as Hb.
    apply covered_visible_in.
    apply (proj1 (count_visible_all train_cameras (Notions.tuple_xyz t))); [lia|done].
  - injection H1 as <-. split; [done|]. split; [done|]. discriminate.
Qed.

Lemma rendered_gaussians_pass_the_tests_witness :
  Spec.aligned Examples.first_gaussian /\
  forall t, t ∈ Spec.attribute_tuples Examples.first_gaussian ->
    t ∈ Spec.attribute_tuples Examples.two_gaussians /\
    (GsRender.default_opacity_threshold <
     Examples.affine_activation (Notions.tuple_opacity t))%Q /\
    (true = true -> (Py.len [Examples.left_view] < 2 ^ 31)%Z ->
     forall view, view ∈ [Examples.left_view] ->
                  Spec.covered view (Notions.tuple_xyz t)).
Proof.
  apply (rendered_gaussians_pass_the_tests Examples.affine_activation
           Examples.two_gaussians Examples.first_gaussian [Examples.left_view] true).
  vm_compute. reflexivity.
Defined.

Lemma render_sets_never_overwrites_witness :
  exists saves train test,
    RenderSets.render_sets Examples.affine_activation nat
      (fun _ _ _ _ => 0%nat) (fun _ => 1%nat) S
      Examples.two_gaussians [Examples.left_view; Examples.turned_view]
      [Examples.left_view] false false false false false false = Ok saves /\
    saves = train ++ test /\
    length train = 4%nat /\ length test = 2%nat /\
    Forall (fun s => RenderSets.set_name nat s = "train"%string) train /\
    Forall (fun s => RenderSets.set_name nat s = "test"%string) test.
Proof.
  eexists.
  destruct (proj1 (render_sets_never_overwrites (fun _ _ _ _ => 0%nat) (fun _ => 1%nat) S
                     Examples.affine_activation Examples.two_gaussians
                     [Examples.left_view; Examples.turned_view] [Examples.left_view]
                     false false false false false false _
                     ltac:(vm_compute; reflexivity)))
    as (train & test & Happ & Hl1 & Hl2 & Ht1 & Ht2).
  exists train, test. split; [vm_compute; reflexivity|].
  split; [exact Happ|]. split; [exact Hl1|]. split; [exact Hl2|].
  split; [exact Ht1 | exact Ht2].
Defined.

(** * Properties of export_render_eval_data.py *)

Section find_obj_idx.
Variable int : String.string -> result Z.

Lemma find_obj_idx_found (data : list (String.string * String.string)) (k : Z) :
  Py.for_each data (ExportRenderEvalData.pick_object int) (Some k) =
  match ExportRenderEvalData.objects data with
  | [] => Ok (Some k)
  | _ :: _ => Raise ValueError
  end.
Proof.
  induction data as [|[key value] data IH]; [done|].
  unfold ExportRenderEvalData.objects in *. cbn [Py.for_each List.filter snd].
  change (ExportRenderEvalData.pick_object int (key, value) (Some k))
    with (if negb (String.eqb value ExportRenderEvalData.CONTROLLER_NAME)
          then Raise ValueError else Ok (Some k)).
  destruct (negb (String.eqb value ExportRenderEvalData.CONTROLLER_NAME));
    cbn [mbind result_bind]; [done | exact IH].
Qed.

(** The search for the object mask returns None when every entry of the mask
    info belongs to the controller and the integer key of the entry that does
    not when there is exactly one; with two or more such entries it raises
    and returns nothing. *)
Theorem find_obj_idx_spec (data : list (String.string * String.string)) :
  ExportRenderEvalData.find_obj_idx int data =
  match ExportRenderEvalData.objects data with
  | [] => Ok None
  | [(key, _)] => k ← int key; Ok (Some k)
  | (key, _) :: _ :: _ => _ ← int key; Raise ValueError
  end.
Proof.
  unfold ExportRenderEvalData.find_obj_idx.
  induction data as [|[key value] data IH]; [done|].
  unfold ExportRenderEvalData.objects in *. cbn [Py.for_each List.filter snd].
  change (ExportRenderEvalData.pick_object int (key, value) None)
    with (if negb (String.eqb value ExportRenderEvalData.CONTROLLER_NAME)
          then k ← int key; Ok (Some k) else Ok None).
  destruct (negb (String.eqb value ExportRenderEvalData.CONTROLLER_NAME)).
  - destruct (int key) as [k|e]; cbn [mbind result_bind].
    + rewrite find_obj_idx_found. unfold ExportRenderEvalData.objects.
      by destruct (List.filter _ data).
    + by destruct (List.filter _ data).
  - cbn [mbind result_bind]. exact IH.
Qed.

End find_obj_idx.

Lemma find_obj_idx_example :
  ExportRenderEvalData.find_obj_idx ExportRenderEvalData.int_of_digits
    [("0", "hand"); ("2", "sloth"); ("1", "hand")]%string = Ok (Some 2%Z) /\
  ExportRenderEvalData.find_obj_idx ExportRenderEvalData.int_of_digits
    [("0", "hand"); ("2", "sloth"); ("1", "rope")]%string = Raise ValueError.
Proof. split; vm_compute; reflexivity. Qed.
